(** * CCDLibrary: a shallow embedding of the CCD-bus protocol driver

    The development follows [src/CCDLibrary.cpp].  The driver object is a
    record of its member variables together with the AVR I/O registers the
    code touches; every member function and interrupt handler is a function
    on that record.  Eight-bit quantities are integers in [Z] with their
    wrap-around written out, the three byte arrays are lists updated by
    index.

    What the hardware supplies is an explicit input of the model:
    - the level of the RX pin at each sampling point of the bit-banged
      first byte ([Sample -> bool]);
    - the successive results of [millis()] and the interrupts that are
      served while [write] polls the bus-idle flag ([list Poll]);
    - the status and data registers read by the receive interrupt.

    Busy-wait delays carry no state and are not represented.  Interrupts are
    served at the polling points of [write]'s wait loop; the staging block
    and the bit-banged byte run without preemption in this model.  The
    one-time configuration ([begin], [serialInit], [busIdleTimerInit]) works
    on the driver and on a second record, [Board], of the registers and
    pins only it touches; the compare value of the idle timer, which the
    source computes in floating point, is a parameter of it. *)

From stdpp Require Import base list numbers.
From Stdlib Require Import ZArith Lia Bool.

Local Open Scope Z_scope.

(** ** Device constants

    Bit positions of the ATmega USART1 and Timer 3 registers, as the AVR
    device header of the toolchain defines them. *)

Definition RXCIE1 : Z := 7.
Definition UDRIE1 : Z := 5.
Definition RXEN1 : Z := 4.
Definition TXEN1 : Z := 3.
Definition FE1 : Z := 4.
Definition DOR1 : Z := 3.
Definition WGM32 : Z := 3.
Definition CS32 : Z := 2.
Definition CS30 : Z := 0.

(** Capacity of [_message], [_serialRxBuffer] and [_serialTxBuffer]; the
    receive handler compares the cursor against this literal. *)
Definition CAPACITY : nat := 16.

(** ** The registers and pins *)

(** [UDR1_out] is the sequence of bytes written to the data register, oldest
    first.  The four pin bits stand for bit [RX_P]/[TX_P] of the direction
    and port registers of the RX and TX lines. *)
Record AVR := mkAVR {
  UCSR1B : Z;
  TCCR3A : Z;
  TCCR3B : Z;
  TCNT3 : Z;
  OCR3A : Z;
  UDR1_out : list Z;
  RX_DDR_bit : bool;
  TX_DDR_bit : bool;
  RX_PORT_bit : bool;
  TX_PORT_bit : bool
}.

Definition io_UCSR1B (v : Z) (s : AVR) : AVR :=
  mkAVR v (TCCR3A s) (TCCR3B s) (TCNT3 s) (OCR3A s) (UDR1_out s) (RX_DDR_bit s) (TX_DDR_bit s) (RX_PORT_bit s) (TX_PORT_bit s).
Definition io_TCCR3A (v : Z) (s : AVR) : AVR :=
  mkAVR (UCSR1B s) v (TCCR3B s) (TCNT3 s) (OCR3A s) (UDR1_out s) (RX_DDR_bit s) (TX_DDR_bit s) (RX_PORT_bit s) (TX_PORT_bit s).
Definition io_TCCR3B (v : Z) (s : AVR) : AVR :=
  mkAVR (UCSR1B s) (TCCR3A s) v (TCNT3 s) (OCR3A s) (UDR1_out s) (RX_DDR_bit s) (TX_DDR_bit s) (RX_PORT_bit s) (TX_PORT_bit s).
Definition io_TCNT3 (v : Z) (s : AVR) : AVR :=
  mkAVR (UCSR1B s) (TCCR3A s) (TCCR3B s) v (OCR3A s) (UDR1_out s) (RX_DDR_bit s) (TX_DDR_bit s) (RX_PORT_bit s) (TX_PORT_bit s).
Definition io_OCR3A (v : Z) (s : AVR) : AVR :=
  mkAVR (UCSR1B s) (TCCR3A s) (TCCR3B s) (TCNT3 s) v (UDR1_out s) (RX_DDR_bit s) (TX_DDR_bit s) (RX_PORT_bit s) (TX_PORT_bit s).
Definition io_UDR1_out (v : list Z) (s : AVR) : AVR :=
  mkAVR (UCSR1B s) (TCCR3A s) (TCCR3B s) (TCNT3 s) (OCR3A s) v (RX_DDR_bit s) (TX_DDR_bit s) (RX_PORT_bit s) (TX_PORT_bit s).
Definition io_RX_DDR_bit (v : bool) (s : AVR) : AVR :=
  mkAVR (UCSR1B s) (TCCR3A s) (TCCR3B s) (TCNT3 s) (OCR3A s) (UDR1_out s) v (TX_DDR_bit s) (RX_PORT_bit s) (TX_PORT_bit s).
Definition io_TX_DDR_bit (v : bool) (s : AVR) : AVR :=
  mkAVR (UCSR1B s) (TCCR3A s) (TCCR3B s) (TCNT3 s) (OCR3A s) (UDR1_out s) (RX_DDR_bit s) v (RX_PORT_bit s) (TX_PORT_bit s).
Definition io_RX_PORT_bit (v : bool) (s : AVR) : AVR :=
  mkAVR (UCSR1B s) (TCCR3A s) (TCCR3B s) (TCNT3 s) (OCR3A s) (UDR1_out s) (RX_DDR_bit s) (TX_DDR_bit s) v (TX_PORT_bit s).
Definition io_TX_PORT_bit (v : bool) (s : AVR) : AVR :=
  mkAVR (UCSR1B s) (TCCR3A s) (TCCR3B s) (TCNT3 s) (OCR3A s) (UDR1_out s) (RX_DDR_bit s) (TX_DDR_bit s) (RX_PORT_bit s) v.

(** ** The driver object *)

Record CCDLibrary := mkCCD {
  _interruptsAvailable : bool;
  _busIdleBits : Z;
  _verifyRxChecksum : bool;
  _calculateTxChecksum : bool;
  _calculatedOCRAValue : Z;
  _message : list Z;
  _messageLength : Z;
  _lastMessageRead : bool;
  _serialRxBuffer : list Z;
  _serialRxBufferPos : Z;
  _serialTxBuffer : list Z;
  _serialTxBufferPos : Z;
  _serialTxLength : Z;
  _busIdle : bool;
  _lastSerialError : Z;
  avr : AVR
}.

Definition set_interruptsAvailable (v : bool) (s : CCDLibrary) : CCDLibrary :=
  mkCCD v (_busIdleBits s) (_verifyRxChecksum s) (_calculateTxChecksum s) (_calculatedOCRAValue s) (_message s) (_messageLength s) (_lastMessageRead s) (_serialRxBuffer s) (_serialRxBufferPos s) (_serialTxBuffer s) (_serialTxBufferPos s) (_serialTxLength s) (_busIdle s) (_lastSerialError s) (avr s).
Definition set_busIdleBits (v : Z) (s : CCDLibrary) : CCDLibrary :=
  mkCCD (_interruptsAvailable s) v (_verifyRxChecksum s) (_calculateTxChecksum s) (_calculatedOCRAValue s) (_message s) (_messageLength s) (_lastMessageRead s) (_serialRxBuffer s) (_serialRxBufferPos s) (_serialTxBuffer s) (_serialTxBufferPos s) (_serialTxLength s) (_busIdle s) (_lastSerialError s) (avr s).
Definition set_verifyRxChecksum (v : bool) (s : CCDLibrary) : CCDLibrary :=
  mkCCD (_interruptsAvailable s) (_busIdleBits s) v (_calculateTxChecksum s) (_calculatedOCRAValue s) (_message s) (_messageLength s) (_lastMessageRead s) (_serialRxBuffer s) (_serialRxBufferPos s) (_serialTxBuffer s) (_serialTxBufferPos s) (_serialTxLength s) (_busIdle s) (_lastSerialError s) (avr s).
Definition set_calculateTxChecksum (v : bool) (s : CCDLibrary) : CCDLibrary :=
  mkCCD (_interruptsAvailable s) (_busIdleBits s) (_verifyRxChecksum s) v (_calculatedOCRAValue s) (_message s) (_messageLength s) (_lastMessageRead s) (_serialRxBuffer s) (_serialRxBufferPos s) (_serialTxBuffer s) (_serialTxBufferPos s) (_serialTxLength s) (_busIdle s) (_lastSerialError s) (avr s).
Definition set_calculatedOCRAValue (v : Z) (s : CCDLibrary) : CCDLibrary :=
  mkCCD (_interruptsAvailable s) (_busIdleBits s) (_verifyRxChecksum s) (_calculateTxChecksum s) v (_message s) (_messageLength s) (_lastMessageRead s) (_serialRxBuffer s) (_serialRxBufferPos s) (_serialTxBuffer s) (_serialTxBufferPos s) (_serialTxLength s) (_busIdle s) (_lastSerialError s) (avr s).
Definition set_message (v : list Z) (s : CCDLibrary) : CCDLibrary :=
  mkCCD (_interruptsAvailable s) (_busIdleBits s) (_verifyRxChecksum s) (_calculateTxChecksum s) (_calculatedOCRAValue s) v (_messageLength s) (_lastMessageRead s) (_serialRxBuffer s) (_serialRxBufferPos s) (_serialTxBuffer s) (_serialTxBufferPos s) (_serialTxLength s) (_busIdle s) (_lastSerialError s) (avr s).
Definition set_messageLength (v : Z) (s : CCDLibrary) : CCDLibrary :=
  mkCCD (_interruptsAvailable s) (_busIdleBits s) (_verifyRxChecksum s) (_calculateTxChecksum s) (_calculatedOCRAValue s) (_message s) v (_lastMessageRead s) (_serialRxBuffer s) (_serialRxBufferPos s) (_serialTxBuffer s) (_serialTxBufferPos s) (_serialTxLength s) (_busIdle s) (_lastSerialError s) (avr s).
Definition set_lastMessageRead (v : bool) (s : CCDLibrary) : CCDLibrary :=
  mkCCD (_interruptsAvailable s) (_busIdleBits s) (_verifyRxChecksum s) (_calculateTxChecksum s) (_calculatedOCRAValue s) (_message s) (_messageLength s) v (_serialRxBuffer s) (_serialRxBufferPos s) (_serialTxBuffer s) (_serialTxBufferPos s) (_serialTxLength s) (_busIdle s) (_lastSerialError s) (avr s).
Definition set_serialRxBuffer (v : list Z) (s : CCDLibrary) : CCDLibrary :=
  mkCCD (_interruptsAvailable s) (_busIdleBits s) (_verifyRxChecksum s) (_calculateTxChecksum s) (_calculatedOCRAValue s) (_message s) (_messageLength s) (_lastMessageRead s) v (_serialRxBufferPos s) (_serialTxBuffer s) (_serialTxBufferPos s) (_serialTxLength s) (_busIdle s) (_lastSerialError s) (avr s).
Definition set_serialRxBufferPos (v : Z) (s : CCDLibrary) : CCDLibrary :=
  mkCCD (_interruptsAvailable s) (_busIdleBits s) (_verifyRxChecksum s) (_calculateTxChecksum s) (_calculatedOCRAValue s) (_message s) (_messageLength s) (_lastMessageRead s) (_serialRxBuffer s) v (_serialTxBuffer s) (_serialTxBufferPos s) (_serialTxLength s) (_busIdle s) (_lastSerialError s) (avr s).
Definition set_serialTxBuffer (v : list Z) (s : CCDLibrary) : CCDLibrary :=
  mkCCD (_interruptsAvailable s) (_busIdleBits s) (_verifyRxChecksum s) (_calculateTxChecksum s) (_calculatedOCRAValue s) (_message s) (_messageLength s) (_lastMessageRead s) (_serialRxBuffer s) (_serialRxBufferPos s) v (_serialTxBufferPos s) (_serialTxLength s) (_busIdle s) (_lastSerialError s) (avr s).
Definition set_serialTxBufferPos (v : Z) (s : CCDLibrary) : CCDLibrary :=
  mkCCD (_interruptsAvailable s) (_busIdleBits s) (_verifyRxChecksum s) (_calculateTxChecksum s) (_calculatedOCRAValue s) (_message s) (_messageLength s) (_lastMessageRead s) (_serialRxBuffer s) (_serialRxBufferPos s) (_serialTxBuffer s) v (_serialTxLength s) (_busIdle s) (_lastSerialError s) (avr s).
Definition set_serialTxLength (v : Z) (s : CCDLibrary) : CCDLibrary :=
  mkCCD (_interruptsAvailable s) (_busIdleBits s) (_verifyRxChecksum s) (_calculateTxChecksum s) (_calculatedOCRAValue s) (_message s) (_messageLength s) (_lastMessageRead s) (_serialRxBuffer s) (_serialRxBufferPos s) (_serialTxBuffer s) (_serialTxBufferPos s) v (_busIdle s) (_lastSerialError s) (avr s).
Definition set_busIdle (v : bool) (s : CCDLibrary) : CCDLibrary :=
  mkCCD (_interruptsAvailable s) (_busIdleBits s) (_verifyRxChecksum s) (_calculateTxChecksum s) (_calculatedOCRAValue s) (_message s) (_messageLength s) (_lastMessageRead s) (_serialRxBuffer s) (_serialRxBufferPos s) (_serialTxBuffer s) (_serialTxBufferPos s) (_serialTxLength s) v (_lastSerialError s) (avr s).
Definition set_lastSerialError (v : Z) (s : CCDLibrary) : CCDLibrary :=
  mkCCD (_interruptsAvailable s) (_busIdleBits s) (_verifyRxChecksum s) (_calculateTxChecksum s) (_calculatedOCRAValue s) (_message s) (_messageLength s) (_lastMessageRead s) (_serialRxBuffer s) (_serialRxBufferPos s) (_serialTxBuffer s) (_serialTxBufferPos s) (_serialTxLength s) (_busIdle s) v (avr s).
Definition set_avr (v : AVR) (s : CCDLibrary) : CCDLibrary :=
  mkCCD (_interruptsAvailable s) (_busIdleBits s) (_verifyRxChecksum s) (_calculateTxChecksum s) (_calculatedOCRAValue s) (_message s) (_messageLength s) (_lastMessageRead s) (_serialRxBuffer s) (_serialRxBufferPos s) (_serialTxBuffer s) (_serialTxBufferPos s) (_serialTxLength s) (_busIdle s) (_lastSerialError s) v.

(** The three arrays have their declared capacity. *)
Definition wf (s : CCDLibrary) : Prop :=
  length (_message s) = CAPACITY /\
  length (_serialRxBuffer s) = CAPACITY /\
  length (_serialTxBuffer s) = CAPACITY.

(** ** Array access and the two byte loops *)

(** [buf[i]].  An index past the end is outside the C++ array; the model
    reads 0 there, and a store past the end (stdpp's [<[i:=x]>]) changes
    nothing.  The statements below that speak about array contents keep
    every index inside the capacity. *)
Definition get (buf : list Z) (i : nat) : Z := default 0 (buf !! i).

(** [for (i = i0; i < i0 + n; i++) dst[i] = src[i];] *)
Fixpoint copy_bytes (n i : nat) (src dst : list Z) : list Z :=
  match n with
  | O => dst
  | S n' => copy_bytes n' (S i) src (<[i := get src i]> dst)
  end.

(** [for (i = i0; i < i0 + n; i++) checksum += buf[i];] on an [uint8_t]
    accumulator. *)
Fixpoint checksum_loop (n i : nat) (buf : list Z) (checksum : Z) : Z :=
  match n with
  | O => checksum
  | S n' => checksum_loop n' (S i) buf ((checksum + get buf i) mod 256)
  end.

(** The sum of a list of bytes, as the specification words it. *)
Definition sumZ (l : list Z) : Z := foldr Z.add 0 l.

(** ** Bus-idle timer *)

Definition busIdleTimerStart (s : CCDLibrary) : CCDLibrary :=
  let io := avr s in
  let io := io_TCCR3B (Z.lor (TCCR3B io) (Z.shiftl 1 WGM32)) io in
  let io := io_TCCR3B (Z.lor (TCCR3B io) (Z.lor (Z.shiftl 1 CS32) (Z.shiftl 1 CS30))) io in
  let io := io_TCNT3 0 io in
  let io := io_OCR3A (_calculatedOCRAValue s) io in
  set_avr io s.

Definition busIdleTimerStop (s : CCDLibrary) : CCDLibrary :=
  let io := avr s in
  let io := io_TCCR3A 0 io in
  let io := io_TCCR3B 0 io in
  let io := io_TCNT3 0 io in
  let io := io_OCR3A 0 io in
  set_avr io s.

(** ** Public API: available, read *)

Definition available (s : CCDLibrary) : bool := negb (_lastMessageRead s).

(** [read] returns the length, the caller's buffer after the copy, and the
    driver after the flag is set. *)
Definition read (target : list Z) (s : CCDLibrary) : Z * list Z * CCDLibrary :=
  let target := copy_bytes (Z.to_nat (_messageLength s)) 0 (_message s) target in
  let s' := set_lastMessageRead true s in
  (_messageLength s', target, s').

(** ** Message assembler *)

Definition processMessage (s : CCDLibrary) : CCDLibrary :=
  if 0 <? _serialRxBufferPos s then
    let s :=
      if _verifyRxChecksum s && (1 <? _serialRxBufferPos s) then
        let checksumLocation := (_serialRxBufferPos s - 1) mod 256 in
        let checksum :=
          checksum_loop (Z.to_nat checksumLocation) 0 (_serialRxBuffer s) 0 in
        if checksum =? get (_serialRxBuffer s) (Z.to_nat checksumLocation) then
          let s := set_message (copy_bytes (Z.to_nat (_serialRxBufferPos s)) 0
                                  (_serialRxBuffer s) (_message s)) s in
          let s := set_messageLength (_serialRxBufferPos s) s in
          set_serialRxBufferPos 0 s
        else
          let s := set_messageLength 0 s in
          set_serialRxBufferPos 0 s
      else
        let s := set_message (copy_bytes (Z.to_nat (_serialRxBufferPos s)) 0
                                (_serialRxBuffer s) (_message s)) s in
        let s := set_messageLength (_serialRxBufferPos s) s in
        set_serialRxBufferPos 0 s in
    set_lastMessageRead false s
  else s.

(** ** Interrupt handlers *)

(** The interrupt sources of the driver.  The receive interrupt carries the
    two registers its handler reads: the status register [UCSR1A] and the
    data register [UDR1].  [INT_IDLE] and [INT_CTRL] are the falling edges
    of the transceiver's idle and control pins, attached to [isrIdle] and
    [isrActiveByte]. *)
Inductive Interrupt :=
  | TIMER3_COMPA_vect
  | USART1_RX_vect (usr data : Z)
  | USART1_UDRE_vect
  | INT_IDLE
  | INT_CTRL.

Definition handle_TIMER3_COMPA_vect (s : CCDLibrary) : CCDLibrary :=
  let s := busIdleTimerStop s in
  let s := set_busIdle true s in
  processMessage s.

Definition busIdleInterruptHandler (s : CCDLibrary) : CCDLibrary :=
  let s := set_busIdle true s in
  processMessage s.

Definition activeByteInterruptHandler (s : CCDLibrary) : CCDLibrary :=
  set_busIdle false s.

Definition handle_USART1_UDRE_vect (s : CCDLibrary) : CCDLibrary :=
  if _serialTxBufferPos s <? _serialTxLength s then
    let io := avr s in
    let io := io_UDR1_out
                (UDR1_out io ++ [get (_serialTxBuffer s) (Z.to_nat (_serialTxBufferPos s))])
                io in
    let s := set_avr io s in
    set_serialTxBufferPos ((_serialTxBufferPos s + 1) mod 256) s
  else
    let io := avr s in
    let io := io_UCSR1B (Z.land (UCSR1B io) (Z.lnot (Z.shiftl 1 UDRIE1))) io in
    let s := set_avr io s in
    let s := set_serialTxBufferPos 0 s in
    set_serialTxLength 0 s.

(** ** The first byte, bit by bit *)

(** The points at which [write] samples the RX pin while it bit-bangs the
    ID byte: the check before the start bit, the start bit, the eight data
    bits and the stop bit. *)
Inductive Sample :=
  | PreCheck
  | StartBit
  | DataBit (i : nat)
  | StopBit.

(** The local variables of the bit-banging block, and the level the code
    last drove on the TX line. *)
Record ArbVars := mkArb {
  IDbyteRX : Z;
  currentRxBit : bool;
  currentTxBit : bool;
  error : bool;
  TX_line : bool
}.

Definition arb_IDbyteRX (v : Z) (s : ArbVars) : ArbVars :=
  mkArb v (currentRxBit s) (currentTxBit s) (error s) (TX_line s).
Definition arb_currentRxBit (v : bool) (s : ArbVars) : ArbVars :=
  mkArb (IDbyteRX s) v (currentTxBit s) (error s) (TX_line s).
Definition arb_currentTxBit (v : bool) (s : ArbVars) : ArbVars :=
  mkArb (IDbyteRX s) (currentRxBit s) v (error s) (TX_line s).
Definition arb_error (v : bool) (s : ArbVars) : ArbVars :=
  mkArb (IDbyteRX s) (currentRxBit s) (currentTxBit s) v (TX_line s).
Definition arb_TX_line (v : bool) (s : ArbVars) : ArbVars :=
  mkArb (IDbyteRX s) (currentRxBit s) (currentTxBit s) (error s) v.

(** The loop over the data bits, least significant first.
    Modelled from the spec: the macros [sbi] and [cbi] of the missing header
    set and clear one bit of their first argument ("drive the transmit line
    to the bit value ... sample the receive line and record the sampled
    bit"). *)
Fixpoint data_bits (n i : nat) (RX_PIN : Sample -> bool) (IDbyteTX : Z)
    (v : ArbVars) : ArbVars :=
  match n with
  | O => v
  | S n' =>
    let v :=
      if negb (error v) then
        let v := arb_currentTxBit (Z.testbit IDbyteTX (Z.of_nat i)) v in
        arb_TX_line (currentTxBit v) v
      else v in
    let v := arb_currentRxBit (RX_PIN (DataBit i)) v in
    let v :=
      if currentRxBit v
      then arb_IDbyteRX (Z.lor (IDbyteRX v) (Z.shiftl 1 (Z.of_nat i))) v
      else v in
    let v :=
      if negb (Bool.eqb (currentRxBit v) (currentTxBit v))
      then arb_error true v
      else v in
    data_bits n' (S i) RX_PIN IDbyteTX v
  end.

(** Start bit, data bits and stop bit of the ID byte; the TX line idles
    high on entry. *)
Definition bit_bang (RX_PIN : Sample -> bool) (IDbyteTX : Z) : ArbVars :=
  let v := mkArb 0 false false false true in
  let v := arb_currentRxBit (RX_PIN PreCheck) v in
  let v := if negb (currentRxBit v) then arb_error true v else v in
  let v :=
    if negb (error v) then
      let v := arb_TX_line false v in
      let v := arb_currentRxBit (RX_PIN StartBit) v in
      if currentRxBit v then arb_error true v else v
    else v in
  let v := data_bits 8 0 RX_PIN IDbyteTX v in
  let v := if negb (error v) then arb_TX_line true v else v in
  let v := arb_currentRxBit (RX_PIN StopBit) v in
  if negb (currentRxBit v) then arb_error true v else v.

(** One pass of the body of the data-bit loop, for bit [i]. *)
Definition data_bit (i : nat) (RX_PIN : Sample -> bool) (IDbyteTX : Z)
    (v : ArbVars) : ArbVars :=
  let v :=
    if negb (error v) then
      let v := arb_currentTxBit (Z.testbit IDbyteTX (Z.of_nat i)) v in
      arb_TX_line (currentTxBit v) v
    else v in
  let v := arb_currentRxBit (RX_PIN (DataBit i)) v in
  let v :=
    if currentRxBit v
    then arb_IDbyteRX (Z.lor (IDbyteRX v) (Z.shiftl 1 (Z.of_nat i))) v
    else v in
  if negb (Bool.eqb (currentRxBit v) (currentTxBit v))
  then arb_error true v
  else v.

(** The two ends of [bit_bang] on their own: the check of the idle line
    with the start bit, up to the entry of the data loop, and the stop bit
    after it. *)
Definition start_bit (RX_PIN : Sample -> bool) : ArbVars :=
  let v := mkArb 0 false false false true in
  let v := arb_currentRxBit (RX_PIN PreCheck) v in
  let v := if negb (currentRxBit v) then arb_error true v else v in
  if negb (error v) then
    let v := arb_TX_line false v in
    let v := arb_currentRxBit (RX_PIN StartBit) v in
    if currentRxBit v then arb_error true v else v
  else v.

Definition stop_bit (RX_PIN : Sample -> bool) (v : ArbVars) : ArbVars :=
  let v := if negb (error v) then arb_TX_line true v else v in
  let v := arb_currentRxBit (RX_PIN StopBit) v in
  if negb (currentRxBit v) then arb_error true v else v.

(** The software-arbitration branch of [write]: returns the status and the
    driver. *)
Definition arbitrate (RX_PIN : Sample -> bool) (s : CCDLibrary)
    : Z * CCDLibrary :=
  let io := avr s in
  let io := io_UCSR1B
              (Z.land (UCSR1B io)
                 (Z.land (Z.land (Z.land (Z.lnot (Z.shiftl 1 RXCIE1))
                                         (Z.lnot (Z.shiftl 1 RXEN1)))
                                 (Z.lnot (Z.shiftl 1 TXEN1)))
                         (Z.lnot (Z.shiftl 1 UDRIE1)))) io in
  let io := io_RX_DDR_bit false io in
  let io := io_TX_DDR_bit true io in
  let io := io_RX_PORT_bit true io in
  let io := io_TX_PORT_bit true io in
  let s := set_avr io s in
  let IDbyteTX := get (_serialTxBuffer s) 0 in
  let v := bit_bang RX_PIN IDbyteTX in
  let s := set_avr (io_TX_PORT_bit (TX_line v) (avr s)) s in
  let s := busIdleTimerStart s in
  let s := set_serialRxBuffer (<[0%nat := IDbyteRX v]> (_serialRxBuffer s)) s in
  let s := set_serialRxBufferPos 1 s in
  let reenable :=
    Z.lor (Z.lor (Z.shiftl 1 RXCIE1) (Z.shiftl 1 RXEN1)) (Z.shiftl 1 TXEN1) in
  if negb (error v) && (IDbyteRX v =? IDbyteTX) then
    let s := set_serialRxBuffer (<[0%nat := IDbyteRX v]> (_serialRxBuffer s)) s in
    let s := set_serialRxBufferPos 1 s in
    let s := set_serialTxBufferPos 1 s in
    let s := set_avr (io_UCSR1B (Z.lor (UCSR1B (avr s)) reenable) (avr s)) s in
    let s := set_avr (io_UCSR1B (Z.lor (UCSR1B (avr s)) (Z.shiftl 1 UDRIE1))
                        (avr s)) s in
    (0, s)
  else
    let s := set_serialRxBuffer (<[0%nat := IDbyteRX v]> (_serialRxBuffer s)) s in
    let s := set_serialRxBufferPos 1 s in
    let s := set_serialTxBufferPos 0 s in
    let s := set_serialTxLength 0 s in
    let s := set_avr (io_UCSR1B (Z.lor (UCSR1B (avr s)) reenable) (avr s)) s in
    (3, s).

(** The staging block of [write]: copy, optional checksum, cursor and
    length.  The stores of the source stay inside the 16-byte transmit
    buffer, and its loads inside the caller's buffer, for [bufferLength] of
    at most 16 and a caller's buffer that long; the properties of [write]
    below are stated for such frames, past them the source writes beyond
    the array and this definition says nothing about it. *)
Definition stage_frame (buffer : list Z) (bufferLength : Z) (s : CCDLibrary)
    : CCDLibrary :=
  let s := set_serialTxBuffer
             (copy_bytes (Z.to_nat bufferLength) 0 buffer (_serialTxBuffer s)) s in
  let s :=
    if _calculateTxChecksum s && (1 <? bufferLength) then
      let checksumLocation := (bufferLength - 1) mod 256 in
      let checksum := checksum_loop (Z.to_nat checksumLocation) 0 buffer 0 in
      set_serialTxBuffer
        (<[Z.to_nat checksumLocation := checksum]> (_serialTxBuffer s)) s
    else s in
  let s := set_serialTxBufferPos 0 s in
  set_serialTxLength bufferLength s.

(** One evaluation of the wait loop of [write]: the interrupts served since
    the previous evaluation, and what [millis()] returns if the loop body
    runs. *)
Record Poll := mkPoll {
  fired : list Interrupt;
  millis : Z
}.

(** A value for the overflow bit in the concrete runs at the end of the
    file; any bit of a byte would do. *)
Definition OVERFLOW_BIT : Z := 4.

Section Driver.

(** The overflow bit of the last-serial-error field, a macro of the missing
    header. *)
Variable UART_BUFFER_OVERFLOW : Z.

Definition handle_USART1_RX_vect (usr data : Z) (s : CCDLibrary) : CCDLibrary :=
  let s := if negb (_interruptsAvailable s) then busIdleTimerStart s else s in
  let s := set_busIdle false s in
  let lastRxError := Z.land usr (Z.lor (Z.shiftl 1 FE1) (Z.shiftl 1 DOR1)) in
  if _serialRxBufferPos s <? 16 then
    let s := set_serialRxBuffer
               (<[Z.to_nat (_serialRxBufferPos s) := data]> (_serialRxBuffer s)) s in
    let s := set_serialRxBufferPos ((_serialRxBufferPos s + 1) mod 256) s in
    set_lastSerialError lastRxError s
  else
    let lastRxError := (Z.lor lastRxError UART_BUFFER_OVERFLOW) mod 256 in
    set_lastSerialError lastRxError s.

Definition ISR (i : Interrupt) (s : CCDLibrary) : CCDLibrary :=
  match i with
  | TIMER3_COMPA_vect => handle_TIMER3_COMPA_vect s
  | USART1_RX_vect usr data => handle_USART1_RX_vect usr data s
  | USART1_UDRE_vect => handle_USART1_UDRE_vect s
  | INT_IDLE => busIdleInterruptHandler s
  | INT_CTRL => activeByteInterruptHandler s
  end.

Definition serve (l : list Interrupt) (s : CCDLibrary) : CCDLibrary :=
  foldl (fun s i => ISR i s) s l.

(** [while (!_busIdle && !timeout) if (millis() - timeout_start > 1000)
    timeout = true;] with [uint32_t] subtraction.  The result is the
    [timeout] flag, the driver, and the polls not consumed; [None] when the
    supplied polls end before the loop does.  Interrupts are served at the
    polls, before the flag is tested; none is served between the last test
    and what [write] does next. *)
Fixpoint wait_idle (timeout_start : Z) (polls : list Poll) (s : CCDLibrary)
    : option (bool * CCDLibrary * list Poll) :=
  match polls with
  | [] => None
  | p :: polls' =>
    let s := serve (fired p) s in
    if _busIdle s then Some (false, s, polls')
    else if 1000 <? (millis p - timeout_start) mod 2 ^ 32
         then Some (true, s, polls')
         else wait_idle timeout_start polls' s
  end.

(** ** Public API: write *)

Definition write (RX_PIN : Sample -> bool) (timeout_start : Z)
    (polls : list Poll) (buffer : list Z) (bufferLength : Z) (s : CCDLibrary)
    : option (Z * CCDLibrary * list Poll) :=
  if bufferLength =? 0 then Some (1, s, polls)
  else
    let s := stage_frame buffer bufferLength s in
    match wait_idle timeout_start polls s with
    | None => None
    | Some (timeout, s, polls') =>
      if (timeout : bool) then Some (2, s, polls')
      else
        let s := set_busIdle false s in
        if _interruptsAvailable s then
          let s := set_avr (io_UCSR1B (Z.lor (UCSR1B (avr s)) (Z.shiftl 1 UDRIE1))
                              (avr s)) s in
          Some (0, s, polls')
        else
          let '(status, s) := arbitrate RX_PIN s in
          Some (status, s, polls')
    end.


(** A run of receive interrupts, one per (status, data) pair, with no other
    interrupt in between. *)
Definition rx_events (evs : list (Z * Z)) : list Interrupt :=
  (fun e => USART1_RX_vect (fst e) (snd e)) <$> evs.

(** ** A driver to run

    The members as [begin] and [serialInit] leave them for the default of
    ten idle bits: empty buffers, nothing to read, the bus idle in the
    hardware-assisted mode; busy, with the idle timer started, in the
    other.  Of the register configuration only [UCSR1B] (receiver,
    transmitter and receive interrupt enabled) and the idle timer are
    represented; 19 is the timer compare value the source comments give for
    ten bits. *)
Definition power_on (interruptsAvailable verifyRxChecksum calculateTxChecksum : bool)
    : CCDLibrary :=
  let s :=
    mkCCD interruptsAvailable 10 verifyRxChecksum calculateTxChecksum
          (if interruptsAvailable then 0 else 19)
          (replicate CAPACITY 0) 0 true
          (replicate CAPACITY 0) 0
          (replicate CAPACITY 0) 0 0
          interruptsAvailable 0
          (mkAVR 152 0 0 0 0 [] false false false false) in
  if interruptsAvailable then s else busIdleTimerStart s.

(** The bus as a transmitter sees it when the byte [b] goes over it
    undisturbed: idle high, a low start bit, the bits of [b], a high stop
    bit. *)
Definition bus_shows (b : Z) (p : Sample) : bool :=
  match p with
  | PreCheck => true
  | StartBit => false
  | DataBit i => Z.testbit b (Z.of_nat i)
  | StopBit => true
  end.

(** Two bytes, 1 and 2, received with verification on: the last byte is not
    the sum of the first. *)
Definition corrupt_frame : CCDLibrary :=
  serve (rx_events [(0, 1); (0, 2)]) (power_on false true false).

(** A two-byte frame assembled with verification off. *)
Definition assembled_frame : CCDLibrary :=
  serve [USART1_RX_vect 0 5; USART1_RX_vect 0 6; TIMER3_COMPA_vect]
    (power_on false false false).

(** Four bytes received with verification on, the last one the sum of the
    others. *)
Definition sound_frame : CCDLibrary :=
  serve (rx_events [(0, 1); (0, 2); (0, 3); (0, 6)]) (power_on false true false).

(** Twenty bytes, 1 to 20, with clean status. *)
Definition twenty_bytes : list (Z * Z) :=
  (fun n => (0, Z.of_nat n)) <$> seq 1 20.

(** Polls of a bus that stays busy while the clock passes one second. *)
Definition busy_polls : list Poll :=
  [mkPoll [] 400; mkPoll [] 1000; mkPoll [] 1001].

(** One poll at which the idle timer has expired. *)
Definition idle_poll : list Poll := [mkPoll [TIMER3_COMPA_vect] 5].

(** ** Start-up

    [begin] also configures registers and pins that no other function of
    the driver touches; they are kept in a record of their own.  The two
    pins of the transceiver are represented by what [pinMode] and
    [attachInterrupt] / [detachInterrupt] of the Arduino core leave behind:
    whether the pull-up is on and whether a handler is attached. *)

Definition COM1A0 : Z := 6.
Definition WGM12 : Z := 3.
Definition CS10 : Z := 0.
Definition DDB5 : Z := 5.
Definition UCSZ10 : Z := 1.
Definition UCSZ11 : Z := 2.
Definition OCIE3A : Z := 1.

Record Board := mkBoard {
  TCCR1A : Z;
  TCCR1B : Z;
  TCNT1 : Z;
  OCR1A : Z;
  DDRB : Z;
  UBRR1H : Z;
  UBRR1L : Z;
  UCSR1C : Z;
  TIMSK3 : Z;
  IDLE_PIN_pullup : bool;
  CTRL_PIN_pullup : bool;
  IDLE_PIN_isr : bool;
  CTRL_PIN_isr : bool
}.

Definition bd_TCCR1A (v : Z) (s : Board) : Board :=
  mkBoard v (TCCR1B s) (TCNT1 s) (OCR1A s) (DDRB s) (UBRR1H s) (UBRR1L s) (UCSR1C s) (TIMSK3 s) (IDLE_PIN_pullup s) (CTRL_PIN_pullup s) (IDLE_PIN_isr s) (CTRL_PIN_isr s).
Definition bd_TCCR1B (v : Z) (s : Board) : Board :=
  mkBoard (TCCR1A s) v (TCNT1 s) (OCR1A s) (DDRB s) (UBRR1H s) (UBRR1L s) (UCSR1C s) (TIMSK3 s) (IDLE_PIN_pullup s) (CTRL_PIN_pullup s) (IDLE_PIN_isr s) (CTRL_PIN_isr s).
Definition bd_TCNT1 (v : Z) (s : Board) : Board :=
  mkBoard (TCCR1A s) (TCCR1B s) v (OCR1A s) (DDRB s) (UBRR1H s) (UBRR1L s) (UCSR1C s) (TIMSK3 s) (IDLE_PIN_pullup s) (CTRL_PIN_pullup s) (IDLE_PIN_isr s) (CTRL_PIN_isr s).
Definition bd_OCR1A (v : Z) (s : Board) : Board :=
  mkBoard (TCCR1A s) (TCCR1B s) (TCNT1 s) v (DDRB s) (UBRR1H s) (UBRR1L s) (UCSR1C s) (TIMSK3 s) (IDLE_PIN_pullup s) (CTRL_PIN_pullup s) (IDLE_PIN_isr s) (CTRL_PIN_isr s).
Definition bd_DDRB (v : Z) (s : Board) : Board :=
  mkBoard (TCCR1A s) (TCCR1B s) (TCNT1 s) (OCR1A s) v (UBRR1H s) (UBRR1L s) (UCSR1C s) (TIMSK3 s) (IDLE_PIN_pullup s) (CTRL_PIN_pullup s) (IDLE_PIN_isr s) (CTRL_PIN_isr s).
Definition bd_UBRR1H (v : Z) (s : Board) : Board :=
  mkBoard (TCCR1A s) (TCCR1B s) (TCNT1 s) (OCR1A s) (DDRB s) v (UBRR1L s) (UCSR1C s) (TIMSK3 s) (IDLE_PIN_pullup s) (CTRL_PIN_pullup s) (IDLE_PIN_isr s) (CTRL_PIN_isr s).
Definition bd_UBRR1L (v : Z) (s : Board) : Board :=
  mkBoard (TCCR1A s) (TCCR1B s) (TCNT1 s) (OCR1A s) (DDRB s) (UBRR1H s) v (UCSR1C s) (TIMSK3 s) (IDLE_PIN_pullup s) (CTRL_PIN_pullup s) (IDLE_PIN_isr s) (CTRL_PIN_isr s).
Definition bd_UCSR1C (v : Z) (s : Board) : Board :=
  mkBoard (TCCR1A s) (TCCR1B s) (TCNT1 s) (OCR1A s) (DDRB s) (UBRR1H s) (UBRR1L s) v (TIMSK3 s) (IDLE_PIN_pullup s) (CTRL_PIN_pullup s) (IDLE_PIN_isr s) (CTRL_PIN_isr s).
Definition bd_TIMSK3 (v : Z) (s : Board) : Board :=
  mkBoard (TCCR1A s) (TCCR1B s) (TCNT1 s) (OCR1A s) (DDRB s) (UBRR1H s) (UBRR1L s) (UCSR1C s) v (IDLE_PIN_pullup s) (CTRL_PIN_pullup s) (IDLE_PIN_isr s) (CTRL_PIN_isr s).
Definition bd_IDLE_PIN_pullup (v : bool) (s : Board) : Board :=
  mkBoard (TCCR1A s) (TCCR1B s) (TCNT1 s) (OCR1A s) (DDRB s) (UBRR1H s) (UBRR1L s) (UCSR1C s) (TIMSK3 s) v (CTRL_PIN_pullup s) (IDLE_PIN_isr s) (CTRL_PIN_isr s).
Definition bd_CTRL_PIN_pullup (v : bool) (s : Board) : Board :=
  mkBoard (TCCR1A s) (TCCR1B s) (TCNT1 s) (OCR1A s) (DDRB s) (UBRR1H s) (UBRR1L s) (UCSR1C s) (TIMSK3 s) (IDLE_PIN_pullup s) v (IDLE_PIN_isr s) (CTRL_PIN_isr s).
Definition bd_IDLE_PIN_isr (v : bool) (s : Board) : Board :=
  mkBoard (TCCR1A s) (TCCR1B s) (TCNT1 s) (OCR1A s) (DDRB s) (UBRR1H s) (UBRR1L s) (UCSR1C s) (TIMSK3 s) (IDLE_PIN_pullup s) (CTRL_PIN_pullup s) v (CTRL_PIN_isr s).
Definition bd_CTRL_PIN_isr (v : bool) (s : Board) : Board :=
  mkBoard (TCCR1A s) (TCCR1B s) (TCNT1 s) (OCR1A s) (DDRB s) (UBRR1H s) (UBRR1L s) (UCSR1C s) (TIMSK3 s) (IDLE_PIN_pullup s) (CTRL_PIN_pullup s) (IDLE_PIN_isr s) v.

Definition serialInit (ubrr : Z) (sb : CCDLibrary * Board) : CCDLibrary * Board :=
  let '(s, b) := sb in
  let s := set_serialRxBufferPos 0 s in
  let s := set_serialTxBufferPos 0 s in
  let s := set_serialTxLength 0 s in
  let s := set_lastSerialError 0 s in
  let b := bd_UBRR1H (Z.land (Z.shiftr ubrr 8) 15) b in
  let b := bd_UBRR1L (Z.land ubrr 255) b in
  let s := set_avr (io_UCSR1B
                      (Z.lor (UCSR1B (avr s))
                         (Z.lor (Z.lor (Z.shiftl 1 RXCIE1) (Z.shiftl 1 RXEN1))
                            (Z.shiftl 1 TXEN1))) (avr s)) s in
  let b := bd_UCSR1C (Z.lor (UCSR1C b)
                        (Z.lor (Z.shiftl 1 UCSZ10) (Z.shiftl 1 UCSZ11))) b in
  (s, b).

(** The compare value of the idle timer is computed in single-precision
    floating point from the clock frequency and [_busIdleBits] and cast to
    [uint8_t]; the embedding takes that computation as the function
    [compare_value] of the idle bits. *)
Definition busIdleTimerInit (compare_value : Z -> Z) (sb : CCDLibrary * Board)
    : CCDLibrary * Board :=
  let '(s, b) := sb in
  let s := set_calculatedOCRAValue (compare_value (_busIdleBits s)) s in
  let io := avr s in
  let io := io_TCCR3A 0 io in
  let io := io_TCCR3B 0 io in
  let io := io_TCNT3 0 io in
  let io := io_OCR3A 0 io in
  let s := set_avr io s in
  let b := bd_TIMSK3 (Z.lor (TIMSK3 b) (Z.shiftl 1 OCIE3A)) b in
  (s, b).

(** [CCD_UBRR] is a macro of the missing header. *)
Definition begin (CCD_UBRR : Z) (compare_value : Z -> Z)
    (interruptsAvailable : bool) (busIdleBits : Z)
    (verifyRxChecksum calculateTxChecksum : bool)
    (sb : CCDLibrary * Board) : CCDLibrary * Board :=
  let '(s, b) := sb in
  let s := set_interruptsAvailable interruptsAvailable s in
  let s := set_busIdleBits busIdleBits s in
  let s := set_verifyRxChecksum verifyRxChecksum s in
  let s := set_calculateTxChecksum calculateTxChecksum s in
  let s := set_messageLength 0 s in
  let s := set_lastMessageRead true s in
  let '(s, b) := serialInit CCD_UBRR (s, b) in
  if _interruptsAvailable s then
    let b := bd_TCCR1A 0 b in
    let b := bd_TCCR1B 0 b in
    let b := bd_TCNT1 0 b in
    let b := bd_DDRB (Z.lor (DDRB b) (Z.shiftl 1 DDB5)) b in
    let b := bd_TCCR1A (Z.lor (TCCR1A b) (Z.shiftl 1 COM1A0)) b in
    let b := bd_OCR1A 7 b in
    let b := bd_TCCR1B (Z.lor (TCCR1B b)
                          (Z.lor (Z.shiftl 1 WGM12) (Z.shiftl 1 CS10))) b in
    let b := bd_IDLE_PIN_pullup true b in
    let b := bd_CTRL_PIN_pullup true b in
    let b := bd_IDLE_PIN_isr true b in
    let b := bd_CTRL_PIN_isr true b in
    let s := set_busIdle true s in
    (s, b)
  else
    let b := bd_TCCR1A 0 b in
    let b := bd_TCCR1B 0 b in
    let b := bd_TCNT1 0 b in
    let b := bd_OCR1A 0 b in
    let b := bd_IDLE_PIN_isr false b in
    let b := bd_CTRL_PIN_isr false b in
    let s := set_busIdle false s in
    let '(s, b) := busIdleTimerInit compare_value (s, b) in
    let s := busIdleTimerStart s in
    (s, b).

(** ** Sequences of calls *)

(** What can happen to the driver after start-up: an interrupt is served,
    or the application calls [read] or [write]. *)
Inductive Call :=
  | Irq (i : Interrupt)
  | Read (target : list Z)
  | Write (RX_PIN : Sample -> bool) (timeout_start : Z) (polls : list Poll)
          (buffer : list Z) (bufferLength : Z).

Definition call (c : Call) (s : CCDLibrary) : option CCDLibrary :=
  match c with
  | Irq i => Some (ISR i s)
  | Read target => Some (snd (read target s))
  | Write RX_PIN timeout_start polls buffer bufferLength =>
    match write RX_PIN timeout_start polls buffer bufferLength s with
    | Some (_, s', _) => Some s'
    | None => None
    end
  end.

Fixpoint calls (cs : list Call) (s : CCDLibrary) : option CCDLibrary :=
  match cs with
  | [] => Some s
  | c :: cs' =>
    match call c s with
    | Some s' => calls cs' s'
    | None => None
    end
  end.

(** A driver object and a board with every member and register zero and
    arrays of the declared capacity. *)
Definition zeroed : CCDLibrary * Board :=
  (mkCCD false 0 false false 0
         (replicate CAPACITY 0) 0 false
         (replicate CAPACITY 0) 0
         (replicate CAPACITY 0) 0 0
         false 0
         (mkAVR 0 0 0 0 0 [] false false false false),
   mkBoard 0 0 0 0 0 0 0 0 0 false false false false).

(** The two interrupts that report an idle bus. *)
Definition idle_event (i : Interrupt) : bool :=
  match i with
  | TIMER3_COMPA_vect | INT_IDLE => true
  | _ => false
  end.

(** No idle event is served at any of the polls. *)
Definition no_idle_event (polls : list Poll) : Prop :=
  Forall (fun p => forallb (fun i => negb (idle_event i)) (fired p) = true) polls.

(** ** What holds between calls *)

(** The arrays have their capacity, the receive cursor and the length of
    the mailbox stay within it, and the staging buffer is empty whenever
    the bus flag says idle. *)
Definition inv (s : CCDLibrary) : Prop :=
  wf s /\
  0 <= _serialRxBufferPos s <= 16 /\
  0 <= _messageLength s <= 16 /\
  (_busIdle s = true -> _serialRxBufferPos s = 0).

(** The part of it that bounds what [read] copies: receive cursor and
    mailbox length within the capacity. *)
Definition bounds (s : CCDLibrary) : Prop :=
  0 <= _serialRxBufferPos s <= 16 /\
  0 <= _messageLength s <= 16.

(** A call within what the buffers hold: [read] into a buffer of at least
    16 bytes, [write] of at most 16 bytes from a buffer that has them. *)
Definition call_ok (c : Call) : Prop :=
  match c with
  | Irq _ => True
  | Read target => (16 <= length target)%nat
  | Write _ _ _ buffer bufferLength =>
    0 <= bufferLength <= 16 /\ (Z.to_nat bufferLength <= length buffer)%nat
  end.

(** The bus echoes the driver: the line is high before the start bit, the
    start bit reads back low, every data bit of [b] reads back as driven and
    the stop bit reads back high. *)
Definition echoed (RX_PIN : Sample -> bool) (b : Z) : Prop :=
  RX_PIN PreCheck = true /\
  RX_PIN StartBit = false /\
  (forall i, (i < 8)%nat -> RX_PIN (DataBit i) = Z.testbit b (Z.of_nat i)) /\
  RX_PIN StopBit = true.

(** The bytes [write] stages for the caller's [buffer] and length [n]: the
    caller's bytes, the last one replaced by the checksum of the others when
    checksum generation is on and the frame has more than one byte. *)
Definition staged_bytes (calculateTxChecksum : bool) (buffer : list Z) (n : Z)
    : list Z :=
  if calculateTxChecksum && (1 <? n)
  then take (Z.to_nat (n - 1)) buffer
       ++ [sumZ (take (Z.to_nat (n - 1)) buffer) mod 256]
  else take (Z.to_nat n) buffer.

(** A run of [k] data-register-empty interrupts. *)
Definition udre_events (k : nat) : list Interrupt := replicate k USART1_UDRE_vect.

(** * Properties *)

(** ** The byte loops *)

Lemma get_lookup (buf : list Z) (i : nat) (x : Z) :
  buf !! i = Some x -> get buf i = x.
Proof. unfold get. intros ->. reflexivity. Qed.

Lemma get_take (buf : list Z) (n i : nat) :
  (i < n)%nat -> get (take n buf) i = get buf i.
Proof. intros Hi. unfold get. rewrite lookup_take_lt by exact Hi. reflexivity. Qed.

Lemma get_insert_eq (buf : list Z) (i : nat) (x : Z) :
  (i < length buf)%nat -> get (<[i := x]> buf) i = x.
Proof. intros Hi. apply get_lookup, list_lookup_insert_eq, Hi. Qed.

Lemma get_insert_ne (buf : list Z) (i j : nat) (x : Z) :
  i <> j -> get (<[i := x]> buf) j = get buf j.
Proof. intros Hne. unfold get. rewrite list_lookup_insert_ne by exact Hne. reflexivity. Qed.

Lemma sumZ_app (l k : list Z) : sumZ (l ++ k) = sumZ l + sumZ k.
Proof. induction l as [|x l IH]; simpl; [reflexivity | rewrite IH; lia]. Qed.

(** The wrapped accumulator computes the sum modulo 256. *)
Lemma checksum_loop_sum (n i : nat) (buf : list Z) (c : Z) :
  0 <= c < 256 ->
  checksum_loop n i buf c = (c + sumZ (take n (drop i buf))) mod 256.
Proof.
  revert i c. induction n as [|n IH]; intros i c Hc; simpl.
  - rewrite Z.add_0_r, Z.mod_small by exact Hc. reflexivity.
  - rewrite IH by (apply Z.mod_pos_bound; lia).
    destruct (buf !! i) as [x|] eqn:Hx.
    + rewrite (drop_S _ _ _ Hx), (get_lookup _ _ _ Hx). simpl.
      rewrite Zplus_mod_idemp_l. f_equal. lia.
    + apply lookup_ge_None_1 in Hx as Hlen.
      unfold get. rewrite Hx. simpl.
      rewrite !drop_ge by lia. rewrite !take_nil. simpl.
      rewrite Zplus_mod_idemp_l. f_equal. lia.
Qed.

Lemma checksum_loop_range (n i : nat) (buf : list Z) :
  0 <= checksum_loop n i buf 0 < 256.
Proof.
  rewrite checksum_loop_sum by lia. apply Z.mod_pos_bound. lia.
Qed.

Lemma length_copy_bytes (n i : nat) (src dst : list Z) :
  length (copy_bytes n i src dst) = length dst.
Proof.
  revert i dst. induction n as [|n IH]; intros i dst; simpl; [reflexivity|].
  rewrite IH. apply length_insert.
Qed.

(** Inside both arrays the copy loop replaces the slice [i .. i+n) of the
    destination by the same slice of the source. *)
Lemma copy_bytes_slice (n i : nat) (src dst : list Z) :
  (i + n <= length src)%nat -> (i + n <= length dst)%nat ->
  copy_bytes n i src dst =
  take i dst ++ take n (drop i src) ++ drop (i + n) dst.
Proof.
  revert i dst. induction n as [|n IH]; intros i dst Hs Hd; simpl.
  - rewrite Nat.add_0_r. simpl. symmetry. apply take_drop.
  - destruct (lookup_lt_is_Some_2 src i ltac:(lia)) as [x Hx].
    rewrite IH by (rewrite ?length_insert; lia).
    rewrite (get_lookup _ _ _ Hx), (drop_S _ _ _ Hx). simpl.
    rewrite (take_S_r _ _ x) by (apply list_lookup_insert_eq; lia).
    rewrite take_insert_ge by lia.
    rewrite drop_insert_lt by lia.
    rewrite <- app_assoc. simpl.
    replace (S (i + n)) with (i + S n)%nat by lia. reflexivity.
Qed.

Lemma copy_bytes_prefix (n : nat) (src dst : list Z) :
  (n <= length src)%nat -> (n <= length dst)%nat ->
  copy_bytes n 0 src dst = take n src ++ drop n dst.
Proof.
  intros Hs Hd. rewrite copy_bytes_slice by (simpl; lia).
  rewrite take_0, drop_0. reflexivity.
Qed.

Lemma take_copy_bytes (n : nat) (src dst : list Z) :
  (n <= length src)%nat -> (n <= length dst)%nat ->
  take n (copy_bytes n 0 src dst) = take n src.
Proof.
  intros Hs Hd. rewrite copy_bytes_prefix by assumption.
  rewrite take_app_le by (rewrite length_take; lia).
  rewrite take_take. f_equal. lia.
Qed.

(** ** The message assembler *)

(** With verification on and more than one byte staged, the assembler
    compares the last byte with the sum of the others modulo 256. *)
Definition checksum_ok (s : CCDLibrary) : Prop :=
  sumZ (take (Z.to_nat (_serialRxBufferPos s - 1)) (_serialRxBuffer s)) mod 256
  = get (_serialRxBuffer s) (Z.to_nat (_serialRxBufferPos s - 1)).

Lemma processMessage_empty (s : CCDLibrary) :
  _serialRxBufferPos s = 0 -> processMessage s = s.
Proof. intros H. unfold processMessage. rewrite H. reflexivity. Qed.

Lemma processMessage_accept (s : CCDLibrary) :
  0 < _serialRxBufferPos s ->
  (_verifyRxChecksum s = false \/ _serialRxBufferPos s = 1 \/
   (1 < _serialRxBufferPos s < 256 /\ checksum_ok s)) ->
  processMessage s =
  set_lastMessageRead false
    (set_serialRxBufferPos 0
       (set_messageLength (_serialRxBufferPos s)
          (set_message (copy_bytes (Z.to_nat (_serialRxBufferPos s)) 0
                          (_serialRxBuffer s) (_message s)) s))).
Proof.
  intros Hpos Hcase. unfold processMessage.
  destruct (Z.ltb_spec 0 (_serialRxBufferPos s)); [|lia].
  destruct (_verifyRxChecksum s) eqn:Hv; simpl; [|reflexivity].
  destruct (Z.ltb_spec 1 (_serialRxBufferPos s)) as [H1|H1]; [|reflexivity].
  destruct Hcase as [Hc|[Hc|[Hr Hc]]]; [discriminate | lia |].
  rewrite Z.mod_small by lia.
  rewrite checksum_loop_sum by lia. rewrite drop_0, Z.add_0_l.
  unfold checksum_ok in Hc. rewrite Hc, Z.eqb_refl. reflexivity.
Qed.

Lemma processMessage_reject (s : CCDLibrary) :
  1 < _serialRxBufferPos s < 256 -> _verifyRxChecksum s = true ->
  ~ checksum_ok s ->
  processMessage s =
  set_lastMessageRead false
    (set_serialRxBufferPos 0 (set_messageLength 0 s)).
Proof.
  intros Hpos Hv Hc. unfold processMessage.
  destruct (Z.ltb_spec 0 (_serialRxBufferPos s)); [|lia].
  rewrite Hv. simpl.
  destruct (Z.ltb_spec 1 (_serialRxBufferPos s)) as [H1|H1]; [|lia].
  rewrite Z.mod_small by lia.
  rewrite checksum_loop_sum by lia. rewrite drop_0, Z.add_0_l.
  unfold checksum_ok in Hc.
  destruct (Z.eqb_spec
              (sumZ (take (Z.to_nat (_serialRxBufferPos s - 1)) (_serialRxBuffer s)) mod 256)
              (get (_serialRxBuffer s) (Z.to_nat (_serialRxBufferPos s - 1))));
    [contradiction | reflexivity].
Qed.

Lemma checksum_ok_dec (s : CCDLibrary) : {checksum_ok s} + {~ checksum_ok s}.
Proof. unfold checksum_ok. apply Z.eq_dec. Qed.

(** The assembler never touches the configuration, the transmit side, the
    bus flag or the registers. *)
Lemma processMessage_frame (s : CCDLibrary) :
  let s' := processMessage s in
  _interruptsAvailable s' = _interruptsAvailable s /\
  _verifyRxChecksum s' = _verifyRxChecksum s /\
  _calculateTxChecksum s' = _calculateTxChecksum s /\
  _serialTxBuffer s' = _serialTxBuffer s /\
  _serialRxBuffer s' = _serialRxBuffer s /\
  _busIdle s' = _busIdle s /\
  length (_message s') = length (_message s).
Proof.
  unfold processMessage.
  destruct (0 <? _serialRxBufferPos s); [|repeat split].
  destruct (_verifyRxChecksum s && (1 <? _serialRxBufferPos s)).
  - destruct (_ =? _); simpl; repeat split; apply length_copy_bytes.
  - simpl; repeat split; apply length_copy_bytes.
Qed.

(** ** What interrupts leave alone *)

(** What no interrupt handler changes: the configuration, the bytes of the
    transmit buffer and the sizes of the arrays. *)
Definition same_frame (s s' : CCDLibrary) : Prop :=
  _interruptsAvailable s' = _interruptsAvailable s /\
  _verifyRxChecksum s' = _verifyRxChecksum s /\
  _calculateTxChecksum s' = _calculateTxChecksum s /\
  _serialTxBuffer s' = _serialTxBuffer s /\
  length (_serialRxBuffer s') = length (_serialRxBuffer s) /\
  length (_message s') = length (_message s).

Lemma same_frame_refl (s : CCDLibrary) : same_frame s s.
Proof. repeat split. Qed.

Lemma same_frame_trans (s1 s2 s3 : CCDLibrary) :
  same_frame s1 s2 -> same_frame s2 s3 -> same_frame s1 s3.
Proof.
  unfold same_frame. intros (A1 & A2 & A3 & A4 & A5 & A6) (B1 & B2 & B3 & B4 & B5 & B6).
  repeat split; congruence.
Qed.

Lemma same_frame_wf (s s' : CCDLibrary) : same_frame s s' -> wf s -> wf s'.
Proof.
  unfold same_frame, wf. intros (_ & _ & _ & A4 & A5 & A6) (W1 & W2 & W3).
  repeat split; congruence.
Qed.

Lemma processMessage_same_frame (s : CCDLibrary) : same_frame s (processMessage s).
Proof.
  destruct (processMessage_frame s) as (A1 & A2 & A3 & A4 & A5 & A6 & A7).
  unfold same_frame. rewrite A5. repeat split; assumption.
Qed.

Lemma ISR_same_frame (i : Interrupt) (s : CCDLibrary) : same_frame s (ISR i s).
Proof.
  destruct i; simpl.
  - unfold handle_TIMER3_COMPA_vect.
    eapply same_frame_trans; [|apply processMessage_same_frame]. repeat split.
  - unfold handle_USART1_RX_vect.
    destruct (negb (_interruptsAvailable s)); simpl;
      destruct (_serialRxBufferPos s <? 16); simpl; repeat split;
      apply length_insert.
  - unfold handle_USART1_UDRE_vect.
    destruct (_serialTxBufferPos s <? _serialTxLength s); repeat split.
  - unfold busIdleInterruptHandler.
    eapply same_frame_trans; [|apply processMessage_same_frame]. repeat split.
  - repeat split.
Qed.

Lemma serve_same_frame (l : list Interrupt) (s : CCDLibrary) :
  same_frame s (serve l s).
Proof.
  revert s. induction l as [|i l IH]; intros s; simpl.
  - apply same_frame_refl.
  - eapply same_frame_trans; [apply ISR_same_frame | apply IH].
Qed.

(** ** The wait loop *)

Lemma wait_idle_same_frame (t0 : Z) (polls : list Poll) (s s' : CCDLibrary)
    (timeout : bool) (rest : list Poll) :
  wait_idle t0 polls s = Some (timeout, s', rest) -> same_frame s s'.
Proof.
  revert s. induction polls as [|p polls IH]; intros s; simpl; [discriminate|].
  pose proof (serve_same_frame (fired p) s) as Hf.
  destruct (_busIdle (serve (fired p) s)).
  - intros [= <- <- <-]. exact Hf.
  - destruct (1000 <? (millis p - t0) mod 2 ^ 32).
    + intros [= <- <- <-]. exact Hf.
    + intros H. eapply same_frame_trans; [exact Hf | apply IH, H].
Qed.

(** The loop leaves with [timeout] clear only when it saw the bus idle. *)
Lemma wait_idle_idle (t0 : Z) (polls : list Poll) (s s' : CCDLibrary)
    (rest : list Poll) :
  wait_idle t0 polls s = Some (false, s', rest) -> _busIdle s' = true.
Proof.
  revert s. induction polls as [|p polls IH]; intros s; simpl; [discriminate|].
  destruct (_busIdle (serve (fired p) s)) eqn:Hb.
  - intros [= <- <-]. exact Hb.
  - destruct (1000 <? (millis p - t0) mod 2 ^ 32); [discriminate | apply IH].
Qed.

(** The loop leaves with [timeout] set only with the bus still busy. *)
Lemma wait_idle_timeout (t0 : Z) (polls : list Poll) (s s' : CCDLibrary)
    (rest : list Poll) :
  wait_idle t0 polls s = Some (true, s', rest) -> _busIdle s' = false.
Proof.
  revert s. induction polls as [|p polls IH]; intros s; simpl; [discriminate|].
  destruct (_busIdle (serve (fired p) s)) eqn:Hb; [discriminate|].
  destruct (1000 <? (millis p - t0) mod 2 ^ 32).
  - intros [= <- <-]. exact Hb.
  - apply IH.
Qed.

(** The clock passing one second at some poll is enough for the loop to
    end, whatever interrupts are served. *)
Definition clock_expires (t0 : Z) (polls : list Poll) : Prop :=
  Exists (fun p => 1000 < (millis p - t0) mod 2 ^ 32) polls.

Lemma wait_idle_terminates (t0 : Z) (polls : list Poll) (s : CCDLibrary) :
  clock_expires t0 polls ->
  exists timeout s' rest, wait_idle t0 polls s = Some (timeout, s', rest).
Proof.
  unfold clock_expires. intros H. revert s.
  induction H as [p polls Hp | p polls _ IH]; intros s; simpl.
  - destruct (_busIdle (serve (fired p) s)); [eauto|].
    destruct (Z.ltb_spec 1000 ((millis p - t0) mod 2 ^ 32)); [eauto | lia].
  - destruct (_busIdle (serve (fired p) s)); [eauto|].
    destruct (1000 <? (millis p - t0) mod 2 ^ 32); [eauto | apply IH].
Qed.

(** With the bus never idle at any poll, an expiring clock gives the
    timeout. *)
Lemma wait_idle_never_idle (t0 : Z) (polls : list Poll) (s : CCDLibrary) :
  clock_expires t0 polls ->
  (forall k, _busIdle (serve (concat (fired <$> take k polls)) s) = false) ->
  exists s' rest, wait_idle t0 polls s = Some (true, s', rest).
Proof.
  unfold clock_expires. intros H. revert s.
  induction H as [p polls Hp | p polls _ IH]; intros s Hbusy; simpl.
  - pose proof (Hbusy 1%nat) as H1. simpl in H1. rewrite app_nil_r in H1.
    rewrite H1.
    destruct (Z.ltb_spec 1000 ((millis p - t0) mod 2 ^ 32)); [eauto | lia].
  - pose proof (Hbusy 1%nat) as H1. simpl in H1. rewrite app_nil_r in H1.
    rewrite H1.
    destruct (1000 <? (millis p - t0) mod 2 ^ 32); [eauto|].
    apply IH. intros k. specialize (Hbusy (S k)). simpl in Hbusy.
    unfold serve in *. rewrite foldl_app in Hbusy. exact Hbusy.
Qed.

(** C1 (amended).  With verification enabled, a cursor above 1 and a last
    byte that differs from the sum modulo 256 of the bytes before it,
    [processMessage] sets the message length to 0, resets the staging
    cursor to 0 and leaves the message bytes alone; it also clears
    [_lastMessageRead], so that [available] answers true for the discarded
    frame: the flag is written on this path like on the accepting ones. *)
Theorem processMessage_checksum_mismatch (s : CCDLibrary) :
  1 < _serialRxBufferPos s <= 16 ->
  _verifyRxChecksum s = true ->
  sumZ (take (Z.to_nat (_serialRxBufferPos s - 1)) (_serialRxBuffer s)) mod 256
    <> get (_serialRxBuffer s) (Z.to_nat (_serialRxBufferPos s - 1)) ->
  let s' := processMessage s in
  _messageLength s' = 0 /\
  _serialRxBufferPos s' = 0 /\
  _message s' = _message s /\
  _lastMessageRead s' = false /\
  available s' = true.
Proof.
  intros Hpos Hv Hsum s'. subst s'.
  rewrite processMessage_reject by (try assumption; lia).
  repeat split.
Qed.

(** C2 (amended).  Two calls of [read] in a row both return the length and
    the bytes of the last assembled message: [read] sets
    [_lastMessageRead] (so [available] is false after the first call) but
    neither tests the flag nor clears the length. *)
Theorem read_twice_same_frame (s : CCDLibrary) (target : list Z) :
  wf s ->
  0 <= _messageLength s <= 16 ->
  (Z.to_nat (_messageLength s) <= length target)%nat ->
  let '(n1, t1, s1) := read target s in
  let '(n2, t2, s2) := read t1 s1 in
  n1 = _messageLength s /\
  take (Z.to_nat n1) t1 = take (Z.to_nat n1) (_message s) /\
  available s1 = false /\
  n2 = _messageLength s /\
  take (Z.to_nat n2) t2 = take (Z.to_nat n2) (_message s) /\
  available s2 = false.
Proof.
  intros (Wm & _ & _) Hlen Ht. unfold read, available. simpl.
  unfold CAPACITY in Wm.
  repeat split.
  - apply take_copy_bytes; lia.
  - apply take_copy_bytes; [lia | rewrite length_copy_bytes; lia].
Qed.

(** C8.  [write] with length 0 returns 1 at once: the driver is returned as
    it was (no byte of the transmit buffer and no length changed) and no
    poll of the wait loop is consumed. *)
Theorem write_zero_length (RX_PIN : Sample -> bool) (t0 : Z)
    (polls : list Poll) (buffer : list Z) (s : CCDLibrary) :
  write RX_PIN t0 polls buffer 0 s = Some (1, s, polls).
Proof. reflexivity. Qed.

(** C10.  An idle event that finds the staging cursor at 0 changes nothing
    of the message state: [processMessage] returns the driver unchanged, and
    after either idle handler the message bytes, the message length and the
    availability flag are what they were. *)
Theorem idle_event_empty_staging (s : CCDLibrary) :
  _serialRxBufferPos s = 0 ->
  processMessage s = s /\
  (let s' := handle_TIMER3_COMPA_vect s in
   _message s' = _message s /\ _messageLength s' = _messageLength s /\
   _lastMessageRead s' = _lastMessageRead s) /\
  (let s' := busIdleInterruptHandler s in
   _message s' = _message s /\ _messageLength s' = _messageLength s /\
   _lastMessageRead s' = _lastMessageRead s).
Proof.
  intros Hpos. split; [apply processMessage_empty, Hpos|].
  unfold handle_TIMER3_COMPA_vect, busIdleInterruptHandler.
  rewrite !processMessage_empty by exact Hpos.
  repeat split.
Qed.

(** ** Staging a frame *)

Lemma copy_bytes_below (n i j : nat) (src dst : list Z) :
  (j < i)%nat -> get (copy_bytes n i src dst) j = get dst j.
Proof.
  revert i dst. induction n as [|n IH]; intros i dst Hj; simpl; [reflexivity|].
  rewrite IH by lia. apply get_insert_ne. lia.
Qed.

Lemma stage_frame_fields (buffer : list Z) (n : Z) (s : CCDLibrary) :
  let s' := stage_frame buffer n s in
  _interruptsAvailable s' = _interruptsAvailable s /\
  _verifyRxChecksum s' = _verifyRxChecksum s /\
  _calculateTxChecksum s' = _calculateTxChecksum s /\
  _message s' = _message s /\
  _serialRxBuffer s' = _serialRxBuffer s /\
  length (_serialTxBuffer s') = length (_serialTxBuffer s) /\
  _serialTxBufferPos s' = 0 /\
  _serialTxLength s' = n /\
  _busIdle s' = _busIdle s.
Proof.
  unfold stage_frame. simpl.
  destruct (_calculateTxChecksum s && (1 <? n)); simpl;
    rewrite ?length_insert, ?length_copy_bytes; repeat split.
Qed.

Lemma stage_frame_wf (buffer : list Z) (n : Z) (s : CCDLibrary) :
  wf s -> wf (stage_frame buffer n s).
Proof.
  intros (W1 & W2 & W3).
  destruct (stage_frame_fields buffer n s) as (_ & _ & _ & A4 & A5 & A6 & _).
  repeat split; congruence.
Qed.

Lemma stage_frame_config (buffer : list Z) (n : Z) (s : CCDLibrary) :
  _interruptsAvailable (stage_frame buffer n s) = _interruptsAvailable s.
Proof.
  destruct (stage_frame_fields buffer n s) as (A & _). exact A.
Qed.

(** The first staged byte is the caller's first byte. *)
Lemma stage_frame_first_byte (buffer : list Z) (n : Z) (s : CCDLibrary) :
  0 < n < 256 -> (0 < length (_serialTxBuffer s))%nat ->
  get (_serialTxBuffer (stage_frame buffer n s)) 0 = get buffer 0.
Proof.
  intros Hn Hlen. unfold stage_frame. simpl.
  assert (Hcopy : get (copy_bytes (Z.to_nat n) 0 buffer (_serialTxBuffer s)) 0
                  = get buffer 0).
  { destruct (Z.to_nat n) as [|k] eqn:Hk; [lia|]. simpl.
    rewrite copy_bytes_below by lia. apply get_insert_eq. exact Hlen. }
  destruct (_calculateTxChecksum s); simpl; [|exact Hcopy].
  destruct (Z.ltb_spec 1 n); simpl; [|exact Hcopy].
  rewrite Z.mod_small by lia.
  rewrite get_insert_ne by lia. exact Hcopy.
Qed.

(** The staged bytes for a frame that fits the buffer. *)
Lemma stage_frame_bytes (buffer : list Z) (n : Z) (s : CCDLibrary) :
  0 < n <= 16 -> (Z.to_nat n <= length buffer)%nat ->
  length (_serialTxBuffer s) = CAPACITY ->
  _serialTxBuffer (stage_frame buffer n s) =
  if _calculateTxChecksum s && (1 <? n)
  then take (Z.to_nat (n - 1)) buffer
       ++ [sumZ (take (Z.to_nat (n - 1)) buffer) mod 256]
       ++ drop (Z.to_nat n) (_serialTxBuffer s)
  else take (Z.to_nat n) buffer ++ drop (Z.to_nat n) (_serialTxBuffer s).
Proof.
  intros Hn Hb Hlen. unfold CAPACITY in Hlen. unfold stage_frame. simpl.
  rewrite copy_bytes_prefix by lia.
  destruct (_calculateTxChecksum s && (1 <? n)) eqn:Hc; simpl; [|reflexivity].
  apply andb_true_iff in Hc as [_ H1]. apply Z.ltb_lt in H1.
  rewrite Z.mod_small by lia.
  rewrite checksum_loop_sum by lia. rewrite drop_0, Z.add_0_l.
  replace (Z.to_nat n) with (S (Z.to_nat (n - 1))) by lia.
  set (k := Z.to_nat (n - 1)).
  assert (Hk : (S k <= length buffer)%nat) by (subst k; lia).
  destruct (lookup_lt_is_Some_2 buffer k ltac:(lia)) as [x Hx].
  rewrite (take_S_r _ _ _ Hx), <- app_assoc. simpl.
  replace k with (length (take k buffer) + 0)%nat at 1
    by (rewrite length_take; lia).
  rewrite insert_app_r. reflexivity.
Qed.

(** ** Arbitration *)

Lemma UDRIE1_set (r : Z) : Z.testbit (Z.lor r (Z.shiftl 1 UDRIE1)) UDRIE1 = true.
Proof. rewrite Z.lor_spec. apply orb_true_r. Qed.

Lemma arbitrate_lost (RX_PIN : Sample -> bool) (s : CCDLibrary) :
  let v := bit_bang RX_PIN (get (_serialTxBuffer s) 0) in
  error v = true \/ IDbyteRX v <> get (_serialTxBuffer s) 0 ->
  exists s', arbitrate RX_PIN s = (3, s') /\
    _serialTxBufferPos s' = 0 /\ _serialTxLength s' = 0 /\
    _serialRxBuffer s' = <[0%nat := IDbyteRX v]> (_serialRxBuffer s) /\
    _serialRxBufferPos s' = 1.
Proof.
  intros v Hv. unfold arbitrate. simpl. fold v.
  assert (Hc : negb (error v) && (IDbyteRX v =? get (_serialTxBuffer s) 0) = false).
  { destruct Hv as [He|Hne]; [rewrite He; reflexivity|].
    apply andb_false_iff. right. apply Z.eqb_neq, Hne. }
  rewrite Hc. eexists; split; [reflexivity|]. simpl.
  rewrite list_insert_insert_eq. repeat split.
Qed.

Lemma arbitrate_won (RX_PIN : Sample -> bool) (s : CCDLibrary) :
  let v := bit_bang RX_PIN (get (_serialTxBuffer s) 0) in
  error v = false -> IDbyteRX v = get (_serialTxBuffer s) 0 ->
  exists s', arbitrate RX_PIN s = (0, s') /\
    _serialTxBufferPos s' = 1 /\ _serialTxLength s' = _serialTxLength s /\
    _serialTxBuffer s' = _serialTxBuffer s /\
    Z.testbit (UCSR1B (avr s')) UDRIE1 = true /\
    _serialRxBuffer s' = <[0%nat := IDbyteRX v]> (_serialRxBuffer s) /\
    _serialRxBufferPos s' = 1.
Proof.
  intros v He Hid. unfold arbitrate. simpl. fold v.
  rewrite He, Hid, Z.eqb_refl. simpl.
  eexists; split; [reflexivity|]. simpl.
  rewrite list_insert_insert_eq. repeat split. apply UDRIE1_set.
Qed.

(** ** write *)

(** [write] as the composition of its blocks once the wait loop has an
    outcome. *)
Lemma write_after_wait (RX_PIN : Sample -> bool) (t0 : Z) (polls : list Poll)
    (buffer : list Z) (n : Z) (s s2 : CCDLibrary) (timeout : bool)
    (rest : list Poll) :
  n <> 0 ->
  wait_idle t0 polls (stage_frame buffer n s) = Some (timeout, s2, rest) ->
  write RX_PIN t0 polls buffer n s =
  if timeout then Some (2, s2, rest)
  else if _interruptsAvailable s
       then Some (0, set_avr (io_UCSR1B (Z.lor (UCSR1B (avr s2)) (Z.shiftl 1 UDRIE1))
                                (avr s2)) (set_busIdle false s2), rest)
       else let '(status, s') := arbitrate RX_PIN (set_busIdle false s2) in
            Some (status, s', rest).
Proof.
  intros Hn Hw. unfold write.
  destruct (Z.eqb_spec n 0) as [|_]; [contradiction|].
  rewrite Hw. destruct timeout; [reflexivity|].
  apply wait_idle_same_frame in Hw as (A & _). simpl.
  rewrite A, stage_frame_config. reflexivity.
Qed.

(** On a timeout the frame staged before the wait is still in the transmit
    buffer: no handler and no statement of [write] takes it out. *)
Lemma write_timeout_keeps_frame (RX_PIN : Sample -> bool) (t0 : Z)
    (polls : list Poll) (buffer : list Z) (n : Z) (s s2 : CCDLibrary)
    (rest : list Poll) :
  n <> 0 ->
  wait_idle t0 polls (stage_frame buffer n s) = Some (true, s2, rest) ->
  write RX_PIN t0 polls buffer n s = Some (2, s2, rest) /\
  _serialTxBuffer s2 = _serialTxBuffer (stage_frame buffer n s).
Proof.
  intros Hn Hw. split.
  - rewrite (write_after_wait _ _ _ _ _ _ _ _ _ Hn Hw). reflexivity.
  - apply wait_idle_same_frame in Hw as (_ & _ & _ & A & _). exact A.
Qed.

Lemma write_zero_length_eq (RX_PIN : Sample -> bool) (t0 : Z)
    (polls : list Poll) (buffer : list Z) (s : CCDLibrary) :
  write RX_PIN t0 polls buffer 0 s = Some (1, s, polls).
Proof. reflexivity. Qed.

(** C4.  Software arbitration, a frame of 1 to 16 bytes (what the
    transmit buffer holds) taken from a caller's buffer that has them, the
    wait ended with the bus idle: when the bit-banged first byte flagged an
    error or the sampled byte differs from the caller's first byte, [write]
    returns 3 with the transmit cursor and length at 0, the sampled byte at
    index 0 of the receive staging buffer and the receive cursor at 1. *)
Theorem write_arbitration_lost (RX_PIN : Sample -> bool) (t0 : Z)
    (polls : list Poll) (buffer : list Z) (bufferLength : Z)
    (s s2 : CCDLibrary) (rest : list Poll) :
  wf s ->
  _interruptsAvailable s = false ->
  0 < bufferLength <= 16 ->
  (Z.to_nat bufferLength <= length buffer)%nat ->
  wait_idle t0 polls (stage_frame buffer bufferLength s) = Some (false, s2, rest) ->
  let v := bit_bang RX_PIN (get buffer 0) in
  error v = true \/ IDbyteRX v <> get buffer 0 ->
  exists s',
    write RX_PIN t0 polls buffer bufferLength s = Some (3, s', rest) /\
    _serialTxBufferPos s' = 0 /\
    _serialTxLength s' = 0 /\
    _serialRxBuffer s' !! 0%nat = Some (IDbyteRX v) /\
    _serialRxBufferPos s' = 1.
Proof.
  intros Hwf Hsw Hn Hbuf Hw v Hv.
  assert (Hn0 : bufferLength <> 0) by lia.
  rewrite (write_after_wait _ _ _ _ _ _ _ _ _ Hn0 Hw), Hsw.
  pose proof (wait_idle_same_frame _ _ _ _ _ _ Hw) as Hf.
  pose proof (same_frame_wf _ _ Hf (stage_frame_wf buffer bufferLength s Hwf))
    as (_ & W2 & _).
  destruct Hf as (_ & _ & _ & Htx & _).
  assert (Hid : get (_serialTxBuffer (set_busIdle false s2)) 0 = get buffer 0).
  { simpl. rewrite Htx. apply stage_frame_first_byte; [lia|].
    destruct Hwf as (_ & _ & W3). rewrite W3. unfold CAPACITY. lia. }
  destruct (arbitrate_lost RX_PIN (set_busIdle false s2))
    as (s' & Harb & H1 & H2 & H3 & H4).
  { rewrite Hid. exact Hv. }
  rewrite Hid in H3. fold v in H3.
  exists s'. rewrite Harb. repeat split; try assumption.
  rewrite H3. simpl. apply list_lookup_insert_eq. rewrite W2. unfold CAPACITY. lia.
Qed.

(** C5.  Software arbitration, a frame of 1 to 16 bytes (what the
    transmit buffer holds) taken from a caller's buffer that has them, the
    wait ended with the bus idle: when the bit-banged first byte flagged no
    error and the sampled byte equals the caller's first byte, [write]
    returns 0 with the transmit cursor at 1 and the data-register-empty
    interrupt enabled; the staged frame and its length are kept, so the next
    such interrupt sends the byte at index 1 of a longer frame. *)
Theorem write_arbitration_won (RX_PIN : Sample -> bool) (t0 : Z)
    (polls : list Poll) (buffer : list Z) (bufferLength : Z)
    (s s2 : CCDLibrary) (rest : list Poll) :
  wf s ->
  _interruptsAvailable s = false ->
  0 < bufferLength <= 16 ->
  (Z.to_nat bufferLength <= length buffer)%nat ->
  wait_idle t0 polls (stage_frame buffer bufferLength s) = Some (false, s2, rest) ->
  let v := bit_bang RX_PIN (get buffer 0) in
  error v = false ->
  IDbyteRX v = get buffer 0 ->
  exists s',
    write RX_PIN t0 polls buffer bufferLength s = Some (0, s', rest) /\
    _serialTxBufferPos s' = 1 /\
    Z.testbit (UCSR1B (avr s')) UDRIE1 = true /\
    _serialTxBuffer s' = _serialTxBuffer (stage_frame buffer bufferLength s) /\
    _serialTxLength s' = _serialTxLength s2 /\
    (1 < _serialTxLength s2 ->
     UDR1_out (avr (handle_USART1_UDRE_vect s'))
     = UDR1_out (avr s') ++ [get (_serialTxBuffer s') 1]).
Proof.
  intros Hwf Hsw Hn Hbuf Hw v He Hsame.
  assert (Hn0 : bufferLength <> 0) by lia.
  rewrite (write_after_wait _ _ _ _ _ _ _ _ _ Hn0 Hw), Hsw.
  pose proof (wait_idle_same_frame _ _ _ _ _ _ Hw) as (_ & _ & _ & Htx & _).
  assert (Hid : get (_serialTxBuffer (set_busIdle false s2)) 0 = get buffer 0).
  { simpl. rewrite Htx. apply stage_frame_first_byte; [lia|].
    destruct Hwf as (_ & _ & W3). rewrite W3. unfold CAPACITY. lia. }
  destruct (arbitrate_won RX_PIN (set_busIdle false s2))
    as (s' & Harb & H1 & H2 & H3 & H4 & _).
  { rewrite Hid. exact He. }
  { rewrite Hid. exact Hsame. }
  simpl in H2, H3.
  exists s'. rewrite Harb. repeat split; try assumption; try congruence.
  intros Hlen. unfold handle_USART1_UDRE_vect.
  rewrite H1, H2.
  destruct (Z.ltb_spec 1 (_serialTxLength s2)); [reflexivity | lia].
Qed.

(** C9.  In the hardware-assisted mode [write] of at most 16 bytes (what
    the transmit buffer holds), taken from a caller's buffer that has them,
    returns 0, 1 or 2 and never 3: whenever it returns 0 the wait ended with
    the bus idle and the driver is the one the wait left, with the bus flag
    cleared and the data-register-empty interrupt enabled.  It gives no
    result only when the supplied polls end before the wait does. *)
Theorem write_hardware_mode_status (RX_PIN : Sample -> bool) (t0 : Z)
    (polls : list Poll) (buffer : list Z) (bufferLength : Z) (s : CCDLibrary) :
  wf s ->
  _interruptsAvailable s = true ->
  0 <= bufferLength <= 16 ->
  (Z.to_nat bufferLength <= length buffer)%nat ->
  match write RX_PIN t0 polls buffer bufferLength s with
  | Some (status, s', rest) =>
    status <> 3 /\
    (status = 0 \/ status = 1 \/ status = 2) /\
    (status = 0 ->
     exists s2,
       wait_idle t0 polls (stage_frame buffer bufferLength s) = Some (false, s2, rest) /\
       s' = set_avr (io_UCSR1B (Z.lor (UCSR1B (avr s2)) (Z.shiftl 1 UDRIE1)) (avr s2))
              (set_busIdle false s2))
  | None =>
    bufferLength <> 0 /\
    wait_idle t0 polls (stage_frame buffer bufferLength s) = None
  end.
Proof.
  intros Hwf Hhw Hrange Hbuf.
  destruct (Z.eq_dec bufferLength 0) as [->|Hn].
  { rewrite write_zero_length_eq. repeat split; [lia | lia | discriminate]. }
  destruct (wait_idle t0 polls (stage_frame buffer bufferLength s))
    as [[[timeout s2] rest]|] eqn:Hw.
  - rewrite (write_after_wait _ _ _ _ _ _ _ _ _ Hn Hw), Hhw.
    destruct timeout.
    + repeat split; [lia | lia | discriminate].
    + repeat split; [lia | lia |]. intros _. exists s2. split; reflexivity.
  - unfold write. destruct (Z.eqb_spec bufferLength 0); [contradiction|].
    rewrite Hw. split; [assumption | reflexivity].
Qed.

(** ** Receiving *)

Lemma overflow_bit_recorded (e : Z) :
  0 <= UART_BUFFER_OVERFLOW < 256 ->
  Z.land (Z.lor e UART_BUFFER_OVERFLOW mod 256) UART_BUFFER_OVERFLOW
  = UART_BUFFER_OVERFLOW.
Proof.
  intros Hr. change 256 with (2 ^ 8). rewrite <- Z.land_ones by lia.
  apply Z.bits_inj'. intros n Hn.
  rewrite !Z.land_spec, Z.lor_spec.
  destruct (Z.testbit UART_BUFFER_OVERFLOW n) eqn:Hb;
    [|apply andb_false_r].
  rewrite orb_true_r, andb_true_r. simpl.
  destruct (Z_lt_ge_dec n 8) as [Hlt|Hge].
  - apply Z.ones_spec_low. lia.
  - exfalso. destruct (Z.eq_dec UART_BUFFER_OVERFLOW 0) as [H0|H0].
    + rewrite H0, Z.bits_0 in Hb. discriminate.
    + rewrite Z.bits_above_log2 in Hb; [discriminate | lia |].
      assert (Z.log2 UART_BUFFER_OVERFLOW < 8)
        by (apply Z.log2_lt_pow2; lia).
      lia.
Qed.

(** One received byte with room in the buffer. *)
Lemma rx_byte_stored (usr data : Z) (s : CCDLibrary) :
  0 <= _serialRxBufferPos s < 16 ->
  let s' := handle_USART1_RX_vect usr data s in
  _serialRxBufferPos s' = _serialRxBufferPos s + 1 /\
  _serialRxBuffer s' =
    <[Z.to_nat (_serialRxBufferPos s) := data]> (_serialRxBuffer s).
Proof.
  intros Hpos. unfold handle_USART1_RX_vect.
  destruct (negb (_interruptsAvailable s)); simpl;
    (destruct (Z.ltb_spec (_serialRxBufferPos s) 16); [|lia]); simpl;
    rewrite Z.mod_small by lia; split; reflexivity.
Qed.

(** One received byte with the buffer full. *)
Lemma rx_byte_dropped (usr data : Z) (s : CCDLibrary) :
  16 <= _serialRxBufferPos s ->
  let s' := handle_USART1_RX_vect usr data s in
  _serialRxBufferPos s' = _serialRxBufferPos s /\
  _serialRxBuffer s' = _serialRxBuffer s /\
  _lastSerialError s' =
    Z.lor (Z.land usr (Z.lor (Z.shiftl 1 FE1) (Z.shiftl 1 DOR1)))
      UART_BUFFER_OVERFLOW mod 256.
Proof.
  intros Hpos. unfold handle_USART1_RX_vect.
  destruct (negb (_interruptsAvailable s)); simpl;
    (destruct (Z.ltb_spec (_serialRxBufferPos s) 16); [lia|]); simpl;
    repeat split; reflexivity.
Qed.

Lemma rx_byte_message (usr data : Z) (s : CCDLibrary) :
  let s' := handle_USART1_RX_vect usr data s in
  _message s' = _message s /\ _messageLength s' = _messageLength s /\
  _lastMessageRead s' = _lastMessageRead s.
Proof.
  unfold handle_USART1_RX_vect.
  destruct (negb (_interruptsAvailable s)); simpl;
    destruct (_serialRxBufferPos s <? 16); simpl; repeat split.
Qed.

Lemma serve_snoc (l : list Interrupt) (i : Interrupt) (s : CCDLibrary) :
  serve (l ++ [i]) s = ISR i (serve l s).
Proof. unfold serve. rewrite foldl_app. reflexivity. Qed.

(** The cursor and the staged bytes after a run of receive interrupts: the
    cursor saturates at 16 and the staged bytes are the first 16 of what was
    staged followed by what arrived. *)
Lemma rx_run (evs : list (Z * Z)) (s : CCDLibrary) :
  length (_serialRxBuffer s) = CAPACITY ->
  0 <= _serialRxBufferPos s <= 16 ->
  let s' := serve (rx_events evs) s in
  _serialRxBufferPos s' = Z.min (_serialRxBufferPos s + Z.of_nat (length evs)) 16 /\
  length (_serialRxBuffer s') = CAPACITY /\
  take (Z.to_nat (_serialRxBufferPos s')) (_serialRxBuffer s') =
    take 16 (take (Z.to_nat (_serialRxBufferPos s)) (_serialRxBuffer s)
             ++ (snd <$> evs)).
Proof.
  intros Hlen Hpos. unfold CAPACITY in *.
  induction evs as [|[usr data] evs IH] using rev_ind; simpl.
  - repeat split; [lia | assumption |].
    rewrite app_nil_r, take_take. f_equal. lia.
  - destruct IH as (IHpos & IHlen & IHtake).
    unfold rx_events. rewrite !fmap_app, length_app. simpl.
    fold (rx_events evs). rewrite serve_snoc. simpl.
    set (s1 := serve (rx_events evs) s) in *.
    set (front := take (Z.to_nat (_serialRxBufferPos s)) (_serialRxBuffer s)) in *.
    assert (Hfront : length front = Z.to_nat (_serialRxBufferPos s))
      by (subst front; rewrite length_take; lia).
    destruct (Z_lt_ge_dec (_serialRxBufferPos s1) 16) as [Hlt|Hge].
    + destruct (rx_byte_stored usr data s1 ltac:(lia)) as (Hp & Hb).
      rewrite Hp, Hb, length_insert. repeat split; [lia | assumption |].
      replace (Z.to_nat (_serialRxBufferPos s1 + 1))
        with (S (Z.to_nat (_serialRxBufferPos s1))) by lia.
      rewrite (take_S_r _ _ data) by (apply list_lookup_insert_eq; lia).
      rewrite take_insert_ge by lia. rewrite IHtake.
      rewrite app_assoc.
      rewrite (take_ge _ 16)
        by (rewrite length_app, length_fmap, Hfront; lia).
      rewrite (take_ge _ 16)
        by (rewrite !length_app, length_fmap, Hfront; simpl; lia).
      reflexivity.
    + destruct (rx_byte_dropped usr data s1 ltac:(lia)) as (Hp & Hb & _).
      rewrite Hp, Hb. repeat split; [lia | assumption |].
      rewrite IHtake, app_assoc.
      symmetry. apply take_app_le.
      rewrite length_app, length_fmap, Hfront. lia.
Qed.

Lemma processMessage_set_busIdle (b : bool) (s : CCDLibrary) :
  processMessage (set_busIdle b s) = set_busIdle b (processMessage s).
Proof.
  destruct s. unfold processMessage. simpl.
  repeat match goal with |- context [if ?c then _ else _] => destruct c end;
    reflexivity.
Qed.

Lemma processMessage_set_avr (io : AVR) (s : CCDLibrary) :
  processMessage (set_avr io s) = set_avr io (processMessage s).
Proof.
  destruct s. unfold processMessage. simpl.
  repeat match goal with |- context [if ?c then _ else _] => destruct c end;
    reflexivity.
Qed.

(** Both idle handlers assemble what [processMessage] assembles. *)
Lemma idle_handlers_message (idle : CCDLibrary -> CCDLibrary) (s : CCDLibrary) :
  idle = handle_TIMER3_COMPA_vect \/ idle = busIdleInterruptHandler ->
  _message (idle s) = _message (processMessage s) /\
  _messageLength (idle s) = _messageLength (processMessage s) /\
  _lastMessageRead (idle s) = _lastMessageRead (processMessage s) /\
  _serialRxBufferPos (idle s) = _serialRxBufferPos (processMessage s).
Proof.
  intros [->| ->].
  - unfold handle_TIMER3_COMPA_vect, busIdleTimerStop.
    rewrite processMessage_set_busIdle, processMessage_set_avr.
    repeat split.
  - unfold busIdleInterruptHandler. rewrite processMessage_set_busIdle.
    repeat split.
Qed.

(** C7.  A run of receive interrupts with no idle event in between, from a
    cursor within the capacity: the cursor is the number of bytes staged
    capped at 16 and never exceeds 16; the staged bytes are the first 16 of
    what was staged followed by what arrived; with the buffer full a further
    byte leaves cursor and bytes as they are and records the overflow bit in
    [_lastSerialError]; and the next idle event (either handler) assembles
    exactly those 16 bytes, accepted or discarded as their checksum
    dictates. *)
Theorem rx_overflow_keeps_first_16 (evs : list (Z * Z)) (usr data : Z)
    (s : CCDLibrary) :
  wf s ->
  0 <= _serialRxBufferPos s <= 16 ->
  0 <= UART_BUFFER_OVERFLOW < 256 ->
  let received := _serialRxBufferPos s + Z.of_nat (length evs) in
  let frame :=
    take 16 (take (Z.to_nat (_serialRxBufferPos s)) (_serialRxBuffer s)
             ++ (snd <$> evs)) in
  let s' := serve (rx_events evs) s in
  _serialRxBufferPos s' = Z.min received 16 /\
  _serialRxBufferPos s' <= 16 /\
  take (Z.to_nat (_serialRxBufferPos s')) (_serialRxBuffer s') = frame /\
  (16 < received -> Z.land (_lastSerialError s') UART_BUFFER_OVERFLOW
                    = UART_BUFFER_OVERFLOW) /\
  (16 <= received ->
   let s1 := handle_USART1_RX_vect usr data s' in
   _serialRxBufferPos s1 = 16 /\
   _serialRxBuffer s1 = _serialRxBuffer s' /\
   Z.land (_lastSerialError s1) UART_BUFFER_OVERFLOW = UART_BUFFER_OVERFLOW) /\
  (16 <= received ->
   forall idle : CCDLibrary -> CCDLibrary,
     idle = handle_TIMER3_COMPA_vect \/ idle = busIdleInterruptHandler ->
     let s'' := idle s' in
     _serialRxBufferPos s'' = 0 /\
     (_verifyRxChecksum s = false \/
      sumZ (take 15 frame) mod 256 = get frame 15 ->
      _messageLength s'' = 16 /\ _message s'' = frame) /\
     (_verifyRxChecksum s = true ->
      sumZ (take 15 frame) mod 256 <> get frame 15 ->
      _messageLength s'' = 0)).
Proof.
  intros Hwf Hpos Hovf received frame s'.
  destruct (rx_run evs s) as (Hp & Hlen & Htake);
    [apply Hwf | exact Hpos |].
  fold s' in Hp, Hlen, Htake. fold received in Hp. fold frame in Htake.
  pose proof (serve_same_frame (rx_events evs) s) as Hf. fold s' in Hf.
  pose proof (same_frame_wf _ _ Hf Hwf) as (Wm & _ & _).
  destruct Hf as (_ & Hver & _).
  unfold CAPACITY in *.
  split; [exact Hp|]. split; [lia|]. split; [exact Htake|].
  split; [|split].
  - (* the last byte of an overlong run met a full buffer *)
    intros Hover.
    destruct (exists_last (l := evs)) as (evs0 & [usr0 data0] & Hsplit).
    { intros ->. subst received. simpl in Hover. lia. }
    subst s'. rewrite Hsplit. unfold rx_events. rewrite fmap_app. simpl.
    fold (rx_events evs0). rewrite serve_snoc. simpl.
    destruct (rx_run evs0 s) as (Hp0 & _); [apply Hwf | exact Hpos |].
    assert (Hlen0 : Z.of_nat (length evs) = Z.of_nat (length evs0) + 1)
      by (rewrite Hsplit, length_app; simpl; lia).
    destruct (rx_byte_dropped usr0 data0 (serve (rx_events evs0) s))
      as (_ & _ & He); [subst received; lia|].
    rewrite He. apply overflow_bit_recorded, Hovf.
  - intros Hfull.
    destruct (rx_byte_dropped usr data s') as (A & B & C); [lia|].
    rewrite A, B, C. repeat split; [lia|].
    apply overflow_bit_recorded, Hovf.
  - intros Hfull idle Hidle.
    destruct (idle_handlers_message idle s' Hidle) as (-> & -> & _ & ->).
    assert (Hp16 : _serialRxBufferPos s' = 16) by lia.
    assert (Hrx : _serialRxBuffer s' = frame).
    { rewrite <- Htake, Hp16. symmetry. apply take_ge. lia. }
    destruct (checksum_ok_dec s') as [Hok|Hbad].
    + rewrite processMessage_accept by (rewrite ?Hp16; try lia; auto with lia).
      simpl. rewrite Hp16. split; [reflexivity|]. split.
      * intros _. split; [reflexivity|].
        rewrite copy_bytes_prefix by (simpl; lia).
        rewrite (drop_ge (_message s')) by (simpl; lia).
        rewrite app_nil_r, <- Hrx. apply take_ge. simpl. lia.
      * intros _ Hne. exfalso. apply Hne.
        unfold checksum_ok in Hok. rewrite Hp16, Hrx in Hok. exact Hok.
    + destruct (_verifyRxChecksum s') eqn:Hv.
      * rewrite processMessage_reject by (rewrite ?Hp16; try lia; auto).
        simpl. split; [reflexivity|]. split; [|reflexivity].
        intros [Hoff|Hsum]; [congruence|].
        exfalso. apply Hbad. unfold checksum_ok. rewrite Hp16, Hrx. exact Hsum.
      * rewrite processMessage_accept by (rewrite ?Hp16; try lia; auto).
        simpl. rewrite Hp16. split; [reflexivity|]. split; [|congruence].
        intros _. split; [reflexivity|].
        rewrite copy_bytes_prefix by (simpl; lia).
        rewrite (drop_ge (_message s')) by (simpl; lia).
        rewrite app_nil_r, <- Hrx. apply take_ge. simpl. lia.
Qed.

(** ** Checksums on both sides *)

Lemma arbitrate_tx_buffer (RX_PIN : Sample -> bool) (s : CCDLibrary) :
  _serialTxBuffer (snd (arbitrate RX_PIN s)) = _serialTxBuffer s.
Proof.
  unfold arbitrate. simpl.
  destruct (negb _ && _); reflexivity.
Qed.

(** Whatever [write] returns for a non-empty frame, the transmit buffer
    holds the bytes staged before the wait. *)
Lemma write_tx_buffer (RX_PIN : Sample -> bool) (t0 : Z) (polls : list Poll)
    (buffer : list Z) (n : Z) (s s' : CCDLibrary) (status : Z)
    (rest : list Poll) :
  n <> 0 ->
  write RX_PIN t0 polls buffer n s = Some (status, s', rest) ->
  _serialTxBuffer s' = _serialTxBuffer (stage_frame buffer n s).
Proof.
  intros Hn Hwr.
  destruct (wait_idle t0 polls (stage_frame buffer n s))
    as [[[timeout s2] rest2]|] eqn:Hw.
  - rewrite (write_after_wait _ _ _ _ _ _ _ _ _ Hn Hw) in Hwr.
    apply wait_idle_same_frame in Hw as (_ & _ & _ & Htx & _).
    destruct timeout; [injection Hwr as <- <- <-; exact Htx|].
    destruct (_interruptsAvailable s).
    + injection Hwr as <- <- <-. exact Htx.
    + pose proof (arbitrate_tx_buffer RX_PIN (set_busIdle false s2)) as Ha.
      destruct (arbitrate RX_PIN (set_busIdle false s2)) as [st sa].
      injection Hwr as <- <- <-. simpl in Ha. congruence.
  - unfold write in Hwr. destruct (Z.eqb_spec n 0); [contradiction|].
    rewrite Hw in Hwr. discriminate.
Qed.

(** C6.  Transmit side: for a frame of 2 to 16 bytes with checksum
    generation on, [write] (which returns once the clock expires at the
    latest) leaves the sum modulo 256 of bytes 0 .. length-2 of the caller's
    buffer at index length-1 of the transmit buffer, after the caller's
    bytes 0 .. length-2.  Receive side: with verification on and 2 to 16
    bytes staged, [processMessage] accepts the frame (the message is the
    staged frame, with its length) exactly when the last byte equals the sum
    modulo 256 of the bytes before it, and gives length 0 otherwise. *)
Theorem checksum_stamp_and_verify (RX_PIN : Sample -> bool) (t0 : Z)
    (polls : list Poll) (buffer : list Z) (bufferLength : Z)
    (sender receiver : CCDLibrary) :
  wf sender ->
  _calculateTxChecksum sender = true ->
  2 <= bufferLength <= 16 ->
  (Z.to_nat bufferLength <= length buffer)%nat ->
  clock_expires t0 polls ->
  wf receiver ->
  _verifyRxChecksum receiver = true ->
  2 <= _serialRxBufferPos receiver <= 16 ->
  (exists status sender' rest,
     write RX_PIN t0 polls buffer bufferLength sender = Some (status, sender', rest) /\
     _serialTxBuffer sender' !! Z.to_nat (bufferLength - 1)
       = Some (sumZ (take (Z.to_nat (bufferLength - 1)) buffer) mod 256) /\
     take (Z.to_nat (bufferLength - 1)) (_serialTxBuffer sender')
       = take (Z.to_nat (bufferLength - 1)) buffer) /\
  (let n := Z.to_nat (_serialRxBufferPos receiver) in
   let frame := take n (_serialRxBuffer receiver) in
   let receiver' := processMessage receiver in
   ((_messageLength receiver' = _serialRxBufferPos receiver /\
     take n (_message receiver') = frame)
    <-> get frame (n - 1) = sumZ (take (n - 1) frame) mod 256) /\
   (get frame (n - 1) <> sumZ (take (n - 1) frame) mod 256 ->
    _messageLength receiver' = 0)).
Proof.
  intros Hwf Hcalc Hn Hbuf Hclock Hwfr Hver Hpos. split.
  - destruct (wait_idle_terminates t0 polls (stage_frame buffer bufferLength sender) Hclock)
      as (timeout & s2 & rest & Hw).
    assert (Hn0 : bufferLength <> 0) by lia.
    pose proof (write_after_wait RX_PIN _ _ _ _ _ _ _ _ Hn0 Hw) as Hwr.
    assert (Hex : exists status sender' rest',
               write RX_PIN t0 polls buffer bufferLength sender
               = Some (status, sender', rest')).
    { rewrite Hwr. destruct timeout; [eauto|].
      destruct (_interruptsAvailable sender); [eauto|].
      destruct (arbitrate RX_PIN (set_busIdle false s2)); eauto. }
    destruct Hex as (status & sender' & rest' & Hres).
    exists status, sender', rest'. split; [exact Hres|].
    rewrite (write_tx_buffer _ _ _ _ _ _ _ _ _ Hn0 Hres).
    destruct Hwf as (_ & _ & W3).
    rewrite stage_frame_bytes by (try assumption; lia).
    rewrite Hcalc. destruct (Z.ltb_spec 1 bufferLength); [|lia]. simpl.
    assert (Hk : length (take (Z.to_nat (bufferLength - 1)) buffer)
                 = Z.to_nat (bufferLength - 1))
      by (rewrite length_take; lia).
    split.
    + rewrite lookup_app_r by lia. rewrite Hk, Nat.sub_diag. reflexivity.
    + rewrite take_app_le by lia. apply take_ge. lia.
  - intros n frame receiver'.
    destruct Hwfr as (Wm & Wr & _). unfold CAPACITY in *.
    assert (Hsum : sumZ (take (n - 1) frame) mod 256
                   = sumZ (take (Z.to_nat (_serialRxBufferPos receiver - 1))
                             (_serialRxBuffer receiver)) mod 256).
    { subst frame n. rewrite take_take.
      do 2 f_equal. f_equal. lia. }
    assert (Hlast : get frame (n - 1)
                    = get (_serialRxBuffer receiver)
                        (Z.to_nat (_serialRxBufferPos receiver - 1))).
    { subst frame n. rewrite get_take by lia. f_equal. lia. }
    rewrite Hsum, Hlast.
    destruct (checksum_ok_dec receiver) as [Hok|Hbad].
    + subst receiver'.
      rewrite processMessage_accept
        by first [lia | right; right; split; [lia | exact Hok]].
      simpl. unfold checksum_ok in Hok. split.
      * split; [intros _; symmetry; exact Hok|].
        intros _. split; [reflexivity|].
        subst n frame. apply take_copy_bytes; lia.
      * intros Hne. exfalso. apply Hne. symmetry. exact Hok.
    + subst receiver'.
      rewrite processMessage_reject by (try assumption; lia).
      simpl. unfold checksum_ok in Hbad. split.
      * split; [intros [Hl _]; lia|].
        intros Heq. exfalso. apply Hbad. symmetry. exact Heq.
      * reflexivity.
Qed.

(** ** The bit-banged byte *)

Lemma data_bits_step (n i : nat) (RX_PIN : Sample -> bool) (b : Z) (v : ArbVars) :
  data_bits (S n) i RX_PIN b v = data_bits n (S i) RX_PIN b (data_bit i RX_PIN b v).
Proof. reflexivity. Qed.

Lemma bit_bang_phases (RX_PIN : Sample -> bool) (b : Z) :
  bit_bang RX_PIN b = stop_bit RX_PIN (data_bits 8 0 RX_PIN b (start_bit RX_PIN)).
Proof. reflexivity. Qed.

(** What one pass does to each variable. *)
Lemma data_bit_fields (i : nat) (RX_PIN : Sample -> bool) (b : Z) (v : ArbVars) :
  let v' := data_bit i RX_PIN b v in
  IDbyteRX v' = (if RX_PIN (DataBit i)
                 then Z.lor (IDbyteRX v) (Z.shiftl 1 (Z.of_nat i))
                 else IDbyteRX v) /\
  error v' = (if error v then true
              else negb (Bool.eqb (RX_PIN (DataBit i)) (Z.testbit b (Z.of_nat i)))) /\
  TX_line v' = (if error v then TX_line v else Z.testbit b (Z.of_nat i)) /\
  currentTxBit v' = (if error v then currentTxBit v else Z.testbit b (Z.of_nat i)).
Proof.
  destruct v as [rx crx ctx err txl]. unfold data_bit. simpl.
  destruct err, (RX_PIN (DataBit i)), ctx, (Z.testbit b (Z.of_nat i));
    simpl; repeat split.
Qed.

Lemma start_bit_fields (RX_PIN : Sample -> bool) :
  IDbyteRX (start_bit RX_PIN) = 0 /\
  error (start_bit RX_PIN) = negb (RX_PIN PreCheck) || RX_PIN StartBit /\
  TX_line (start_bit RX_PIN) = negb (RX_PIN PreCheck).
Proof.
  unfold start_bit. simpl.
  destruct (RX_PIN PreCheck), (RX_PIN StartBit); simpl; repeat split.
Qed.

Lemma stop_bit_fields (RX_PIN : Sample -> bool) (v : ArbVars) :
  IDbyteRX (stop_bit RX_PIN v) = IDbyteRX v /\
  error (stop_bit RX_PIN v) = error v || negb (RX_PIN StopBit) /\
  TX_line (stop_bit RX_PIN v) = (if error v then TX_line v else true).
Proof.
  destruct v as [rx crx ctx err txl]. unfold stop_bit. simpl.
  destruct err, (RX_PIN StopBit); simpl; repeat split.
Qed.

(** Once arbitration is lost the loop only listens: the error stays, and
    the TX line is not driven again. *)
Lemma data_bits_listen_only (n i : nat) (RX_PIN : Sample -> bool) (b : Z)
    (v : ArbVars) :
  error v = true ->
  error (data_bits n i RX_PIN b v) = true /\
  TX_line (data_bits n i RX_PIN b v) = TX_line v.
Proof.
  revert i v. induction n as [|n IH]; intros i v He; [split; [exact He | reflexivity]|].
  rewrite data_bits_step.
  destruct (data_bit_fields i RX_PIN b v) as (_ & He' & Htx & _).
  rewrite He in He', Htx.
  destruct (IH (S i) _ He') as (H1 & H2).
  split; [exact H1 | congruence].
Qed.

(** The loop ends without an error exactly when every bit driven was read
    back. *)
Lemma data_bits_error (n i : nat) (RX_PIN : Sample -> bool) (b : Z) (v : ArbVars) :
  error v = false ->
  error (data_bits n i RX_PIN b v) = false <->
  (forall j, (i <= j < i + n)%nat -> RX_PIN (DataBit j) = Z.testbit b (Z.of_nat j)).
Proof.
  revert i v. induction n as [|n IH]; intros i v He.
  - simpl. split; [intros _ j Hj; lia | intros _; exact He].
  - rewrite data_bits_step.
    destruct (data_bit_fields i RX_PIN b v) as (_ & He' & _).
    rewrite He in He'.
    destruct (Bool.eqb (RX_PIN (DataBit i)) (Z.testbit b (Z.of_nat i))) eqn:Hbit;
      simpl in He'.
    + apply eqb_prop in Hbit. rewrite (IH (S i) _ He'). split.
      * intros H j Hj. destruct (Nat.eq_dec j i) as [->|Hne]; [exact Hbit|].
        apply H. lia.
      * intros H j Hj. apply H. lia.
    + destruct (data_bits_listen_only n (S i) RX_PIN b _ He') as (Herr & _).
      split; [rewrite Herr; discriminate|].
      intros H. specialize (H i ltac:(lia)).
      rewrite H, eqb_reflx in Hbit. discriminate.
Qed.

(** The byte read is made of the samples, whatever was driven. *)
Lemma data_bits_IDbyteRX (n i : nat) (RX_PIN : Sample -> bool) (b : Z)
    (v : ArbVars) (k : Z) :
  0 <= k ->
  Z.testbit (IDbyteRX (data_bits n i RX_PIN b v)) k =
  Z.testbit (IDbyteRX v) k
  || ((Z.of_nat i <=? k) && (k <? Z.of_nat (i + n)) && RX_PIN (DataBit (Z.to_nat k))).
Proof.
  intros Hk. revert i v. induction n as [|n IH]; intros i v.
  - simpl. replace (Z.of_nat (i + 0)) with (Z.of_nat i) by lia.
    destruct (Z.leb_spec (Z.of_nat i) k), (Z.ltb_spec k (Z.of_nat i));
      try lia; simpl; rewrite orb_false_r; reflexivity.
  - rewrite data_bits_step, IH.
    destruct (data_bit_fields i RX_PIN b v) as (Hrx & _). rewrite Hrx.
    replace (Z.of_nat (S i + n)) with (Z.of_nat (i + S n)) by lia.
    assert (Hone : Z.testbit (Z.shiftl 1 (Z.of_nat i)) k = (k =? Z.of_nat i)).
    { rewrite Z.shiftl_spec by lia.
      destruct (Z.eqb_spec k (Z.of_nat i)) as [->|Hne].
      - rewrite Z.sub_diag. reflexivity.
      - destruct (Z_lt_ge_dec (k - Z.of_nat i) 0).
        + apply Z.testbit_neg_r. lia.
        + apply Z.bits_above_log2; simpl; lia. }
    destruct (Z.eqb_spec k (Z.of_nat i)) as [Heq|Hne].
    + replace (Z.to_nat k) with i by lia.
      destruct (Z.leb_spec (Z.of_nat (S i)) k), (Z.leb_spec (Z.of_nat i) k),
               (Z.ltb_spec k (Z.of_nat (i + S n))); try lia.
      destruct (RX_PIN (DataBit i)); simpl;
        rewrite ?Z.lor_spec, ?Hone, ?orb_false_r, ?orb_true_r; reflexivity.
    + assert (Hsame : Z.testbit (if RX_PIN (DataBit i)
                                 then Z.lor (IDbyteRX v) (Z.shiftl 1 (Z.of_nat i))
                                 else IDbyteRX v) k = Z.testbit (IDbyteRX v) k).
      { destruct (RX_PIN (DataBit i)); [|reflexivity].
        rewrite Z.lor_spec, Hone. apply orb_false_r. }
      rewrite Hsame. f_equal.
      destruct (Z.leb_spec (Z.of_nat (S i)) k), (Z.leb_spec (Z.of_nat i) k);
        try lia; reflexivity.
Qed.

(** The byte taken from the bit-banged transmission is the byte the bus
    carried: bit [i] of it is the level sampled for data bit [i], and it fits
    eight bits, whatever was sent and whether or not arbitration was lost. *)
Lemma bit_bang_samples (RX_PIN : Sample -> bool) (b : Z) :
  0 <= IDbyteRX (bit_bang RX_PIN b) < 256 /\
  (forall i, (i < 8)%nat ->
     Z.testbit (IDbyteRX (bit_bang RX_PIN b)) (Z.of_nat i) = RX_PIN (DataBit i)).
Proof.
  rewrite bit_bang_phases.
  destruct (stop_bit_fields RX_PIN (data_bits 8 0 RX_PIN b (start_bit RX_PIN)))
    as (-> & _).
  destruct (start_bit_fields RX_PIN) as (H0 & _).
  assert (Hbits : forall k, 0 <= k ->
            Z.testbit (IDbyteRX (data_bits 8 0 RX_PIN b (start_bit RX_PIN))) k
            = (k <? 8) && RX_PIN (DataBit (Z.to_nat k))).
  { intros k Hk. rewrite data_bits_IDbyteRX by exact Hk.
    rewrite H0, Z.bits_0. cbn [orb].
    change (Z.of_nat (0 + 8)) with 8. change (Z.of_nat 0) with 0.
    destruct (Z.leb_spec 0 k); [reflexivity | lia]. }
  split.
  - assert (Hmod : IDbyteRX (data_bits 8 0 RX_PIN b (start_bit RX_PIN))
                   = IDbyteRX (data_bits 8 0 RX_PIN b (start_bit RX_PIN)) mod 2 ^ 8).
    { rewrite <- Z.land_ones by lia. apply Z.bits_inj'. intros k Hk.
      rewrite Z.land_spec, Z.testbit_ones_nonneg by lia.
      rewrite Hbits by exact Hk.
      destruct (k <? 8); simpl; [rewrite andb_true_r|]; reflexivity. }
    rewrite Hmod. apply Z.mod_pos_bound. lia.
  - intros i Hi. rewrite Hbits by lia.
    rewrite Nat2Z.id.
    destruct (Z.ltb_spec (Z.of_nat i) 8); [reflexivity | lia].
Qed.

(** No error is flagged exactly when the bus echoed the driver. *)
Lemma bit_bang_error_spec (RX_PIN : Sample -> bool) (b : Z) :
  error (bit_bang RX_PIN b) = false <-> echoed RX_PIN b.
Proof.
  unfold echoed.
  rewrite bit_bang_phases.
  destruct (stop_bit_fields RX_PIN (data_bits 8 0 RX_PIN b (start_bit RX_PIN)))
    as (_ & -> & _).
  destruct (start_bit_fields RX_PIN) as (_ & Hs & _).
  destruct (error (start_bit RX_PIN)) eqn:He.
  - destruct (data_bits_listen_only 8 0 RX_PIN b _ He) as (-> & _).
    split; [discriminate|].
    intros (Hp & Hst & _). rewrite Hp, Hst in Hs. discriminate.
  - symmetry in Hs. apply orb_false_elim in Hs as (Hp & Hst).
    apply negb_false_iff in Hp.
    pose proof (data_bits_error 8 0 RX_PIN b _ He) as Hd.
    destruct (error (data_bits 8 0 RX_PIN b (start_bit RX_PIN))).
    + split; [discriminate|].
      intros (_ & _ & Hbits & _).
      assert (true = false); [|discriminate].
      apply Hd. intros j Hj. apply Hbits. lia.
    + destruct Hd as [Hd _]. specialize (Hd eq_refl).
      simpl. split.
      * intros Hstop. apply negb_false_iff in Hstop.
        repeat split; try assumption. intros i Hi. apply Hd. lia.
      * intros (_ & _ & _ & Hstop). rewrite Hstop. reflexivity.
Qed.

(** With no error flagged the byte sampled is the low eight bits of the
    byte sent. *)
Lemma bit_bang_no_error_echo (RX_PIN : Sample -> bool) (b : Z) :
  error (bit_bang RX_PIN b) = false ->
  IDbyteRX (bit_bang RX_PIN b) = b mod 256.
Proof.
  intros He. apply bit_bang_error_spec in He as (_ & _ & Hbits & _).
  destruct (bit_bang_samples RX_PIN b) as (Hr & Hs).
  rewrite <- (Z.mod_small _ 256 Hr).
  change 256 with (2 ^ 8). rewrite <- !Z.land_ones by lia.
  apply Z.bits_inj'. intros k Hk.
  rewrite !Z.land_spec, Z.testbit_ones_nonneg by lia.
  destruct (Z.ltb_spec k 8); [|rewrite !andb_false_r; reflexivity].
  rewrite !andb_true_r.
  replace k with (Z.of_nat (Z.to_nat k)) by lia.
  rewrite Hs by lia. apply Hbits. lia.
Qed.

(** With the byte [b] echoed undisturbed, the bit-banged transmission of
    [b] flags no error and samples [b]. *)
Lemma bit_bang_undisturbed (b : Z) :
  0 <= b < 256 ->
  error (bit_bang (bus_shows b) b) = false /\
  IDbyteRX (bit_bang (bus_shows b) b) = b.
Proof.
  intros Hb.
  assert (He : error (bit_bang (bus_shows b) b) = false).
  { apply bit_bang_error_spec. repeat split. }
  split; [exact He|].
  rewrite (bit_bang_no_error_echo _ _ He). apply Z.mod_small. exact Hb.
Qed.

(** ** A bus that never idles *)

(** With the bus flag false at every poll and the clock passing one second,
    [write] of a non-empty frame returns 2; the transmit buffer then still
    holds the staged bytes. *)
Lemma write_never_idle_times_out (RX_PIN : Sample -> bool) (t0 : Z)
    (polls : list Poll) (buffer : list Z) (n : Z) (s : CCDLibrary) :
  n <> 0 ->
  clock_expires t0 polls ->
  (forall k, _busIdle (serve (concat (fired <$> take k polls))
                         (stage_frame buffer n s)) = false) ->
  exists s' rest,
    write RX_PIN t0 polls buffer n s = Some (2, s', rest) /\
    _busIdle s' = false /\
    _serialTxBuffer s' = _serialTxBuffer (stage_frame buffer n s).
Proof.
  intros Hn Hclock Hbusy.
  destruct (wait_idle_never_idle t0 polls _ Hclock Hbusy) as (s' & rest & Hw).
  exists s', rest.
  destruct (write_timeout_keeps_frame RX_PIN _ _ _ _ _ _ _ Hn Hw) as (Hwr & Htx).
  split; [exact Hwr|]. split; [|exact Htx].
  apply (wait_idle_timeout _ _ _ _ _ Hw).
Qed.

(** ** Loop-back *)

(** A frame stamped by a sender with checksum generation on, delivered byte
    by byte to a receiver with verification on and an empty staging buffer,
    is accepted at the next idle event as it was sent. *)
Lemma stage_frame_loopback (buffer : list Z) (n : Z) (sender receiver : CCDLibrary) :
  wf sender -> wf receiver ->
  _calculateTxChecksum sender = true ->
  _verifyRxChecksum receiver = true ->
  _serialRxBufferPos receiver = 0 ->
  2 <= n <= 16 ->
  (Z.to_nat n <= length buffer)%nat ->
  let frame := take (Z.to_nat n) (_serialTxBuffer (stage_frame buffer n sender)) in
  let receiver' :=
    processMessage (serve (rx_events ((fun b => (0, b)) <$> frame)) receiver) in
  _messageLength receiver' = n /\
  take (Z.to_nat n) (_message receiver') = frame.
Proof.
  intros Hwfs Hwfr Hcalc Hver Hpos Hn Hbuf frame receiver'.
  destruct Hwfs as (_ & _ & Wtx). pose proof Hwfr as (Wm & Wrx & _).
  assert (Hframe : frame = take (Z.to_nat (n - 1)) buffer
                           ++ [sumZ (take (Z.to_nat (n - 1)) buffer) mod 256]).
  { subst frame. rewrite stage_frame_bytes by (try assumption; lia).
    rewrite Hcalc. destruct (Z.ltb_spec 1 n); [|lia]. simpl.
    rewrite cons_middle, app_assoc. apply take_app_length'.
    rewrite length_app, length_take. simpl. lia. }
  assert (Hflen : length frame = Z.to_nat n).
  { rewrite Hframe, length_app, length_take. simpl. lia. }
  set (evs := (fun b => (0, b)) <$> frame) in *.
  assert (Hsnd : snd <$> evs = frame).
  { subst evs. rewrite <- list_fmap_compose. apply list_fmap_id. }
  destruct (rx_run evs receiver) as (Hp & Hlen & Htake); [exact Wrx | lia |].
  set (r1 := serve (rx_events evs) receiver) in *.
  assert (Hp1 : _serialRxBufferPos r1 = n).
  { rewrite Hp, Hpos. subst evs. rewrite length_fmap, Hflen. lia. }
  rewrite Hp1, Hpos, Hsnd in Htake. simpl in Htake.
  rewrite (take_ge frame) in Htake by lia.
  pose proof (serve_same_frame (rx_events evs) receiver) as Hf. fold r1 in Hf.
  pose proof (same_frame_wf _ _ Hf Hwfr) as (Wm1 & _ & _).
  destruct Hf as (_ & Hver1 & _). unfold CAPACITY in *.
  assert (Hok : checksum_ok r1).
  { unfold checksum_ok. rewrite Hp1.
    replace (take (Z.to_nat (n - 1)) (_serialRxBuffer r1))
      with (take (Z.to_nat (n - 1)) frame)
      by (rewrite <- Htake, take_take; f_equal; lia).
    replace (get (_serialRxBuffer r1) (Z.to_nat (n - 1)))
      with (get frame (Z.to_nat (n - 1)))
      by (rewrite <- Htake; apply get_take; lia).
    rewrite Hframe.
    rewrite take_app_le by (rewrite length_take; lia).
    rewrite take_take, Nat.min_id.
    symmetry. apply get_lookup.
    rewrite lookup_app_r by (rewrite length_take; lia).
    rewrite length_take.
    replace (Z.to_nat (n - 1) - Z.to_nat (n - 1) `min` length buffer)%nat
      with 0%nat by lia.
    reflexivity. }
  subst receiver'.
  rewrite processMessage_accept
    by first [lia | right; right; split; [lia | exact Hok]].
  simpl. rewrite Hp1. split; [reflexivity|].
  rewrite take_copy_bytes by lia. exact Htake.
Qed.

(** ** The interrupt-driven transmitter *)

Lemma udre_send (s : CCDLibrary) :
  0 <= _serialTxBufferPos s < _serialTxLength s ->
  _serialTxLength s <= 255 ->
  let s' := handle_USART1_UDRE_vect s in
  UDR1_out (avr s') =
    UDR1_out (avr s) ++ [get (_serialTxBuffer s) (Z.to_nat (_serialTxBufferPos s))] /\
  _serialTxBufferPos s' = _serialTxBufferPos s + 1 /\
  _serialTxLength s' = _serialTxLength s /\
  _serialTxBuffer s' = _serialTxBuffer s /\
  UCSR1B (avr s') = UCSR1B (avr s).
Proof.
  intros Hp Hl. unfold handle_USART1_UDRE_vect.
  destruct (Z.ltb_spec (_serialTxBufferPos s) (_serialTxLength s)); [|lia].
  simpl. rewrite Z.mod_small by lia. repeat split.
Qed.

Lemma udre_done (s : CCDLibrary) :
  _serialTxLength s <= _serialTxBufferPos s ->
  let s' := handle_USART1_UDRE_vect s in
  UDR1_out (avr s') = UDR1_out (avr s) /\
  _serialTxBufferPos s' = 0 /\
  _serialTxLength s' = 0 /\
  _serialTxBuffer s' = _serialTxBuffer s /\
  UCSR1B (avr s') = Z.land (UCSR1B (avr s)) (Z.lnot (Z.shiftl 1 UDRIE1)).
Proof.
  intros Hp. unfold handle_USART1_UDRE_vect.
  destruct (Z.ltb_spec (_serialTxBufferPos s) (_serialTxLength s)); [lia|].
  simpl. repeat split.
Qed.

Lemma udre_events_S (k : nat) (s : CCDLibrary) :
  serve (udre_events (S k)) s = serve (udre_events k) (handle_USART1_UDRE_vect s).
Proof. reflexivity. Qed.

Lemma get_drop_head (l : list Z) (p : nat) :
  (p < length l)%nat -> drop p l = get l p :: drop (S p) l.
Proof.
  intros Hp. destruct (lookup_lt_is_Some_2 l p Hp) as [x Hx].
  rewrite (get_lookup _ _ _ Hx). apply drop_S, Hx.
Qed.

(** [k] interrupts with at least [k] bytes left to send. *)
Lemma udre_progress (k : nat) (s : CCDLibrary) :
  0 <= _serialTxBufferPos s ->
  _serialTxBufferPos s + Z.of_nat k <= _serialTxLength s ->
  _serialTxLength s <= 255 ->
  (Z.to_nat (_serialTxLength s) <= length (_serialTxBuffer s))%nat ->
  let s' := serve (udre_events k) s in
  UDR1_out (avr s') =
    UDR1_out (avr s)
    ++ take k (drop (Z.to_nat (_serialTxBufferPos s)) (_serialTxBuffer s)) /\
  _serialTxBufferPos s' = _serialTxBufferPos s + Z.of_nat k /\
  _serialTxLength s' = _serialTxLength s /\
  _serialTxBuffer s' = _serialTxBuffer s /\
  UCSR1B (avr s') = UCSR1B (avr s).
Proof.
  revert s. induction k as [|k IH]; intros s H0 Hk Hl Hb; cbv zeta.
  - simpl. rewrite app_nil_r. repeat split. lia.
  - rewrite udre_events_S.
    destruct (udre_send s ltac:(lia) Hl) as (Ho & Hp & Hlen & Htx & Hr).
    destruct (IH (handle_USART1_UDRE_vect s)) as (Ho' & Hp' & Hlen' & Htx' & Hr');
      [lia | lia | lia | rewrite Htx, Hlen; exact Hb |].
    rewrite Ho', Hp', Hlen', Htx', Hr', Ho, Hp, Hlen, Htx, Hr.
    repeat split; [|lia].
    rewrite <- app_assoc. f_equal.
    rewrite (get_drop_head _ (Z.to_nat (_serialTxBufferPos s))) by lia.
    simpl. do 3 f_equal. lia.
Qed.

(** Clearing one bit of a register leaves the others. *)
Lemma clear_bit_spec (r bit k : Z) :
  0 <= bit -> 0 <= k ->
  Z.testbit (Z.land r (Z.lnot (Z.shiftl 1 bit))) k
  = Z.testbit r k && negb (k =? bit).
Proof.
  intros Hb Hk. rewrite Z.land_spec, Z.lnot_spec by lia.
  rewrite Z.shiftl_spec by lia. f_equal. f_equal.
  destruct (Z.eqb_spec k bit) as [->|Hne].
  - rewrite Z.sub_diag. reflexivity.
  - destruct (Z_lt_ge_dec (k - bit) 0).
    + apply Z.testbit_neg_r. lia.
    + apply Z.bits_above_log2; simpl; lia.
Qed.

Lemma set_bit_spec (r bit k : Z) :
  0 <= bit -> 0 <= k ->
  Z.testbit (Z.lor r (Z.shiftl 1 bit)) k = Z.testbit r k || (k =? bit).
Proof.
  intros Hb Hk. rewrite Z.lor_spec. f_equal.
  rewrite Z.shiftl_spec by lia.
  destruct (Z.eqb_spec k bit) as [->|Hne].
  - rewrite Z.sub_diag. reflexivity.
  - destruct (Z_lt_ge_dec (k - bit) 0).
    + apply Z.testbit_neg_r. lia.
    + apply Z.bits_above_log2; simpl; lia.
Qed.

(** X1.  The transmitter drains the staged frame.  From a cursor within the
    recorded length (at most 16, inside the buffer), one interrupt per byte
    left sends exactly the bytes from the cursor to the length, in order;
    the interrupt after the last byte sends nothing, disables the
    data-register-empty interrupt (and changes no other bit of UCSR1B) and
    resets cursor and length to 0.  The bytes of the buffer stay. *)
Theorem transmit_run (s : CCDLibrary) :
  wf s ->
  0 <= _serialTxBufferPos s <= _serialTxLength s ->
  _serialTxLength s <= 16 ->
  let left := Z.to_nat (_serialTxLength s - _serialTxBufferPos s) in
  let s1 := serve (udre_events left) s in
  let s2 := handle_USART1_UDRE_vect s1 in
  UDR1_out (avr s1) =
    UDR1_out (avr s)
    ++ take left (drop (Z.to_nat (_serialTxBufferPos s)) (_serialTxBuffer s)) /\
  _serialTxBufferPos s1 = _serialTxLength s /\
  UCSR1B (avr s1) = UCSR1B (avr s) /\
  UDR1_out (avr s2) = UDR1_out (avr s1) /\
  _serialTxBufferPos s2 = 0 /\
  _serialTxLength s2 = 0 /\
  _serialTxBuffer s2 = _serialTxBuffer s /\
  Z.testbit (UCSR1B (avr s2)) UDRIE1 = false /\
  (forall k, 0 <= k -> k <> UDRIE1 ->
     Z.testbit (UCSR1B (avr s2)) k = Z.testbit (UCSR1B (avr s)) k).
Proof.
  intros (_ & _ & Wtx) Hp Hl left s1 s2. unfold CAPACITY in Wtx.
  destruct (udre_progress left s) as (Ho & Hp1 & Hl1 & Htx1 & Hr1);
    [lia | subst left; lia | lia | lia |].
  fold s1 in Ho, Hp1, Hl1, Htx1, Hr1.
  destruct (udre_done s1) as (Ho2 & Hp2 & Hl2 & Htx2 & Hr2);
    [subst left; lia|].
  fold s2 in Ho2, Hp2, Hl2, Htx2, Hr2.
  split; [exact Ho|]. split; [subst left; lia|]. split; [exact Hr1|].
  split; [exact Ho2|]. split; [exact Hp2|]. split; [exact Hl2|].
  split; [congruence|].
  rewrite Hr2, Hr1. split.
  - rewrite clear_bit_spec by (unfold UDRIE1; lia).
    rewrite Z.eqb_refl. apply andb_false_r.
  - intros k Hk Hne. rewrite clear_bit_spec by (unfold UDRIE1; lia).
    destruct (Z.eqb_spec k UDRIE1); [contradiction|]. apply andb_true_r.
Qed.

(** ** write, end to end *)

Lemma testbit_bit (bit k : Z) :
  0 <= bit -> 0 <= k -> Z.testbit (Z.shiftl 1 bit) k = (k =? bit).
Proof.
  intros Hb Hk. rewrite Z.shiftl_spec by lia.
  destruct (Z.eqb_spec k bit) as [->|Hne].
  - rewrite Z.sub_diag. reflexivity.
  - destruct (Z_lt_ge_dec (k - bit) 0).
    + apply Z.testbit_neg_r. lia.
    + apply Z.bits_above_log2; simpl; lia.
Qed.

Lemma stage_frame_untouched (buffer : list Z) (n : Z) (s : CCDLibrary) :
  let s' := stage_frame buffer n s in
  avr s' = avr s /\
  _serialRxBufferPos s' = _serialRxBufferPos s /\
  _messageLength s' = _messageLength s /\
  _lastMessageRead s' = _lastMessageRead s.
Proof.
  unfold stage_frame. simpl.
  destruct (_calculateTxChecksum s && (1 <? n)); repeat split.
Qed.

Lemma length_staged_bytes (c : bool) (buffer : list Z) (n : Z) :
  0 < n -> (Z.to_nat n <= length buffer)%nat ->
  length (staged_bytes c buffer n) = Z.to_nat n.
Proof.
  intros Hn Hb. unfold staged_bytes.
  destruct (c && (1 <? n)); rewrite ?length_app, length_take; simpl; lia.
Qed.

Lemma stage_frame_staged (buffer : list Z) (n : Z) (s : CCDLibrary) :
  0 < n <= 16 -> (Z.to_nat n <= length buffer)%nat ->
  length (_serialTxBuffer s) = CAPACITY ->
  _serialTxBuffer (stage_frame buffer n s) =
  staged_bytes (_calculateTxChecksum s) buffer n
  ++ drop (Z.to_nat n) (_serialTxBuffer s).
Proof.
  intros Hn Hb Hl. rewrite stage_frame_bytes by assumption.
  unfold staged_bytes.
  destruct (_calculateTxChecksum s && (1 <? n)); [|reflexivity].
  rewrite <- app_assoc. reflexivity.
Qed.

(** What the arbitration branch leaves alone. *)
Lemma arbitrate_untouched (RX_PIN : Sample -> bool) (s : CCDLibrary) :
  let s' := snd (arbitrate RX_PIN s) in
  _busIdle s' = _busIdle s /\
  _message s' = _message s /\
  _messageLength s' = _messageLength s /\
  _lastMessageRead s' = _lastMessageRead s /\
  UDR1_out (avr s') = UDR1_out (avr s) /\
  length (_serialRxBuffer s') = length (_serialRxBuffer s).
Proof.
  unfold arbitrate. simpl.
  destruct (negb _ && _); simpl; rewrite !length_insert; repeat split.
Qed.

(** The bits of [UCSR1B] after the arbitration branch: receiver,
    transmitter and receive interrupt on, the data-register-empty interrupt
    on exactly when arbitration was won, every other bit as before. *)
Lemma arbitrate_UCSR1B (RX_PIN : Sample -> bool) (s : CCDLibrary) (k : Z) :
  0 <= k ->
  Z.testbit (UCSR1B (avr (snd (arbitrate RX_PIN s)))) k =
  if (k =? RXCIE1) || (k =? RXEN1) || (k =? TXEN1) then true
  else if k =? UDRIE1 then fst (arbitrate RX_PIN s) =? 0
  else Z.testbit (UCSR1B (avr s)) k.
Proof.
  intros Hk. unfold arbitrate. simpl.
  destruct (negb _ && _); simpl;
    rewrite ?Z.lor_spec, !Z.land_spec, !Z.lnot_spec by exact Hk;
    rewrite !testbit_bit by (unfold RXCIE1, RXEN1, TXEN1, UDRIE1; lia);
    unfold RXCIE1, RXEN1, TXEN1, UDRIE1;
    destruct (Z.eqb_spec k 7), (Z.eqb_spec k 4), (Z.eqb_spec k 3),
             (Z.eqb_spec k 5); try lia; simpl;
    rewrite ?andb_true_r, ?andb_false_r, ?orb_false_r, ?orb_true_r;
    reflexivity.
Qed.

(** The wait loop leaves at once when the bus is idle at the first poll,
    whatever the clock reads. *)
Lemma wait_idle_immediate (t0 : Z) (p : Poll) (rest : list Poll) (s : CCDLibrary) :
  fired p = [] -> _busIdle s = true ->
  wait_idle t0 (p :: rest) s = Some (false, s, rest).
Proof. intros Hf Hb. simpl. rewrite Hf. simpl. rewrite Hb. reflexivity. Qed.

(** X3.  A hardware-mode write, from call to last byte.  In the
    hardware-assisted mode, with the bus flag set when [write] is called and
    no interrupt before its first look at the flag, [write] of 1 to 16 bytes
    returns 0 whatever the clock reads, with the data-register-empty
    interrupt enabled; the following interrupts, one per byte, put exactly
    the staged frame on the data register (the caller's bytes, the last one
    replaced by the checksum when generation is on and the frame is longer
    than one byte), and one more interrupt disables the interrupt and
    resets cursor and length. *)
Theorem write_hardware_sends_frame (RX_PIN : Sample -> bool) (t0 : Z)
    (p : Poll) (rest : list Poll) (buffer : list Z) (bufferLength : Z)
    (s : CCDLibrary) :
  wf s ->
  _interruptsAvailable s = true ->
  _busIdle s = true ->
  fired p = [] ->
  1 <= bufferLength <= 16 ->
  (Z.to_nat bufferLength <= length buffer)%nat ->
  exists s',
    write RX_PIN t0 (p :: rest) buffer bufferLength s = Some (0, s', rest) /\
    Z.testbit (UCSR1B (avr s')) UDRIE1 = true /\
    (let s1 := serve (udre_events (Z.to_nat bufferLength)) s' in
     let s2 := handle_USART1_UDRE_vect s1 in
     UDR1_out (avr s1) =
       UDR1_out (avr s) ++ staged_bytes (_calculateTxChecksum s) buffer bufferLength /\
     UDR1_out (avr s2) = UDR1_out (avr s1) /\
     Z.testbit (UCSR1B (avr s2)) UDRIE1 = false /\
     _serialTxBufferPos s2 = 0 /\
     _serialTxLength s2 = 0).
Proof.
  intros Hwf Hhw Hidle Hfired Hn Hbuf.
  assert (Hn0 : bufferLength <> 0) by lia.
  destruct (stage_frame_fields buffer bufferLength s)
    as (_ & _ & _ & _ & _ & Hlen & Hpos0 & Hlen0 & Hb).
  destruct (stage_frame_untouched buffer bufferLength s) as (Havr & _).
  cbv zeta in Hlen, Hpos0, Hlen0, Hb, Havr.
  assert (Hw : wait_idle t0 (p :: rest) (stage_frame buffer bufferLength s)
               = Some (false, stage_frame buffer bufferLength s, rest))
    by (apply wait_idle_immediate; [exact Hfired | congruence]).
  rewrite (write_after_wait _ _ _ _ _ _ _ _ _ Hn0 Hw), Hhw.
  eexists. split; [reflexivity|].
  split; [apply UDRIE1_set|].
  set (s' := set_avr _ _).
  pose proof Hwf as (_ & _ & Wtx). unfold CAPACITY in Wtx.
  assert (Htx : _serialTxBuffer s' =
                staged_bytes (_calculateTxChecksum s) buffer bufferLength
                ++ drop (Z.to_nat bufferLength) (_serialTxBuffer s))
    by (apply stage_frame_staged; [lia | exact Hbuf | apply Hwf]).
  assert (Hsl : length (staged_bytes (_calculateTxChecksum s) buffer bufferLength)
                = Z.to_nat bufferLength)
    by (apply length_staged_bytes; [lia | exact Hbuf]).
  assert (Hp' : _serialTxBufferPos s' = 0) by exact Hpos0.
  assert (Hl' : _serialTxLength s' = bufferLength) by exact Hlen0.
  destruct (udre_progress (Z.to_nat bufferLength) s')
    as (Ho & Hp1 & Hl1 & Htx1 & Hr1).
  { lia. } { lia. } { lia. }
  { rewrite Hl', Htx, length_app, Hsl. lia. }
  cbv zeta.
  set (s1 := serve (udre_events (Z.to_nat bufferLength)) s') in *.
  destruct (udre_done s1) as (Ho2 & Hp2 & Hl2 & _ & Hr2); [lia|].
  split.
  - rewrite Ho, Hp', Htx.
    change (UDR1_out (avr s'))
      with (UDR1_out (avr (stage_frame buffer bufferLength s))).
    rewrite Havr. change (Z.to_nat 0) with 0%nat. rewrite drop_0.
    rewrite take_app_length' by (symmetry; exact Hsl). reflexivity.
  - split; [exact Ho2|]. split; [|split; assumption].
    rewrite Hr2, clear_bit_spec by (unfold UDRIE1; lia).
    rewrite Z.eqb_refl. apply andb_false_r.
Qed.

(** The byte [write] hands to the arbitration branch is the caller's first
    byte. *)
Lemma arbitration_first_byte (t0 : Z) (polls : list Poll) (buffer : list Z)
    (n : Z) (s s2 : CCDLibrary) (timeout : bool) (rest : list Poll) :
  wf s -> 0 < n < 256 ->
  wait_idle t0 polls (stage_frame buffer n s) = Some (timeout, s2, rest) ->
  get (_serialTxBuffer (set_busIdle false s2)) 0 = get buffer 0.
Proof.
  intros Hwf Hn Hw.
  pose proof (wait_idle_same_frame _ _ _ _ _ _ Hw) as (_ & _ & _ & Htx & _).
  simpl. rewrite Htx. apply stage_frame_first_byte; [lia|].
  destruct Hwf as (_ & _ & W3). rewrite W3. unfold CAPACITY. lia.
Qed.

(** X4.  The outcome of software arbitration, read off the bus.  In software
    mode, once the wait has ended with the bus idle, [write] of a frame of 1
    to 16 bytes whose first byte fits eight bits returns 0 exactly when the
    bus echoed
    the driver (line high before the start bit, start bit read back low,
    each data bit read back as driven, stop bit read back high) and 3
    otherwise.  Either way the receive cursor is 1 and the byte at index 0 of
    the receive staging buffer is the byte the bus carried: it fits eight
    bits and its bit [i] is the level sampled for data bit [i]. *)
Theorem write_software_mode_outcome (RX_PIN : Sample -> bool) (t0 : Z)
    (polls : list Poll) (buffer : list Z) (bufferLength : Z)
    (s s2 : CCDLibrary) (rest : list Poll) :
  wf s ->
  _interruptsAvailable s = false ->
  0 < bufferLength <= 16 ->
  (Z.to_nat bufferLength <= length buffer)%nat ->
  0 <= get buffer 0 < 256 ->
  wait_idle t0 polls (stage_frame buffer bufferLength s) = Some (false, s2, rest) ->
  exists status s' byte,
    write RX_PIN t0 polls buffer bufferLength s = Some (status, s', rest) /\
    (status = 0 \/ status = 3) /\
    (status = 0 <-> echoed RX_PIN (get buffer 0)) /\
    _serialRxBufferPos s' = 1 /\
    _serialRxBuffer s' !! 0%nat = Some byte /\
    0 <= byte < 256 /\
    (forall i, (i < 8)%nat -> Z.testbit byte (Z.of_nat i) = RX_PIN (DataBit i)).
Proof.
  intros Hwf Hsw Hn16 Hbuf Hbyte Hw.
  assert (Hn0 : bufferLength <> 0) by lia.
  assert (Hn : 0 < bufferLength < 256) by lia.
  rewrite (write_after_wait _ _ _ _ _ _ _ _ _ Hn0 Hw), Hsw.
  pose proof (arbitration_first_byte _ _ _ _ _ _ _ _ Hwf Hn Hw) as Hid.
  pose proof (wait_idle_same_frame _ _ _ _ _ _ Hw) as Hf.
  pose proof (same_frame_wf _ _ Hf (stage_frame_wf buffer bufferLength s Hwf))
    as (_ & W2 & _). unfold CAPACITY in W2.
  destruct (bit_bang_samples RX_PIN (get buffer 0)) as (Hrange & Hbits).
  pose proof (bit_bang_error_spec RX_PIN (get buffer 0)) as Hspec.
  destruct (error (bit_bang RX_PIN (get buffer 0))) eqn:He.
  - destruct (arbitrate_lost RX_PIN (set_busIdle false s2))
      as (s' & Harb & _ & _ & H3 & H4).
    { rewrite Hid. left. exact He. }
    rewrite Hid in H3. rewrite Harb.
    exists 3, s', (IDbyteRX (bit_bang RX_PIN (get buffer 0))).
    split; [reflexivity|]. split; [right; reflexivity|].
    split; [split; [discriminate | intros Hech; apply Hspec in Hech; discriminate]|].
    split; [exact H4|].
    split; [rewrite H3; simpl; apply list_lookup_insert_eq; lia|].
    split; assumption.
  - destruct (arbitrate_won RX_PIN (set_busIdle false s2))
      as (s' & Harb & _ & _ & _ & _ & H3 & H4).
    { rewrite Hid. exact He. }
    { rewrite Hid, (bit_bang_no_error_echo _ _ He). apply Z.mod_small, Hbyte. }
    rewrite Hid in H3. rewrite Harb.
    exists 0, s', (IDbyteRX (bit_bang RX_PIN (get buffer 0))).
    split; [reflexivity|]. split; [left; reflexivity|].
    split; [split; [intros _; apply Hspec; reflexivity | reflexivity]|].
    split; [exact H4|].
    split; [rewrite H3; simpl; apply list_lookup_insert_eq; lia|].
    split; assumption.
Qed.

(** X5.  The UART after software arbitration.  In software mode, once the
    wait has ended with the bus idle, [write] of 1 to 16 bytes returns with
    the receiver, the
    transmitter and the receive interrupt enabled again in UCSR1B, whether
    arbitration was won or lost; the data-register-empty interrupt is
    enabled exactly when it returns 0, and no other bit of the register is
    changed. *)
Theorem write_software_mode_uart (RX_PIN : Sample -> bool) (t0 : Z)
    (polls : list Poll) (buffer : list Z) (bufferLength : Z)
    (s s2 : CCDLibrary) (rest : list Poll) :
  wf s ->
  _interruptsAvailable s = false ->
  0 < bufferLength <= 16 ->
  (Z.to_nat bufferLength <= length buffer)%nat ->
  wait_idle t0 polls (stage_frame buffer bufferLength s) = Some (false, s2, rest) ->
  exists status s',
    write RX_PIN t0 polls buffer bufferLength s = Some (status, s', rest) /\
    Z.testbit (UCSR1B (avr s')) RXCIE1 = true /\
    Z.testbit (UCSR1B (avr s')) RXEN1 = true /\
    Z.testbit (UCSR1B (avr s')) TXEN1 = true /\
    Z.testbit (UCSR1B (avr s')) UDRIE1 = (status =? 0) /\
    (forall k, 0 <= k ->
       k <> RXCIE1 -> k <> RXEN1 -> k <> TXEN1 -> k <> UDRIE1 ->
       Z.testbit (UCSR1B (avr s')) k = Z.testbit (UCSR1B (avr s2)) k).
Proof.
  intros Hwf Hsw Hn16 Hbuf Hw.
  assert (Hn : bufferLength <> 0) by lia.
  rewrite (write_after_wait _ _ _ _ _ _ _ _ _ Hn Hw), Hsw.
  pose proof (arbitrate_UCSR1B RX_PIN (set_busIdle false s2)) as Hbits.
  destruct (arbitrate RX_PIN (set_busIdle false s2)) as [status s'].
  simpl in Hbits. exists status, s'. split; [reflexivity|].
  split; [rewrite Hbits by (unfold RXCIE1; lia); reflexivity|].
  split; [rewrite Hbits by (unfold RXEN1; lia); reflexivity|].
  split; [rewrite Hbits by (unfold TXEN1; lia); reflexivity|].
  split; [rewrite Hbits by (unfold UDRIE1; lia); reflexivity|].
  intros k Hk H7 H4 H3 H5. rewrite Hbits by exact Hk.
  destruct (Z.eqb_spec k RXCIE1), (Z.eqb_spec k RXEN1), (Z.eqb_spec k TXEN1),
           (Z.eqb_spec k UDRIE1); try contradiction.
  reflexivity.
Qed.

(** X6.  A software-mode write that wins arbitration, to the last byte.  In
    software mode, with the wait ended with the bus idle and the recorded
    length still the caller's, a frame of 1 to 16 bytes whose first byte is
    echoed by the bus makes [write] return 0; the following
    data-register-empty interrupts, one per remaining byte, put exactly the
    staged bytes from index 1 on the data register (the first byte went out
    bit by bit), and one more interrupt disables the interrupt and resets
    cursor and length. *)
Theorem write_software_sends_rest (RX_PIN : Sample -> bool) (t0 : Z)
    (polls : list Poll) (buffer : list Z) (bufferLength : Z)
    (s s2 : CCDLibrary) (rest : list Poll) :
  wf s ->
  _interruptsAvailable s = false ->
  1 <= bufferLength <= 16 ->
  (Z.to_nat bufferLength <= length buffer)%nat ->
  0 <= get buffer 0 < 256 ->
  wait_idle t0 polls (stage_frame buffer bufferLength s) = Some (false, s2, rest) ->
  _serialTxLength s2 = bufferLength ->
  echoed RX_PIN (get buffer 0) ->
  exists s',
    write RX_PIN t0 polls buffer bufferLength s = Some (0, s', rest) /\
    (let s1 := serve (udre_events (Z.to_nat (bufferLength - 1))) s' in
     let s3 := handle_USART1_UDRE_vect s1 in
     UDR1_out (avr s1) =
       UDR1_out (avr s2)
       ++ drop 1 (staged_bytes (_calculateTxChecksum s) buffer bufferLength) /\
     UDR1_out (avr s3) = UDR1_out (avr s1) /\
     Z.testbit (UCSR1B (avr s3)) UDRIE1 = false /\
     _serialTxBufferPos s3 = 0 /\
     _serialTxLength s3 = 0).
Proof.
  intros Hwf Hsw Hn Hbuf Hbyte Hw Hlen2 Hech.
  assert (Hn0 : bufferLength <> 0) by lia.
  rewrite (write_after_wait _ _ _ _ _ _ _ _ _ Hn0 Hw), Hsw.
  assert (Hn8 : 0 < bufferLength < 256) by lia.
  pose proof (arbitration_first_byte _ _ _ _ _ _ _ _ Hwf Hn8 Hw) as Hid.
  pose proof (wait_idle_same_frame _ _ _ _ _ _ Hw) as (_ & _ & _ & Htx2 & _).
  assert (He : error (bit_bang RX_PIN (get buffer 0)) = false)
    by (apply bit_bang_error_spec; exact Hech).
  destruct (arbitrate_won RX_PIN (set_busIdle false s2))
    as (s' & Harb & Hp & Hl & Htx & _).
  { rewrite Hid. exact He. }
  { rewrite Hid, (bit_bang_no_error_echo _ _ He). apply Z.mod_small, Hbyte. }
  destruct (arbitrate_untouched RX_PIN (set_busIdle false s2))
    as (_ & _ & _ & _ & Hout & _).
  rewrite Harb in Hout. simpl in Hp, Hl, Htx, Hout.
  rewrite Harb. exists s'. split; [reflexivity|].
  assert (Hstaged : _serialTxBuffer s' =
                    staged_bytes (_calculateTxChecksum s) buffer bufferLength
                    ++ drop (Z.to_nat bufferLength) (_serialTxBuffer s)).
  { rewrite Htx, Htx2. apply stage_frame_staged; [lia | exact Hbuf | apply Hwf]. }
  assert (Hsl : length (staged_bytes (_calculateTxChecksum s) buffer bufferLength)
                = Z.to_nat bufferLength)
    by (apply length_staged_bytes; [lia | exact Hbuf]).
  pose proof Hwf as (_ & _ & Wtx). unfold CAPACITY in Wtx.
  destruct (udre_progress (Z.to_nat (bufferLength - 1)) s')
    as (Ho & Hp1 & Hl1 & _ & _).
  { lia. } { lia. } { lia. }
  { rewrite Hstaged, length_app, Hsl. lia. }
  cbv zeta.
  set (s1 := serve (udre_events (Z.to_nat (bufferLength - 1))) s') in *.
  destruct (udre_done s1) as (Ho2 & Hp2 & Hl2 & _ & Hr2); [lia|].
  split.
  - rewrite Ho, Hp, Hstaged, Hout.
    change (Z.to_nat 1) with 1%nat.
    rewrite drop_app_le by lia.
    rewrite take_app_length' by (rewrite length_drop; lia).
    reflexivity.
  - split; [exact Ho2|]. split; [|split; assumption].
    rewrite Hr2, clear_bit_spec by (unfold UDRIE1; lia).
    rewrite Z.eqb_refl. apply andb_false_r.
Qed.

(** ** The invariant *)

Lemma processMessage_cursor (s : CCDLibrary) :
  0 <= _serialRxBufferPos s -> _serialRxBufferPos (processMessage s) = 0.
Proof.
  intros Hp. unfold processMessage.
  destruct (Z.ltb_spec 0 (_serialRxBufferPos s)); [|lia].
  destruct (_verifyRxChecksum s && (1 <? _serialRxBufferPos s));
    [destruct (_ =? _)|]; reflexivity.
Qed.

Lemma processMessage_flag (s : CCDLibrary) :
  0 < _serialRxBufferPos s -> _lastMessageRead (processMessage s) = false.
Proof.
  intros Hp. unfold processMessage.
  destruct (Z.ltb_spec 0 (_serialRxBufferPos s)); [|lia].
  destruct (_verifyRxChecksum s && (1 <? _serialRxBufferPos s));
    [destruct (_ =? _)|]; reflexivity.
Qed.

Lemma processMessage_length (s : CCDLibrary) :
  0 <= _serialRxBufferPos s <= 16 -> 0 <= _messageLength s <= 16 ->
  0 <= _messageLength (processMessage s) <= 16.
Proof.
  intros Hp Hm. unfold processMessage.
  destruct (0 <? _serialRxBufferPos s); [|exact Hm].
  destruct (_verifyRxChecksum s && (1 <? _serialRxBufferPos s));
    [destruct (_ =? _)|]; simpl; lia.
Qed.

Lemma processMessage_inv (s : CCDLibrary) : inv s -> inv (processMessage s).
Proof.
  intros (Hwf & Hp & Hm & _).
  split; [exact (same_frame_wf _ _ (processMessage_same_frame s) Hwf)|].
  rewrite processMessage_cursor by lia.
  split; [lia|]. split; [apply processMessage_length; assumption|].
  reflexivity.
Qed.

Lemma inv_set_busIdle_false (s : CCDLibrary) : inv s -> inv (set_busIdle false s).
Proof.
  intros (Hwf & Hp & Hm & _). repeat split; try apply Hwf; try apply Hp;
    try apply Hm; try discriminate.
Qed.

Lemma inv_set_lastMessageRead (b : bool) (s : CCDLibrary) :
  inv s -> inv (set_lastMessageRead b s).
Proof.
  intros ((W1 & W2 & W3) & Hp & Hm & Hidle).
  split; [split; [exact W1 | split; [exact W2 | exact W3]]|].
  split; [exact Hp|]. split; [exact Hm | exact Hidle].
Qed.

Lemma inv_set_avr (io : AVR) (s : CCDLibrary) : inv s -> inv (set_avr io s).
Proof.
  intros ((W1 & W2 & W3) & Hp & Hm & Hidle).
  split; [split; [exact W1 | split; [exact W2 | exact W3]]|].
  split; [exact Hp|]. split; [exact Hm | exact Hidle].
Qed.

Lemma ISR_inv (i : Interrupt) (s : CCDLibrary) : inv s -> inv (ISR i s).
Proof.
  intros Hinv. pose proof Hinv as (Hwf & Hp & Hm & Hidle).
  destruct i; simpl.
  - unfold handle_TIMER3_COMPA_vect, busIdleTimerStop.
    rewrite processMessage_set_busIdle, processMessage_set_avr.
    destruct (processMessage_inv s Hinv) as (Hwf' & Hp' & Hm' & _).
    split; [exact Hwf'|]. split; [exact Hp'|]. split; [exact Hm'|].
    intros _. simpl. apply processMessage_cursor. lia.
  - split; [exact (same_frame_wf _ _ (ISR_same_frame (USART1_RX_vect usr data) s) Hwf)|].
    destruct (rx_byte_message usr data s) as (_ & Hml & _).
    cbv zeta in Hml. rewrite Hml.
    assert (Hb : _busIdle (handle_USART1_RX_vect usr data s) = false).
    { unfold handle_USART1_RX_vect.
      destruct (negb (_interruptsAvailable s)); simpl;
        destruct (_serialRxBufferPos s <? 16); reflexivity. }
    rewrite Hb.
    destruct (Z_lt_ge_dec (_serialRxBufferPos s) 16) as [Hlt|Hge].
    + destruct (rx_byte_stored usr data s ltac:(lia)) as (Hp' & _).
      rewrite Hp'. repeat split; try lia; try discriminate.
    + destruct (rx_byte_dropped usr data s ltac:(lia)) as (Hp' & _).
      rewrite Hp'. repeat split; try lia; try discriminate.
  - split; [exact (same_frame_wf _ _ (ISR_same_frame USART1_UDRE_vect s) Hwf)|].
    unfold handle_USART1_UDRE_vect.
    destruct (_serialTxBufferPos s <? _serialTxLength s); simpl;
      repeat split; try lia; exact Hidle.
  - unfold busIdleInterruptHandler. rewrite processMessage_set_busIdle.
    destruct (processMessage_inv s Hinv) as (Hwf' & Hp' & Hm' & _).
    split; [exact Hwf'|]. split; [exact Hp'|]. split; [exact Hm'|].
    intros _. simpl. apply processMessage_cursor. lia.
  - apply inv_set_busIdle_false, Hinv.
Qed.

Lemma serve_inv (l : list Interrupt) (s : CCDLibrary) : inv s -> inv (serve l s).
Proof.
  revert s. induction l as [|i l IH]; intros s Hinv; [exact Hinv|].
  simpl. apply IH, ISR_inv, Hinv.
Qed.

Lemma wait_idle_inv (t0 : Z) (polls : list Poll) (s s' : CCDLibrary)
    (timeout : bool) (rest : list Poll) :
  inv s -> wait_idle t0 polls s = Some (timeout, s', rest) -> inv s'.
Proof.
  revert s. induction polls as [|p polls IH]; intros s Hinv; simpl; [discriminate|].
  pose proof (serve_inv (fired p) s Hinv) as Hinv'.
  destruct (_busIdle (serve (fired p) s)).
  - intros [= <- <- <-]. exact Hinv'.
  - destruct (1000 <? (millis p - t0) mod 2 ^ 32).
    + intros [= <- <- <-]. exact Hinv'.
    + apply IH, Hinv'.
Qed.

Lemma stage_frame_inv (buffer : list Z) (n : Z) (s : CCDLibrary) :
  inv s -> inv (stage_frame buffer n s).
Proof.
  intros (Hwf & Hp & Hm & Hidle).
  destruct (stage_frame_untouched buffer n s) as (_ & Hp' & Hm' & _).
  destruct (stage_frame_fields buffer n s) as (_ & _ & _ & _ & _ & _ & _ & _ & Hb).
  cbv zeta in Hp', Hm', Hb.
  split; [apply stage_frame_wf, Hwf|].
  rewrite Hp', Hm', Hb. repeat split; try lia. exact Hidle.
Qed.

Lemma arbitrate_inv (RX_PIN : Sample -> bool) (s : CCDLibrary) :
  inv s -> _busIdle s = false -> inv (snd (arbitrate RX_PIN s)).
Proof.
  intros ((W1 & W2 & W3) & Hp & Hm & _) Hb.
  destruct (arbitrate_untouched RX_PIN s) as (Hb' & Hmsg & Hml & _ & _ & Hrx).
  pose proof (arbitrate_tx_buffer RX_PIN s) as Htx.
  cbv zeta in Hb', Hmsg, Hml, Hrx.
  assert (Hpos : _serialRxBufferPos (snd (arbitrate RX_PIN s)) = 1).
  { unfold arbitrate. simpl. destruct (negb _ && _); reflexivity. }
  split; [repeat split; congruence|].
  rewrite Hpos, Hml, Hb', Hb. repeat split; try lia; try discriminate.
Qed.

Lemma write_inv (RX_PIN : Sample -> bool) (t0 : Z) (polls : list Poll)
    (buffer : list Z) (n : Z) (s s' : CCDLibrary) (status : Z)
    (rest : list Poll) :
  inv s ->
  write RX_PIN t0 polls buffer n s = Some (status, s', rest) ->
  inv s'.
Proof.
  intros Hinv Hwr.
  destruct (Z.eq_dec n 0) as [->|Hn].
  { rewrite write_zero_length_eq in Hwr. injection Hwr as _ <- _. exact Hinv. }
  destruct (wait_idle t0 polls (stage_frame buffer n s))
    as [[[timeout s2] rest2]|] eqn:Hw.
  - rewrite (write_after_wait _ _ _ _ _ _ _ _ _ Hn Hw) in Hwr.
    pose proof (wait_idle_inv _ _ _ _ _ _ (stage_frame_inv buffer n s Hinv) Hw)
      as Hinv2.
    destruct timeout; [injection Hwr as _ <- _; exact Hinv2|].
    destruct (_interruptsAvailable s).
    + injection Hwr as _ <- _.
      apply inv_set_avr, inv_set_busIdle_false, Hinv2.
    + pose proof (arbitrate_inv RX_PIN _ (inv_set_busIdle_false s2 Hinv2) eq_refl)
        as Hinv3.
      destruct (arbitrate RX_PIN (set_busIdle false s2)) as [st sa].
      injection Hwr as _ <- _. exact Hinv3.
  - unfold write in Hwr. destruct (Z.eqb_spec n 0); [contradiction|].
    rewrite Hw in Hwr. discriminate.
Qed.

Lemma processMessage_bounds (s : CCDLibrary) :
  bounds s -> bounds (processMessage s).
Proof.
  intros (Hp & Hm). split.
  - rewrite processMessage_cursor by lia. lia.
  - apply processMessage_length; assumption.
Qed.

Lemma ISR_bounds (i : Interrupt) (s : CCDLibrary) :
  bounds s -> bounds (ISR i s).
Proof.
  intros Hb. pose proof Hb as (Hp & Hm).
  destruct i; simpl.
  - unfold handle_TIMER3_COMPA_vect, busIdleTimerStop.
    rewrite processMessage_set_busIdle, processMessage_set_avr.
    exact (processMessage_bounds s Hb).
  - destruct (rx_byte_message usr data s) as (_ & Hml & _).
    cbv zeta in Hml. unfold bounds. rewrite Hml.
    destruct (Z_lt_ge_dec (_serialRxBufferPos s) 16) as [Hlt|Hge].
    + destruct (rx_byte_stored usr data s ltac:(lia)) as (Hp' & _).
      rewrite Hp'. lia.
    + destruct (rx_byte_dropped usr data s ltac:(lia)) as (Hp' & _).
      rewrite Hp'. lia.
  - unfold handle_USART1_UDRE_vect.
    destruct (_serialTxBufferPos s <? _serialTxLength s); exact Hb.
  - unfold busIdleInterruptHandler. rewrite processMessage_set_busIdle.
    exact (processMessage_bounds s Hb).
  - exact Hb.
Qed.

Lemma serve_bounds (l : list Interrupt) (s : CCDLibrary) :
  bounds s -> bounds (serve l s).
Proof.
  revert s. induction l as [|i l IH]; intros s Hb; [exact Hb|].
  simpl. apply IH, ISR_bounds, Hb.
Qed.

Lemma wait_idle_bounds (t0 : Z) (polls : list Poll) (s s' : CCDLibrary)
    (timeout : bool) (rest : list Poll) :
  bounds s -> wait_idle t0 polls s = Some (timeout, s', rest) -> bounds s'.
Proof.
  revert s. induction polls as [|p polls IH]; intros s Hb; simpl; [discriminate|].
  pose proof (serve_bounds (fired p) s Hb) as Hb'.
  destruct (_busIdle (serve (fired p) s)).
  - intros [= <- <- <-]. exact Hb'.
  - destruct (1000 <? (millis p - t0) mod 2 ^ 32).
    + intros [= <- <- <-]. exact Hb'.
    + apply IH, Hb'.
Qed.

Lemma stage_frame_bounds (buffer : list Z) (n : Z) (s : CCDLibrary) :
  bounds s -> bounds (stage_frame buffer n s).
Proof.
  intros (Hp & Hm).
  destruct (stage_frame_untouched buffer n s) as (_ & Hp' & Hm' & _).
  cbv zeta in Hp', Hm'. unfold bounds. rewrite Hp', Hm'. split; assumption.
Qed.

Lemma arbitrate_bounds (RX_PIN : Sample -> bool) (s : CCDLibrary) :
  bounds s -> bounds (snd (arbitrate RX_PIN s)).
Proof.
  intros (Hp & Hm).
  destruct (arbitrate_untouched RX_PIN s) as (_ & _ & Hml & _).
  cbv zeta in Hml.
  assert (Hpos : _serialRxBufferPos (snd (arbitrate RX_PIN s)) = 1).
  { unfold arbitrate. simpl. destruct (negb _ && _); reflexivity. }
  unfold bounds. rewrite Hpos, Hml. lia.
Qed.

Lemma write_bounds (RX_PIN : Sample -> bool) (t0 : Z) (polls : list Poll)
    (buffer : list Z) (n : Z) (s s' : CCDLibrary) (status : Z)
    (rest : list Poll) :
  bounds s ->
  write RX_PIN t0 polls buffer n s = Some (status, s', rest) ->
  bounds s'.
Proof.
  intros Hb Hwr.
  destruct (Z.eq_dec n 0) as [->|Hn].
  { rewrite write_zero_length_eq in Hwr. injection Hwr as _ <- _. exact Hb. }
  destruct (wait_idle t0 polls (stage_frame buffer n s))
    as [[[timeout s2] rest2]|] eqn:Hw.
  - rewrite (write_after_wait _ _ _ _ _ _ _ _ _ Hn Hw) in Hwr.
    pose proof (wait_idle_bounds _ _ _ _ _ _ (stage_frame_bounds buffer n s Hb) Hw)
      as Hb2.
    destruct timeout; [injection Hwr as _ <- _; exact Hb2|].
    destruct (_interruptsAvailable s).
    + injection Hwr as _ <- _. exact Hb2.
    + pose proof (arbitrate_bounds RX_PIN (set_busIdle false s2) Hb2) as Hb3.
      destruct (arbitrate RX_PIN (set_busIdle false s2)) as [st sa].
      injection Hwr as _ <- _. exact Hb3.
  - unfold write in Hwr. destruct (Z.eqb_spec n 0); [contradiction|].
    rewrite Hw in Hwr. discriminate.
Qed.

(** X7.  Cursor and mailbox length stay within the capacity.  With the
    receive cursor and the mailbox length between 0 and 16, they are so
    again after every interrupt handler, after [read] into a buffer of at
    least 16 bytes (which therefore returns a length of at most 16 and stays
    inside that buffer), and after [write] of at most 16 bytes from a buffer
    that has them, whatever it returns and whatever interrupts are served
    at the polls of its wait loop. *)
Theorem driver_bounds_kept (s : CCDLibrary) :
  wf s ->
  bounds s ->
  (forall i, bounds (ISR i s)) /\
  (forall target,
     (16 <= length target)%nat ->
     bounds (snd (read target s)) /\ 0 <= fst (fst (read target s)) <= 16) /\
  (forall RX_PIN t0 polls buffer bufferLength status s' rest,
     0 <= bufferLength <= 16 ->
     (Z.to_nat bufferLength <= length buffer)%nat ->
     write RX_PIN t0 polls buffer bufferLength s = Some (status, s', rest) ->
     bounds s').
Proof.
  intros Hwf Hb. split; [intros i; apply ISR_bounds, Hb|]. split.
  - intros target Ht. unfold read. simpl. split; [exact Hb | apply Hb].
  - intros RX_PIN t0 polls buffer n status s' rest Hn Hbuf Hwr.
    exact (write_bounds _ _ _ _ _ _ _ _ _ Hb Hwr).
Qed.

(** ** From the wire to the caller *)

(** A frame of 1 to 16 bytes delivered into an empty staging buffer. *)
Lemma rx_frame_staged (evs : list (Z * Z)) (s : CCDLibrary) :
  wf s -> _serialRxBufferPos s = 0 -> (length evs <= 16)%nat ->
  let s1 := serve (rx_events evs) s in
  _serialRxBufferPos s1 = Z.of_nat (length evs) /\
  take (length evs) (_serialRxBuffer s1) = snd <$> evs /\
  wf s1 /\
  _verifyRxChecksum s1 = _verifyRxChecksum s.
Proof.
  intros Hwf Hpos Hlen.
  destruct (rx_run evs s) as (Hp & _ & Htake); [apply Hwf | lia |].
  pose proof (serve_same_frame (rx_events evs) s) as Hf.
  cbv zeta in *.
  rewrite Hpos in Hp, Htake. simpl in Htake.
  assert (Hp1 : _serialRxBufferPos (serve (rx_events evs) s) = Z.of_nat (length evs))
    by lia.
  rewrite Hp1, Nat2Z.id in Htake.
  rewrite (take_ge (snd <$> evs)) in Htake by (rewrite length_fmap; lia).
  split; [exact Hp1|]. split; [exact Htake|].
  split; [exact (same_frame_wf _ _ Hf Hwf) | apply Hf].
Qed.

(** The checksum test on a staged frame, in terms of the bytes received. *)
Lemma checksum_ok_frame (data : list Z) (s1 : CCDLibrary) :
  (1 <= length data)%nat ->
  _serialRxBufferPos s1 = Z.of_nat (length data) ->
  take (length data) (_serialRxBuffer s1) = data ->
  checksum_ok s1 <->
  sumZ (take (length data - 1) data) mod 256 = get data (length data - 1).
Proof.
  intros Hlen Hp Htake. unfold checksum_ok. rewrite Hp.
  replace (Z.to_nat (Z.of_nat (length data) - 1)) with (length data - 1)%nat by lia.
  assert (H1 : take (length data - 1) (_serialRxBuffer s1)
               = take (length data - 1) data).
  { transitivity (take (length data - 1) (take (length data) (_serialRxBuffer s1)));
      [rewrite take_take; f_equal; lia | rewrite Htake; reflexivity]. }
  assert (H2 : get (_serialRxBuffer s1) (length data - 1)
               = get data (length data - 1)).
  { transitivity (get (take (length data) (_serialRxBuffer s1)) (length data - 1));
      [symmetry; apply get_take; lia | rewrite Htake; reflexivity]. }
  rewrite H1, H2. reflexivity.
Qed.

(** X9.  From the wire to the caller.  A frame of 1 to 16 bytes received
    into an empty staging buffer and followed by an idle event (either
    handler) is accepted when verification is off, or the frame has a single
    byte, or its last byte is the sum modulo 256 of the others, whatever the
    status register reported for each byte.  Then
    [available] is true whatever the mailbox held before, [read] returns
    the number of bytes received and copies exactly those bytes, in order,
    to the front of the caller's buffer, leaving the rest of it alone, and
    [available] is false afterwards. *)
Theorem receive_then_read (evs : list (Z * Z))
    (idle : CCDLibrary -> CCDLibrary) (target : list Z) (s : CCDLibrary) :
  wf s ->
  _serialRxBufferPos s = 0 ->
  (1 <= length evs <= 16)%nat ->
  (length evs <= length target)%nat ->
  idle = handle_TIMER3_COMPA_vect \/ idle = busIdleInterruptHandler ->
  (_verifyRxChecksum s = false \/
   length evs = 1%nat \/
   sumZ (take (length evs - 1) (snd <$> evs)) mod 256
   = get (snd <$> evs) (length evs - 1)) ->
  let s1 := idle (serve (rx_events evs) s) in
  available s1 = true /\
  (let '(n, target', s2) := read target s1 in
   n = Z.of_nat (length evs) /\
   take (length evs) target' = snd <$> evs /\
   drop (length evs) target' = drop (length evs) target /\
   available s2 = false).
Proof.
  intros Hwf Hpos Hlen Htarget Hidle Hacc.
  destruct (rx_frame_staged evs s Hwf Hpos ltac:(lia)) as (Hp1 & Htake & Hwf1 & Hv1).
  cbv zeta in Hp1, Htake, Hwf1, Hv1. cbv zeta.
  set (r1 := serve (rx_events evs) s) in *.
  destruct (idle_handlers_message idle r1 Hidle) as (Hmsg & Hml & Hflag & _).
  assert (Hok : _verifyRxChecksum r1 = false \/ _serialRxBufferPos r1 = 1 \/
                (1 < _serialRxBufferPos r1 < 256 /\ checksum_ok r1)).
  { destruct Hacc as [Hoff|[Hone|Hsum]].
    - left. congruence.
    - right. left. lia.
    - destruct (Nat.eq_dec (length evs) 1) as [H1|H1]; [right; left; lia|].
      right. right. split; [lia|].
      apply (checksum_ok_frame (snd <$> evs)); rewrite ?length_fmap;
        [lia | exact Hp1 | exact Htake | exact Hsum]. }
  assert (Hacc' := processMessage_accept r1 ltac:(lia) Hok).
  unfold available, read. simpl.
  rewrite Hflag, Hml, Hmsg, Hacc'. simpl. rewrite Hp1, Nat2Z.id.
  destruct Hwf1 as (Wm & Wr & _). unfold CAPACITY in Wm, Wr.
  split; [reflexivity|]. split; [reflexivity|].
  rewrite (copy_bytes_prefix _ _ target)
    by (rewrite ?length_copy_bytes; lia).
  rewrite take_copy_bytes by lia. rewrite Htake.
  assert (Hl : length (snd <$> evs) = length evs) by apply length_fmap.
  split; [apply take_app_length'; lia|].
  split; [apply drop_app_length'; lia | reflexivity].
Qed.

(** X10.  A stamped frame comes back.  The first [bufferLength] bytes that
    [write] leaves in the transmit buffer of a sender with checksum
    generation on (2 to 16 bytes, whatever [write] returns), delivered byte
    by byte to a receiver with verification on and an empty staging buffer
    and followed by an idle event, are accepted: the receiver's message is
    that frame, with its length, and [available] is true. *)
Theorem checksum_loopback (RX_PIN : Sample -> bool) (t0 : Z) (polls : list Poll)
    (buffer : list Z) (bufferLength : Z) (sender sender' receiver : CCDLibrary)
    (status : Z) (rest : list Poll) (idle : CCDLibrary -> CCDLibrary) :
  wf sender -> wf receiver ->
  _calculateTxChecksum sender = true ->
  _verifyRxChecksum receiver = true ->
  _serialRxBufferPos receiver = 0 ->
  2 <= bufferLength <= 16 ->
  (Z.to_nat bufferLength <= length buffer)%nat ->
  write RX_PIN t0 polls buffer bufferLength sender = Some (status, sender', rest) ->
  idle = handle_TIMER3_COMPA_vect \/ idle = busIdleInterruptHandler ->
  let frame := take (Z.to_nat bufferLength) (_serialTxBuffer sender') in
  let receiver' := idle (serve (rx_events ((fun b => (0, b)) <$> frame)) receiver) in
  _messageLength receiver' = bufferLength /\
  take (Z.to_nat bufferLength) (_message receiver') = frame /\
  available receiver' = true.
Proof.
  intros Hwfs Hwfr Hcalc Hver Hpos Hn Hbuf Hwr Hidle.
  assert (Hn0 : bufferLength <> 0) by lia.
  rewrite (write_tx_buffer _ _ _ _ _ _ _ _ _ Hn0 Hwr).
  destruct (stage_frame_loopback buffer bufferLength sender receiver
              Hwfs Hwfr Hcalc Hver Hpos Hn Hbuf) as (Hml & Hmsg).
  cbv zeta in Hml, Hmsg. cbv zeta.
  set (frame := take (Z.to_nat bufferLength)
                  (_serialTxBuffer (stage_frame buffer bufferLength sender))) in *.
  set (evs := (fun b => (0, b)) <$> frame) in *.
  destruct (idle_handlers_message idle (serve (rx_events evs) receiver) Hidle)
    as (Hmsg' & Hml' & Hflag' & _).
  unfold available. rewrite Hml', Hmsg', Hflag'.
  split; [exact Hml|]. split; [exact Hmsg|].
  rewrite processMessage_flag; [reflexivity|].
  assert (Hflen : length evs = Z.to_nat bufferLength).
  { subst evs frame. rewrite length_fmap, length_take.
    destruct (stage_frame_fields buffer bufferLength sender)
      as (_ & _ & _ & _ & _ & Hl & _).
    cbv zeta in Hl. rewrite Hl.
    destruct Hwfs as (_ & _ & W3). rewrite W3. unfold CAPACITY. lia. }
  destruct (rx_frame_staged evs receiver Hwfr Hpos ltac:(lia)) as (Hp1 & _).
  cbv zeta in Hp1. rewrite Hp1. lia.
Qed.

(** ** Start-up and what follows *)

Lemma begin_members (CCD_UBRR : Z) (compare_value : Z -> Z) (ia : bool)
    (bits : Z) (vr ct : bool) (s0 : CCDLibrary) (b0 : Board) :
  let s := fst (begin CCD_UBRR compare_value ia bits vr ct (s0, b0)) in
  _interruptsAvailable s = ia /\
  _busIdleBits s = bits /\
  _verifyRxChecksum s = vr /\
  _calculateTxChecksum s = ct /\
  _messageLength s = 0 /\
  _lastMessageRead s = true /\
  _serialRxBufferPos s = 0 /\
  _serialTxBufferPos s = 0 /\
  _serialTxLength s = 0 /\
  _lastSerialError s = 0 /\
  _busIdle s = ia /\
  _message s = _message s0 /\
  _serialRxBuffer s = _serialRxBuffer s0 /\
  _serialTxBuffer s = _serialTxBuffer s0 /\
  UCSR1B (avr s) =
    Z.lor (UCSR1B (avr s0))
      (Z.lor (Z.lor (Z.shiftl 1 RXCIE1) (Z.shiftl 1 RXEN1)) (Z.shiftl 1 TXEN1)).
Proof. destruct ia; repeat split. Qed.


Lemma call_inv (c : Call) (s s' : CCDLibrary) :
  inv s -> call c s = Some s' -> inv s'.
Proof.
  intros Hinv Hc. destruct c as [i|target|RX_PIN t0 polls buffer n]; simpl in Hc.
  - injection Hc as <-. apply ISR_inv, Hinv.
  - injection Hc as <-. unfold read. simpl.
    apply inv_set_lastMessageRead, Hinv.
  - destruct (write RX_PIN t0 polls buffer n s) as [[[status s1] rest]|] eqn:Hwr;
      [|discriminate].
    injection Hc as <-. exact (write_inv _ _ _ _ _ _ _ _ _ Hinv Hwr).
Qed.

Lemma calls_inv (cs : list Call) (s s' : CCDLibrary) :
  inv s -> calls cs s = Some s' -> inv s'.
Proof.
  revert s. induction cs as [|c cs IH]; intros s Hinv Hcs; simpl in Hcs.
  - injection Hcs as <-. exact Hinv.
  - destruct (call c s) as [s1|] eqn:Hc; [|discriminate].
    exact (IH s1 (call_inv c s s1 Hinv Hc) Hcs).
Qed.

(** X12.  Nothing that follows start-up leaves the capacity.  After
    [begin], for every sequence of interrupts, calls of [read] into buffers
    of at least 16 bytes and calls of [write] of at most 16 bytes from
    buffers that have them, with interrupts served between the calls and at
    the polls of the wait loop of [write], the receive cursor is between 0
    and 16 and the length [read] returns is between 0 and 16. *)
Theorem after_begin_bounds (CCD_UBRR : Z) (compare_value : Z -> Z)
    (interruptsAvailable : bool) (busIdleBits : Z)
    (verifyRxChecksum calculateTxChecksum : bool)
    (s0 : CCDLibrary) (b0 : Board) (cs : list Call) (s' : CCDLibrary) :
  wf s0 ->
  Forall call_ok cs ->
  calls cs (fst (begin CCD_UBRR compare_value interruptsAvailable busIdleBits
                   verifyRxChecksum calculateTxChecksum (s0, b0))) = Some s' ->
  bounds s' /\
  (forall target, 0 <= fst (fst (read target s')) <= 16).
Proof.
  intros (W1 & W2 & W3) Hok Hcs.
  destruct (begin_members CCD_UBRR compare_value interruptsAvailable busIdleBits
              verifyRxChecksum calculateTxChecksum s0 b0)
    as (_ & _ & _ & _ & Hml & _ & Hrx & _ & _ & _ & _ & Hmsg & Hrb & Htb & _).
  cbv zeta in Hml, Hrx, Hmsg, Hrb, Htb.
  assert (Hinv : inv (fst (begin CCD_UBRR compare_value interruptsAvailable
                             busIdleBits verifyRxChecksum calculateTxChecksum
                             (s0, b0)))).
  { split; [repeat split; congruence|].
    rewrite Hrx, Hml. repeat split; lia. }
  destruct (calls_inv cs _ _ Hinv Hcs) as (_ & Hp & Hm & _).
  split; [split; assumption|].
  intros target. unfold read. simpl. exact Hm.
Qed.

(** ** The wait of write *)

Lemma ISR_keeps_busy (i : Interrupt) (s : CCDLibrary) :
  idle_event i = false -> _busIdle s = false -> _busIdle (ISR i s) = false.
Proof.
  intros Hi Hb. destruct i; simpl in *; try discriminate.
  - unfold handle_USART1_RX_vect.
    destruct (negb (_interruptsAvailable s)); simpl;
      destruct (_serialRxBufferPos s <? 16); reflexivity.
  - unfold handle_USART1_UDRE_vect.
    destruct (_serialTxBufferPos s <? _serialTxLength s); exact Hb.
  - reflexivity.
Qed.

Lemma serve_keeps_busy (l : list Interrupt) (s : CCDLibrary) :
  forallb (fun i => negb (idle_event i)) l = true ->
  _busIdle s = false -> _busIdle (serve l s) = false.
Proof.
  revert s. induction l as [|i l IH]; intros s Hl Hb; [exact Hb|].
  simpl in Hl. apply andb_true_iff in Hl as (Hi & Hl).
  apply negb_true_iff in Hi. simpl.
  apply IH; [exact Hl | apply ISR_keeps_busy; assumption].
Qed.

Lemma wait_idle_without_idle_event (t0 : Z) (polls : list Poll) (s : CCDLibrary) :
  clock_expires t0 polls -> no_idle_event polls -> _busIdle s = false ->
  exists s' rest, wait_idle t0 polls s = Some (true, s', rest).
Proof.
  unfold clock_expires, no_idle_event. intros Hc. revert s.
  induction Hc as [p polls Hp | p polls _ IH]; intros s Hno Hb; simpl;
    inversion Hno as [|p' polls' Hp0 Hno']; subst;
    rewrite (serve_keeps_busy _ _ Hp0 Hb).
  - destruct (Z.ltb_spec 1000 ((millis p - t0) mod 2 ^ 32)); [eauto | lia].
  - destruct (1000 <? (millis p - t0) mod 2 ^ 32); [eauto|].
    apply IH; [exact Hno' | apply serve_keeps_busy; assumption].
Qed.

(** X13.  [write] returns.  For a frame of at most 16 bytes, if the clock
    read by the wait loop passes one second after the start of the wait at
    some poll (in 32-bit unsigned arithmetic, so also across a wrap of the
    millisecond counter), [write] returns, with status 0, 1, 2 or 3,
    whatever interrupts are served at the polls and whatever the bus
    does. *)
Theorem write_returns (RX_PIN : Sample -> bool) (t0 : Z) (polls : list Poll)
    (buffer : list Z) (bufferLength : Z) (s : CCDLibrary) :
  wf s ->
  0 <= bufferLength <= 16 ->
  (Z.to_nat bufferLength <= length buffer)%nat ->
  clock_expires t0 polls ->
  exists status s' rest,
    write RX_PIN t0 polls buffer bufferLength s = Some (status, s', rest) /\
    (status = 0 \/ status = 1 \/ status = 2 \/ status = 3).
Proof.
  intros Hwf Hn16 Hbuf Hc.
  destruct (Z.eq_dec bufferLength 0) as [->|Hn].
  { rewrite write_zero_length_eq. eauto 8. }
  destruct (wait_idle_terminates t0 polls (stage_frame buffer bufferLength s) Hc)
    as (timeout & s2 & rest & Hw).
  rewrite (write_after_wait _ _ _ _ _ _ _ _ _ Hn Hw).
  destruct timeout; [eauto 8|].
  destruct (_interruptsAvailable s); [eauto 8|].
  unfold arbitrate. cbv zeta.
  destruct (negb _ && _); eauto 10.
Qed.

(** X14.  No idle event, no transmission.  A write of 1 to 16 bytes that
    starts with the bus flag false, during which no idle event (idle-timer
    expiry or idle-pin edge) is served at any poll while the clock passes
    one second, returns 2, in either mode and whatever else is received at
    the polls. *)
Theorem write_times_out_without_idle_event (RX_PIN : Sample -> bool) (t0 : Z)
    (polls : list Poll) (buffer : list Z) (bufferLength : Z) (s : CCDLibrary) :
  wf s ->
  0 < bufferLength <= 16 ->
  (Z.to_nat bufferLength <= length buffer)%nat ->
  _busIdle s = false ->
  clock_expires t0 polls ->
  no_idle_event polls ->
  exists s' rest,
    write RX_PIN t0 polls buffer bufferLength s = Some (2, s', rest).
Proof.
  intros Hwf Hn16 Hbuf Hb Hc Hno.
  assert (Hn : bufferLength <> 0) by lia.
  destruct (stage_frame_fields buffer bufferLength s)
    as (_ & _ & _ & _ & _ & _ & _ & _ & Hb').
  cbv zeta in Hb'.
  destruct (wait_idle_without_idle_event t0 polls
              (stage_frame buffer bufferLength s) Hc Hno)
    as (s' & rest & Hw); [congruence|].
  exists s', rest.
  rewrite (write_after_wait _ _ _ _ _ _ _ _ _ Hn Hw). reflexivity.
Qed.

End Driver.

(** * Runs on concrete inputs *)

Lemma corrupt_frame_staged :
  _serialRxBufferPos (corrupt_frame OVERFLOW_BIT) = 2 /\
  _serialRxBuffer (corrupt_frame OVERFLOW_BIT) = 1 :: 2 :: replicate 14 0 /\
  _lastMessageRead (corrupt_frame OVERFLOW_BIT) = true.
Proof. repeat split. Qed.

Lemma processMessage_checksum_mismatch_witness :
  1 < _serialRxBufferPos (corrupt_frame OVERFLOW_BIT) <= 16 /\
  _verifyRxChecksum (corrupt_frame OVERFLOW_BIT) = true /\
  (let s' := processMessage (corrupt_frame OVERFLOW_BIT) in
   _messageLength s' = 0 /\
   _serialRxBufferPos s' = 0 /\
   _message s' = _message (corrupt_frame OVERFLOW_BIT) /\
   _lastMessageRead s' = false /\
   available s' = true).
Proof.
  destruct corrupt_frame_staged as (Hpos & Hrx & _).
  split; [rewrite Hpos; lia|]. split; [reflexivity|].
  apply (processMessage_checksum_mismatch (corrupt_frame OVERFLOW_BIT)).
  - rewrite Hpos. lia.
  - reflexivity.
  - rewrite Hpos, Hrx. intros H. vm_compute in H. discriminate.
Defined.

(** C1, as stated, fails: verification is on, two bytes are staged and the
    second is not the sum of the first; the driver had nothing to read
    before the idle event and is flagged available after it. *)
Lemma checksum_mismatch_sets_available :
  1 < _serialRxBufferPos (corrupt_frame OVERFLOW_BIT) /\
  _verifyRxChecksum (corrupt_frame OVERFLOW_BIT) = true /\
  sumZ (take 1 (_serialRxBuffer (corrupt_frame OVERFLOW_BIT))) mod 256
    <> get (_serialRxBuffer (corrupt_frame OVERFLOW_BIT)) 1 /\
  _lastMessageRead (processMessage (corrupt_frame OVERFLOW_BIT))
    <> _lastMessageRead (corrupt_frame OVERFLOW_BIT).
Proof.
  destruct corrupt_frame_staged as (Hpos & Hrx & Hflag).
  assert (Hafter : _lastMessageRead (processMessage (corrupt_frame OVERFLOW_BIT))
                   = false) by reflexivity.
  rewrite Hpos, Hrx, Hflag, Hafter.
  repeat split; intros H; vm_compute in H; discriminate.
Qed.

Lemma read_twice_same_frame_witness :
  wf (assembled_frame OVERFLOW_BIT) /\
  (let '(n1, t1, s1) := read (replicate 16 0) (assembled_frame OVERFLOW_BIT) in
   let '(n2, t2, s2) := read t1 s1 in
   n1 = _messageLength (assembled_frame OVERFLOW_BIT) /\
   take (Z.to_nat n1) t1
     = take (Z.to_nat n1) (_message (assembled_frame OVERFLOW_BIT)) /\
   available s1 = false /\
   n2 = _messageLength (assembled_frame OVERFLOW_BIT) /\
   take (Z.to_nat n2) t2
     = take (Z.to_nat n2) (_message (assembled_frame OVERFLOW_BIT)) /\
   available s2 = false).
Proof.
  assert (Hlen : _messageLength (assembled_frame OVERFLOW_BIT) = 2)
    by reflexivity.
  assert (Hwf : wf (assembled_frame OVERFLOW_BIT)) by (repeat split).
  split; [exact Hwf|].
  apply (read_twice_same_frame (assembled_frame OVERFLOW_BIT) (replicate 16 0)).
  - exact Hwf.
  - rewrite Hlen. lia.
  - rewrite Hlen. simpl. lia.
Defined.

(** C2, as stated, fails: a two-byte message is assembled; the first [read]
    returns length 2 and clears availability, the second returns length 2
    again. *)
Lemma second_read_returns_frame_again :
  let r1 := read (replicate 16 0) (assembled_frame OVERFLOW_BIT) in
  let r2 := read (snd (fst r1)) (snd r1) in
  fst (fst r1) = 2 /\
  available (snd r1) = false /\
  fst (fst r2) = 2 /\
  fst (fst r2) <> 0.
Proof.
  cbv zeta.
  assert (H2 : fst (fst (read (snd (fst (read (replicate 16 0)
                                            (assembled_frame OVERFLOW_BIT))))
                           (snd (read (replicate 16 0)
                                   (assembled_frame OVERFLOW_BIT))))) = 2)
    by reflexivity.
  rewrite H2. repeat split. discriminate.
Qed.

(** C3, at a concrete input: software mode, the bus busy at every poll while
    the clock passes one second.  [write] returns 2 and the two bytes are
    still staged, with the recorded length 2. *)
Theorem write_timeout_leaves_frame_staged :
  exists s',
    write OVERFLOW_BIT (bus_shows 16) 0 busy_polls [16; 32] 2
      (power_on false false false) = Some (2, s', []) /\
    _busIdle s' = false /\
    _serialTxLength s' = 2 /\
    _serialTxBufferPos s' = 0 /\
    take 2 (_serialTxBuffer s') = [16; 32].
Proof.
  exists (stage_frame [16; 32] 2 (power_on false false false)).
  repeat split.
Qed.

(** The driver sends 0x30 while the bus carries 0x10: bit 5 reads back low. *)
Lemma write_arbitration_lost_witness :
  _interruptsAvailable (power_on false false false) = false /\
  exists s',
    write OVERFLOW_BIT (bus_shows 16) 0 idle_poll [48; 1] 2
      (power_on false false false) = Some (3, s', []) /\
    _serialTxBufferPos s' = 0 /\
    _serialTxLength s' = 0 /\
    _serialRxBuffer s' !! 0%nat = Some 16 /\
    _serialRxBufferPos s' = 1.
Proof.
  split; [reflexivity|].
  apply (write_arbitration_lost OVERFLOW_BIT (bus_shows 16) 0 idle_poll [48; 1] 2
           (power_on false false false)
           (serve OVERFLOW_BIT [TIMER3_COMPA_vect]
              (stage_frame [48; 1] 2 (power_on false false false))) []).
  - repeat split.
  - reflexivity.
  - lia.
  - simpl. lia.
  - vm_compute. reflexivity.
  - right. intros H. vm_compute in H. discriminate.
Defined.

(** The driver sends 0x20 and the bus echoes it. *)
Lemma write_arbitration_won_witness :
  _interruptsAvailable (power_on false false false) = false /\
  exists s',
    write OVERFLOW_BIT (bus_shows 32) 0 idle_poll [32; 1] 2
      (power_on false false false) = Some (0, s', []) /\
    _serialTxBufferPos s' = 1 /\
    Z.testbit (UCSR1B (avr s')) UDRIE1 = true.
Proof.
  split; [reflexivity|].
  destruct (write_arbitration_won OVERFLOW_BIT (bus_shows 32) 0 idle_poll [32; 1] 2
              (power_on false false false)
              (serve OVERFLOW_BIT [TIMER3_COMPA_vect]
                 (stage_frame [32; 1] 2 (power_on false false false))) [])
    as (s' & H1 & H2 & H3 & _).
  - repeat split.
  - reflexivity.
  - lia.
  - simpl. lia.
  - vm_compute. reflexivity.
  - vm_compute. reflexivity.
  - vm_compute. reflexivity.
  - exists s'. repeat split; assumption.
Defined.

Lemma write_hardware_mode_status_witness :
  _interruptsAvailable (power_on true false false) = true /\
  match write OVERFLOW_BIT (bus_shows 0) 0 [mkPoll [] 0] [1; 2] 2
          (power_on true false false) with
  | Some (status, s', rest) =>
    status <> 3 /\
    (status = 0 \/ status = 1 \/ status = 2) /\
    (status = 0 ->
     exists s2,
       wait_idle OVERFLOW_BIT 0 [mkPoll [] 0]
         (stage_frame [1; 2] 2 (power_on true false false))
       = Some (false, s2, rest) /\
       s' = set_avr (io_UCSR1B (Z.lor (UCSR1B (avr s2)) (Z.shiftl 1 UDRIE1)) (avr s2))
              (set_busIdle false s2))
  | None =>
    2 <> 0 /\
    wait_idle OVERFLOW_BIT 0 [mkPoll [] 0]
      (stage_frame [1; 2] 2 (power_on true false false)) = None
  end.
Proof.
  split; [reflexivity|].
  apply (write_hardware_mode_status OVERFLOW_BIT (bus_shows 0) 0 [mkPoll [] 0]
           [1; 2] 2 (power_on true false false)).
  - repeat split.
  - reflexivity.
  - lia.
  - simpl. lia.
Defined.

Lemma idle_event_empty_staging_witness :
  _serialRxBufferPos (power_on false true false) = 0 /\
  processMessage (power_on false true false) = power_on false true false /\
  _lastMessageRead (handle_TIMER3_COMPA_vect (power_on false true false))
  = _lastMessageRead (power_on false true false).
Proof.
  split; [reflexivity|].
  destruct (idle_event_empty_staging (power_on false true false) eq_refl)
    as (H1 & (_ & _ & H2) & _).
  split; [exact H1 | exact H2].
Defined.

Lemma sound_frame_staged :
  _serialRxBufferPos (sound_frame OVERFLOW_BIT) = 4 /\
  wf (sound_frame OVERFLOW_BIT).
Proof. repeat split. Qed.

Lemma checksum_stamp_and_verify_witness :
  (exists status sender' rest,
     write OVERFLOW_BIT (bus_shows 1) 0 [mkPoll [] 2000] [1; 2; 3; 0] 4
       (power_on true false true) = Some (status, sender', rest) /\
     _serialTxBuffer sender' !! 3%nat = Some 6 /\
     take 3 (_serialTxBuffer sender') = [1; 2; 3]) /\
  _messageLength (processMessage (sound_frame OVERFLOW_BIT)) = 4.
Proof.
  destruct sound_frame_staged as (Hpos & Hwf).
  destruct (checksum_stamp_and_verify OVERFLOW_BIT (bus_shows 1) 0
              [mkPoll [] 2000] [1; 2; 3; 0] 4
              (power_on true false true) (sound_frame OVERFLOW_BIT))
    as (Htx & Hrx & _).
  - repeat split.
  - reflexivity.
  - lia.
  - simpl. lia.
  - apply Exists_cons_hd. reflexivity.
  - exact Hwf.
  - reflexivity.
  - rewrite Hpos. lia.
  - split; [exact Htx|].
    destruct Hrx as [_ Hrx]. rewrite Hpos in Hrx.
    apply Hrx. reflexivity.
Defined.

Lemma rx_overflow_keeps_first_16_witness :
  _serialRxBufferPos
    (serve OVERFLOW_BIT (rx_events twenty_bytes) (power_on false false false)) = 16 /\
  Z.land (_lastSerialError
            (serve OVERFLOW_BIT (rx_events twenty_bytes) (power_on false false false)))
    OVERFLOW_BIT = OVERFLOW_BIT /\
  _messageLength
    (handle_TIMER3_COMPA_vect
       (serve OVERFLOW_BIT (rx_events twenty_bytes) (power_on false false false))) = 16 /\
  _message
    (handle_TIMER3_COMPA_vect
       (serve OVERFLOW_BIT (rx_events twenty_bytes) (power_on false false false)))
  = Z.of_nat <$> seq 1 16.
Proof.
  destruct (rx_overflow_keeps_first_16 OVERFLOW_BIT twenty_bytes 0 21
              (power_on false false false))
    as (Hpos & _ & _ & Hovf & _ & Hidle).
  - repeat split.
  - simpl. lia.
  - unfold OVERFLOW_BIT. lia.
  - destruct (Hidle ltac:(simpl; lia) handle_TIMER3_COMPA_vect (or_introl eq_refl))
      as (_ & Hmsg & _).
    destruct (Hmsg (or_introl eq_refl)) as (Hlen & Hbytes).
    split; [exact Hpos|].
    split; [apply Hovf; simpl; lia|].
    split; [exact Hlen | exact Hbytes].
Defined.

(** ** Runs for the properties beyond the claims *)

Lemma transmit_run_witness :
  let s := stage_frame [1; 2; 3] 3 (power_on true false false) in
  let s1 := serve OVERFLOW_BIT (udre_events 3) s in
  let s2 := handle_USART1_UDRE_vect s1 in
  UDR1_out (avr s1) = [1; 2; 3] /\
  UDR1_out (avr s2) = [1; 2; 3] /\
  _serialTxBufferPos s2 = 0 /\
  _serialTxLength s2 = 0 /\
  Z.testbit (UCSR1B (avr s2)) UDRIE1 = false.
Proof.
  destruct (transmit_run OVERFLOW_BIT (stage_frame [1; 2; 3] 3 (power_on true false false)))
    as (H1 & _ & _ & H2 & H3 & H4 & _ & H5 & _).
  - apply stage_frame_wf. repeat split.
  - simpl. lia.
  - simpl. lia.
  - cbv zeta. split; [exact H1|]. split; [exact (eq_trans H2 H1)|].
    split; [exact H3|]. split; [exact H4 | exact H5].
Defined.

Lemma write_hardware_sends_frame_witness :
  exists s',
    write OVERFLOW_BIT (bus_shows 0) 0 [mkPoll [] 5000] [1; 2; 3; 0] 4
      (power_on true false true) = Some (0, s', []) /\
    Z.testbit (UCSR1B (avr s')) UDRIE1 = true /\
    (let s1 := serve OVERFLOW_BIT (udre_events (Z.to_nat 4)) s' in
     let s2 := handle_USART1_UDRE_vect s1 in
     UDR1_out (avr s1) =
       UDR1_out (avr (power_on true false true))
       ++ staged_bytes (_calculateTxChecksum (power_on true false true)) [1; 2; 3; 0] 4 /\
     UDR1_out (avr s2) = UDR1_out (avr s1) /\
     Z.testbit (UCSR1B (avr s2)) UDRIE1 = false /\
     _serialTxBufferPos s2 = 0 /\
     _serialTxLength s2 = 0).
Proof.
  apply (write_hardware_sends_frame OVERFLOW_BIT (bus_shows 0) 0 (mkPoll [] 5000) []
           [1; 2; 3; 0] 4 (power_on true false true)).
  - repeat split.
  - reflexivity.
  - reflexivity.
  - reflexivity.
  - lia.
  - simpl. lia.
Defined.

(** The bytes of that run, with the checksum 6 in place of the last byte. *)
Lemma staged_bytes_example : staged_bytes true [1; 2; 3; 0] 4 = [1; 2; 3; 6].
Proof. reflexivity. Qed.

Lemma write_software_mode_outcome_witness :
  exists status s' byte,
    write OVERFLOW_BIT (bus_shows 16) 0 idle_poll [48; 1] 2
      (power_on false false false) = Some (status, s', []) /\
    (status = 0 \/ status = 3) /\
    (status = 0 <-> echoed (bus_shows 16) (get [48; 1] 0)) /\
    _serialRxBufferPos s' = 1 /\
    _serialRxBuffer s' !! 0%nat = Some byte /\
    0 <= byte < 256 /\
    (forall i, (i < 8)%nat ->
       Z.testbit byte (Z.of_nat i) = bus_shows 16 (DataBit i)).
Proof.
  apply (write_software_mode_outcome OVERFLOW_BIT (bus_shows 16) 0 idle_poll [48; 1] 2
           (power_on false false false)
           (serve OVERFLOW_BIT [TIMER3_COMPA_vect]
              (stage_frame [48; 1] 2 (power_on false false false))) []).
  - repeat split.
  - reflexivity.
  - lia.
  - simpl. lia.
  - unfold get. simpl. lia.
  - vm_compute. reflexivity.
Defined.

Lemma write_software_mode_uart_witness :
  exists status s',
    write OVERFLOW_BIT (bus_shows 16) 0 idle_poll [48; 1] 2
      (power_on false false false) = Some (status, s', []) /\
    Z.testbit (UCSR1B (avr s')) RXCIE1 = true /\
    Z.testbit (UCSR1B (avr s')) RXEN1 = true /\
    Z.testbit (UCSR1B (avr s')) TXEN1 = true /\
    Z.testbit (UCSR1B (avr s')) UDRIE1 = (status =? 0) /\
    (forall k, 0 <= k ->
       k <> RXCIE1 -> k <> RXEN1 -> k <> TXEN1 -> k <> UDRIE1 ->
       Z.testbit (UCSR1B (avr s')) k
       = Z.testbit (UCSR1B (avr (serve OVERFLOW_BIT [TIMER3_COMPA_vect]
                                   (stage_frame [48; 1] 2
                                      (power_on false false false))))) k).
Proof.
  apply (write_software_mode_uart OVERFLOW_BIT (bus_shows 16) 0 idle_poll [48; 1] 2
           (power_on false false false)
           (serve OVERFLOW_BIT [TIMER3_COMPA_vect]
              (stage_frame [48; 1] 2 (power_on false false false))) []).
  - repeat split.
  - reflexivity.
  - lia.
  - simpl. lia.
  - vm_compute. reflexivity.
Defined.

Lemma write_software_sends_rest_witness :
  echoed (bus_shows 32) (get [32; 1; 2] 0) /\
  exists s',
    write OVERFLOW_BIT (bus_shows 32) 0 idle_poll [32; 1; 2] 3
      (power_on false false false) = Some (0, s', []) /\
    (let s1 := serve OVERFLOW_BIT (udre_events (Z.to_nat (3 - 1))) s' in
     let s3 := handle_USART1_UDRE_vect s1 in
     UDR1_out (avr s1) =
       UDR1_out (avr (serve OVERFLOW_BIT [TIMER3_COMPA_vect]
                        (stage_frame [32; 1; 2] 3 (power_on false false false))))
       ++ drop 1 (staged_bytes (_calculateTxChecksum (power_on false false false))
                    [32; 1; 2] 3) /\
     UDR1_out (avr s3) = UDR1_out (avr s1) /\
     Z.testbit (UCSR1B (avr s3)) UDRIE1 = false /\
     _serialTxBufferPos s3 = 0 /\
     _serialTxLength s3 = 0).
Proof.
  assert (Hech : echoed (bus_shows 32) (get [32; 1; 2] 0)) by (repeat split).
  split; [exact Hech|].
  apply (write_software_sends_rest OVERFLOW_BIT (bus_shows 32) 0 idle_poll [32; 1; 2] 3
           (power_on false false false)
           (serve OVERFLOW_BIT [TIMER3_COMPA_vect]
              (stage_frame [32; 1; 2] 3 (power_on false false false))) []).
  - repeat split.
  - reflexivity.
  - lia.
  - simpl. lia.
  - unfold get. simpl. lia.
  - vm_compute. reflexivity.
  - reflexivity.
  - exact Hech.
Defined.

Lemma driver_bounds_kept_witness :
  bounds (power_on false true false) /\
  (forall i, bounds (ISR OVERFLOW_BIT i (power_on false true false))).
Proof.
  assert (Hb : bounds (power_on false true false))
    by (unfold bounds; simpl; lia).
  split; [exact Hb|].
  apply (driver_bounds_kept OVERFLOW_BIT (power_on false true false)).
  - repeat split.
  - exact Hb.
Defined.

Lemma receive_then_read_witness :
  let s1 := handle_TIMER3_COMPA_vect
              (serve OVERFLOW_BIT (rx_events [(0, 5); (0, 6)])
                 (power_on false false false)) in
  available s1 = true /\
  (let '(n, target', s2) := read (replicate 16 0) s1 in
   n = Z.of_nat (length [(0, 5); (0, 6)]) /\
   take (length [(0, 5); (0, 6)]) target' = snd <$> [(0, 5); (0, 6)] /\
   drop (length [(0, 5); (0, 6)]) target'
   = drop (length [(0, 5); (0, 6)]) (replicate 16 0) /\
   available s2 = false).
Proof.
  apply (receive_then_read OVERFLOW_BIT [(0, 5); (0, 6)] handle_TIMER3_COMPA_vect
           (replicate 16 0) (power_on false false false)).
  - repeat split.
  - reflexivity.
  - simpl. lia.
  - simpl. lia.
  - left. reflexivity.
  - left. reflexivity.
Defined.

Lemma checksum_loopback_witness :
  let sender' :=
    set_avr (io_UCSR1B (Z.lor 152 (Z.shiftl 1 UDRIE1))
               (avr (power_on true false true)))
      (set_busIdle false (stage_frame [1; 2; 3; 0] 4 (power_on true false true))) in
  let frame := take (Z.to_nat 4) (_serialTxBuffer sender') in
  let receiver' :=
    handle_TIMER3_COMPA_vect
      (serve OVERFLOW_BIT (rx_events ((fun b => (0, b)) <$> frame))
         (power_on false true false)) in
  _messageLength receiver' = 4 /\
  take (Z.to_nat 4) (_message receiver') = frame /\
  available receiver' = true.
Proof.
  apply (checksum_loopback OVERFLOW_BIT (bus_shows 0) 0 [mkPoll [] 0] [1; 2; 3; 0] 4
           (power_on true false true) _ (power_on false true false) 0 []
           handle_TIMER3_COMPA_vect).
  - repeat split.
  - repeat split.
  - reflexivity.
  - reflexivity.
  - reflexivity.
  - lia.
  - simpl. lia.
  - vm_compute. reflexivity.
  - left. reflexivity.
Defined.

(** [power_on] is [begin] on a zeroed driver object, for ten idle bits. *)
Lemma begin_zeroed_power_on (CCD_UBRR : Z) (ia vr ct : bool) :
  fst (begin CCD_UBRR (fun _ => 19) ia 10 vr ct zeroed) = power_on ia vr ct.
Proof. destruct ia; reflexivity. Qed.


(** A byte is received, the idle timer expires, the frame is read and a
    two-byte frame is written. *)
Lemma after_begin_bounds_witness :
  exists s',
    calls OVERFLOW_BIT
      [Irq (USART1_RX_vect 0 5); Irq TIMER3_COMPA_vect; Read (replicate 16 0);
       Write (bus_shows 0) 0 [mkPoll [] 2000] [1; 2] 2]
      (fst (begin 127 (fun _ => 19) false 10 false false
              (fst zeroed, snd zeroed))) = Some s' /\
    bounds s' /\
    (forall target, 0 <= fst (fst (read target s')) <= 16).
Proof.
  eexists. split; [vm_compute; reflexivity|].
  apply (after_begin_bounds OVERFLOW_BIT 127 (fun _ => 19) false 10 false false
           (fst zeroed) (snd zeroed)
           [Irq (USART1_RX_vect 0 5); Irq TIMER3_COMPA_vect; Read (replicate 16 0);
            Write (bus_shows 0) 0 [mkPoll [] 2000] [1; 2] 2]).
  - repeat split.
  - repeat constructor; simpl; lia.
  - vm_compute. reflexivity.
Defined.

(** The wait started 500 ms before the millisecond counter wraps. *)
Lemma write_returns_witness :
  exists status s' rest,
    write OVERFLOW_BIT (bus_shows 0) (2 ^ 32 - 500) [mkPoll [] 100; mkPoll [] 600]
      [1; 2] 2 (power_on false false false) = Some (status, s', rest) /\
    (status = 0 \/ status = 1 \/ status = 2 \/ status = 3).
Proof.
  apply (write_returns OVERFLOW_BIT (bus_shows 0) (2 ^ 32 - 500)
           [mkPoll [] 100; mkPoll [] 600] [1; 2] 2 (power_on false false false)).
  - repeat split.
  - lia.
  - simpl. lia.
  - apply Exists_cons_tl, Exists_cons_hd. vm_compute. reflexivity.
Defined.

(** A byte arrives during the wait, no idle event does. *)
Lemma write_times_out_without_idle_event_witness :
  exists s' rest,
    write OVERFLOW_BIT (bus_shows 0) 0
      [mkPoll [USART1_RX_vect 0 9] 400; mkPoll [] 1001]
      [1; 2] 2 (power_on false false false) = Some (2, s', rest).
Proof.
  apply (write_times_out_without_idle_event OVERFLOW_BIT (bus_shows 0) 0
           [mkPoll [USART1_RX_vect 0 9] 400; mkPoll [] 1001]
           [1; 2] 2 (power_on false false false)).
  - repeat split.
  - lia.
  - simpl. lia.
  - reflexivity.
  - apply Exists_cons_tl, Exists_cons_hd. vm_compute. reflexivity.
  - repeat constructor.
Defined.
